(** * evodash01: the scalping engine and its safety machinery

    A shallow embedding of the parts of the repository that the
    specification's properties are about:

    - [SafetySystem], [OrderFailureTracker], [SmartCache], [GateIOClient]
      and the state machine of [CursesDashboard.scalp_runner]
      (dash01_refactored.py);
    - [SafeSleepManager] (safe_sleep_manager.py);
    - [CircuitBreaker], [GateIORateLimitHandler] and
      [ApiRetryManager.execute_with_retry] (api_retry_manager.py);
    - [SharedState], [BudgetCoordinator] and [SessionManager]
      (session_manager.py).

    Python floats (prices, quantities, seconds) are idealised as exact
    rationals [Q]; the wall clock, the calendar date, the random jitter and
    every answer of the exchange are explicit inputs of the functions that
    read them.  Python objects that are mutated in place are threaded
    through as explicit state. *)

From Stdlib Require Import ZArith QArith Qround Qminmax Lqa Lia List Bool.
From Stdlib Require Import Qpower Permutation Sorted Qabs.
From stdpp Require Import gmap strings.
Import ListNotations.

Open Scope Q_scope.

(** ** Arithmetic on idealised floats *)

Definition Qltb (a b : Q) : bool := negb (Qle_bool b a).
Definition Qgtb (a b : Q) : bool := Qltb b a.
Definition Qgeb (a b : Q) : bool := Qle_bool b a.

(** Python truthiness of a float: [0.0] is falsy. *)
Definition truthy (x : Q) : bool := negb (Qeq_bool x 0).

(** [round(x, 8)]: nearest multiple of 1e-8, ties to even. *)
Definition round_half_even (x : Q) : Z :=
  let n := Qfloor x in
  let frac := x - inject_Z n in
  if Qltb frac 0.5 then n
  else if Qltb 0.5 frac then (n + 1)%Z
  else if Z.even n then n else (n + 1)%Z.

Definition round8 (x : Q) : Q :=
  inject_Z (round_half_even (x * 100000000)) / 100000000.

(** [Decimal(qty).quantize(Decimal('0.00000001'), rounding=ROUND_DOWN)]:
    truncation toward zero at the eighth decimal. *)
Definition round_amount (qty : Q) : Q :=
  let s := qty * 100000000 in
  inject_Z (Z.quot (Qnum s) (Zpos (Qden s))) / 100000000.

(** ** SafetySystem (dash01_refactored.py) *)

Module SafetySystem.

Record t := mk {
  max_daily_loss : Q;
  min_win_rate : Q;
  daily_pnl : Q;
  trade_history : list Q;
  start_time : Z            (* the calendar day of the last reset *)
}.

(** [SafetySystem(max_daily_loss, min_win_rate)] created on day [today]. *)
Definition init (mdl mwr : Q) (today : Z) : t :=
  mk mdl mwr 0 [] today.

(** [sum(1 for trade in trade_history if trade > 0)] *)
Definition wins (h : list Q) : nat :=
  length (filter (fun trade => Qltb 0 trade) h).

Definition win_rate (h : list Q) : Q :=
  inject_Z (Z.of_nat (wins h)) / inject_Z (Z.of_nat (length h)).

(** [check_trade(pnl)], with [today] the value of
    [datetime.now().date()] at the call. *)
Definition check_trade (today : Z) (pnl : Q) (s : t) : bool * t :=
  let s1 :=
    if negb (today =? start_time s)%Z
    then mk (max_daily_loss s) (min_win_rate s) 0 [] today
    else s in
  let s2 :=
    mk (max_daily_loss s1) (min_win_rate s1)
       (daily_pnl s1 + pnl) (trade_history s1 ++ [pnl]) (start_time s1) in
  if Qltb (daily_pnl s2) (- max_daily_loss s2) then (false, s2)
  else if (5 <=? length (trade_history s2))%nat then
    if Qltb (win_rate (trade_history s2)) (min_win_rate s2)
    then (false, s2)
    else (true, s2)
  else (true, s2).

End SafetySystem.

(** ** OrderFailureTracker (dash01_refactored.py) *)

Module OrderFailureTracker.

Record t := mk {
  max_failures : Z;
  cooldown_seconds : Q;
  failure_count : Z;
  last_failure_time : Q;
  circuit_open : bool;
  consecutive_failures : Z;
  backoff_multiplier : Q;
  max_backoff : Q;
  failure_types : gmap string Z
}.

Definition init (max_f : Z) (cooldown : Q) : t :=
  mk max_f cooldown 0 0 false 0 1.5 300
     (list_to_map [("network"%string, 0%Z); ("api_limit"%string, 0%Z);
                   ("insufficient_balance"%string, 0%Z);
                   ("validation"%string, 0%Z); ("unknown"%string, 0%Z)]).

(** [OrderFailureTracker()] with the default arguments. *)
Definition default : t := init 5 60.

(** [record_failure(failure_type)] at clock reading [now].  The
    notification sent to the monitoring bus when the circuit opens has no
    effect on the tracker and is left out. *)
Definition record_failure (now : Q) (failure_type : string) (s : t) : t :=
  let fc := (failure_count s + 1)%Z in
  let types :=
    match failure_types s !! failure_type with
    | Some n => <[failure_type := (n + 1)%Z]> (failure_types s)
    | None => failure_types s
    end in
  mk (max_failures s) (cooldown_seconds s) fc now
     (if (max_failures s <=? fc)%Z then true else circuit_open s)
     (consecutive_failures s + 1)%Z
     (backoff_multiplier s) (max_backoff s) types.

Definition record_success (s : t) : t :=
  mk (max_failures s) (cooldown_seconds s) 0 (last_failure_time s)
     false 0 (backoff_multiplier s) (max_backoff s) (failure_types s).

(** [min(cooldown_seconds * backoff_multiplier ** (consecutive_failures - 1),
        max_backoff)] *)
Definition backoff_time (s : t) : Q :=
  Qmin (cooldown_seconds s
        * Qpower (backoff_multiplier s) (consecutive_failures s - 1))
       (max_backoff s).

Definition can_place_order (now : Q) (s : t) : bool * t :=
  if negb (circuit_open s) then
    if (0 <? consecutive_failures s)%Z then
      if Qltb (now - last_failure_time s) (backoff_time s)
      then (false, s)
      else (true, s)
    else (true, s)
  else if Qgeb (now - last_failure_time s) (cooldown_seconds s) then
    (true, mk (max_failures s) (cooldown_seconds s) 0 (last_failure_time s)
              false 0 (backoff_multiplier s) (max_backoff s)
              (failure_types s))
  else (false, s).

End OrderFailureTracker.

(** ** CircuitBreaker (api_retry_manager.py) *)

Module CircuitBreaker.

Inductive state := CLOSED | OPEN | HALF_OPEN.

Record t := mk {
  failure_threshold : Z;
  recovery_timeout : Q;
  failure_count : Z;
  last_failure_time : Q;
  st : state
}.

Definition init (threshold : Z) (timeout : Q) : t :=
  mk threshold timeout 0 0 CLOSED.

(** [CircuitBreaker()]: threshold 5, recovery timeout 300 s. *)
Definition default : t := init 5 300.

Definition record_failure (now : Q) (b : t) : t :=
  let fc := (failure_count b + 1)%Z in
  mk (failure_threshold b) (recovery_timeout b) fc now
     (if (failure_threshold b <=? fc)%Z then OPEN else st b).

Definition record_success (b : t) : t :=
  match st b with
  | HALF_OPEN =>
      mk (failure_threshold b) (recovery_timeout b) 0
         (last_failure_time b) CLOSED
  | _ => b
  end.

Definition can_proceed (now : Q) (b : t) : bool * t :=
  match st b with
  | CLOSED => (true, b)
  | OPEN =>
      if Qgeb (now - last_failure_time b) (recovery_timeout b)
      then (true, mk (failure_threshold b) (recovery_timeout b)
                     (failure_count b) (last_failure_time b) HALF_OPEN)
      else (false, b)
  | HALF_OPEN => (true, b)
  end.

(** The operations a caller can apply to a breaker, and the breakers
    that a sequence of them produces from a fresh one. *)
Inductive op := RecordFailure (now : Q) | RecordSuccess | CanProceed (now : Q).

Definition apply (o : op) (b : t) : t :=
  match o with
  | RecordFailure now => record_failure now b
  | RecordSuccess => record_success b
  | CanProceed now => snd (can_proceed now b)
  end.

Inductive reachable (threshold : Z) (timeout : Q) : t -> Prop :=
| reach_init : reachable threshold timeout (init threshold timeout)
| reach_step o b :
    reachable threshold timeout b ->
    reachable threshold timeout (apply o b).

End CircuitBreaker.

(** ** SafeSleepManager (safe_sleep_manager.py) *)

Module SafeSleepManager.

Inductive SleepContext :=
| API_RETRY | TRADING_CYCLE | ERROR_RECOVERY
| CIRCUIT_BREAKER | DATA_POLLING | BALANCE_CHECK.

Definition is_circuit_breaker (c : SleepContext) : bool :=
  match c with CIRCUIT_BREAKER => true | _ => false end.

Record SleepLimits := mkLimits {
  min_sleep : Q;
  max_sleep : Q;
  default_sleep : Q;
  max_total_wait : Q
}.

(** The dataclass defaults of [SleepLimits]. *)
Definition default_limits : SleepLimits := mkLimits 0.1 300 0.5 3600.

Record sleep_record := mkRecord {
  rec_duration : Q;
  rec_context : SleepContext;
  rec_timestamp : Q
}.

Record t := mk {
  limits : SleepLimits;
  total_sleep_time : Q;
  session_start_time : Q;
  sleep_history : list sleep_record
}.

Definition init (l : SleepLimits) (now : Q) : t := mk l 0 now [].

(** What one call of [safe_sleep] reads from outside: the value drawn by
    [random.uniform(0.9, 1.1)], the clock when the sleep is recorded, and
    the duration measured around [time.sleep]. *)
Record sleep_env := mkEnv {
  jitter_factor : Q;
  timestamp : Q;
  actual_duration : Q
}.

Definition sanitize_duration (m : t) (duration : Q) (context : SleepContext) : Q :=
  if Qle_bool duration 0 then min_sleep (limits m)
  else
    let max_allowed :=
      match context with
      | CIRCUIT_BREAKER => Qmin duration 600
      | API_RETRY => Qmin duration (max_sleep (limits m))
      | _ => Qmin duration (Qmin (max_sleep (limits m)) 30)
      end in
    Qmax (min_sleep (limits m)) (Qmin max_allowed duration).

(** The duration handed to [time.sleep]: the sanitized one, jittered
    unless the context is the circuit breaker's. *)
Definition planned_duration (m : t) (duration : Q) (context : SleepContext)
           (jitter : bool) (e : sleep_env) : Q :=
  let safe_duration := sanitize_duration m duration context in
  if jitter && negb (is_circuit_breaker context)
  then Qmax (min_sleep (limits m)) (safe_duration * jitter_factor e)
  else safe_duration.

Definition safe_sleep (duration : Q) (context : SleepContext) (jitter : bool)
           (e : sleep_env) (m : t) : bool * t :=
  let safe_duration := sanitize_duration m duration context in
  if Qltb (max_total_wait (limits m)) (total_sleep_time m + safe_duration)
  then (false, m)
  else
    let d := planned_duration m duration context jitter e in
    (true, mk (limits m)
              (total_sleep_time m + actual_duration e)
              (session_start_time m)
              (sleep_history m ++ [mkRecord d context (timestamp e)])).

(** [circuit_breaker_sleep(failure_count)] with the default
    [max_delay = 300.0]. *)
Definition circuit_breaker_sleep (failure_count : Z) (e : sleep_env) (m : t)
  : bool * t :=
  let delay := Qmin (10 * Qpower 1.5 failure_count) 300 in
  safe_sleep delay CIRCUIT_BREAKER true e m.

Definition create_trading_sleep_manager (now : Q) : t :=
  init (mkLimits 0.1 30 0.5 1800) now.

Definition create_api_sleep_manager (now : Q) : t :=
  init (mkLimits 0.2 300 1 3600) now.

(** A session: a sequence of [safe_sleep] calls with what each one read. *)
Record call := mkCall {
  c_duration : Q;
  c_context : SleepContext;
  c_jitter : bool;
  c_env : sleep_env
}.




End SafeSleepManager.

(** ** The retry manager (api_retry_manager.py) *)

Module ApiRetryManager.

Inductive RetryableErrorType :=
| NETWORK_ERROR | RATE_LIMIT | SERVER_ERROR | TIMEOUT | API_ERROR | UNKNOWN.

Definition is_rate_limit (e : RetryableErrorType) : bool :=
  match e with RATE_LIMIT => true | _ => false end.

Record RetryConfig := mkConfig {
  max_attempts : Z;
  base_delay : Q;
  max_delay : Q;
  exponential_base : Q;
  jitter : bool;
  backoff_multiplier : Q
}.

(** The dataclass defaults of [RetryConfig]. *)
Definition default_config : RetryConfig := mkConfig 5 1 60 2 true 1.5.

Record RetryAttempt := mkAttempt {
  attempt_number : Z;
  error_type : RetryableErrorType;
  delay_seconds : Q;
  attempt_timestamp : Q
}.

(** What the manager reads from outside: the clock, [time.sleep] and
    [random.uniform]. *)
Class World (W : Type) := {
  now : W -> Q;
  sleep : Q -> W -> W;
  uniform : Q -> Q -> W -> Q * W
}.

(** [IRateLimitHandler] *)
Class IRateLimitHandler (H W : Type) := {
  handle_rate_limit : option Z -> H -> W -> Q * H * W;
  can_make_request : H -> W -> bool * H * W
}.

Record GateIORateLimitHandler := mkHandler {
  last_request_time : Q;
  min_interval : Q;
  rate_limit_until : Q
}.

Definition new_handler : GateIORateLimitHandler := mkHandler 0 0.1 0.

Section GateIO.
Context {W : Type} `{World W}.

Definition gate_handle_rate_limit (retry_after : option Z)
           (h : GateIORateLimitHandler) (w : W)
  : Q * GateIORateLimitHandler * W :=
  let '(delay, w1) :=
    match retry_after with
    | Some r => if (r =? 0)%Z
                then let '(u, w') := uniform 0 30 w in (60 + u, w')
                else (inject_Z r * 1.2, w)
    | None => let '(u, w') := uniform 0 30 w in (60 + u, w')
    end in
  (delay,
   mkHandler (last_request_time h) (min_interval h) (now w1 + delay),
   w1).

Definition gate_can_make_request (h : GateIORateLimitHandler) (w : W)
  : bool * GateIORateLimitHandler * W :=
  if Qltb (now w) (rate_limit_until h) then (false, h, w)
  else if Qltb (now w - last_request_time h) (min_interval h)
       then (false, h, w)
       else (true, mkHandler (now w) (min_interval h) (rate_limit_until h), w).

#[export] Instance gate_io_handler : IRateLimitHandler GateIORateLimitHandler W := {
  handle_rate_limit := gate_handle_rate_limit;
  can_make_request := gate_can_make_request
}.

(** [ExponentialBackoffCalculator.calculate_delay] *)
Definition calculate_delay (attempt : Z) (config : RetryConfig)
           (et : RetryableErrorType) (w : W) : Q * W :=
  if (attempt <=? 0)%Z then (0, w)
  else
    let d0 := base_delay config * Qpower (exponential_base config) (attempt - 1) in
    let d1 := if is_rate_limit et then Qmax d0 60 else d0 in
    let d2 := d1 * backoff_multiplier config in
    let d3 := Qmin d2 (max_delay config) in
    let '(d4, w') :=
      if jitter config
      then let '(j, w1) := uniform (- (d3 * 0.2)) (d3 * 0.2) w in (d3 + j, w1)
      else (d3, w) in
    (Qmax 0.1 d4, w').
End GateIO.

Inductive outcome (R E : Type) := Returned (r : R) | Raised (e : E).
Arguments Returned {R E} r.
Arguments Raised {R E} e.

Inductive failure := BreakerOpen | AttemptsExhausted.

Section Manager.
Context {W H R E : Type} `{World W} `{IRateLimitHandler H W}.

(** [operation]: the thunk handed to [execute_with_retry];
    [classify]: [_classify_error] with the caller's classifier;
    [extract_retry_after]: [_extract_retry_after]. *)
Variable operation : W -> outcome R E * W.
Variable classify : E -> RetryableErrorType.
Variable extract_retry_after : E -> option Z.

Record t := mk {
  config : RetryConfig;
  rate_handler : H;
  circuit_breaker : CircuitBreaker.t;
  retry_stats : gmap string Z
}.

Definition bump (key : string) (stats : gmap string Z) : gmap string Z :=
  <[key := (default 0%Z (stats !! key) + 1)%Z]> stats.

Definition record_success_stat (name : string) (m : t) : t :=
  mk (config m) (rate_handler m)
     (CircuitBreaker.record_success (circuit_breaker m))
     (bump (name +:+ "_success") (retry_stats m)).

Definition record_failure_stat (name : string) (m : t) : t :=
  mk (config m) (rate_handler m) (circuit_breaker m)
     (bump (name +:+ "_failure") (retry_stats m)).

Definition with_handler (h : H) (m : t) : t :=
  mk (config m) h (circuit_breaker m) (retry_stats m).

Definition with_breaker (b : CircuitBreaker.t) (m : t) : t :=
  mk (config m) (rate_handler m) b (retry_stats m).

(** What one call of [execute_with_retry] leaves behind; [invocations]
    counts the calls of [operation], [skipped] the attempt numbers
    spent on a refusal of the rate-limit handler. *)
Record run := mkRun {
  result : outcome R failure;
  manager : t;
  world : W;
  attempts : list RetryAttempt;
  last_exception : option E;
  invocations : nat;
  skipped : nat
}.

(** The body of [for attempt in range(1, max_attempts + 1)], from
    attempt number [attempt] with [n] attempt numbers left. *)
Fixpoint attempt_loop (name : string) (n : nat) (attempt : Z) (m : t) (w : W)
         (log : list RetryAttempt) (last : option E) (inv skp : nat) : run :=
  match n with
  | O =>
      mkRun (Raised AttemptsExhausted) (record_failure_stat name m) w
            log last inv skp
  | S n' =>
      let '(ok, h1, w1) := can_make_request (rate_handler m) w in
      let m1 := with_handler h1 m in
      if negb ok then
        attempt_loop name n' (attempt + 1)%Z m1 (sleep 0.1 w1) log last inv (S skp)
      else
        match operation w1 with
        | (Returned r, w2) =>
            mkRun (Returned r) (record_success_stat name m1) w2 log last (S inv) skp
        | (Raised e, w2) =>
            let et := classify e in
            let '(delay, m2, w3) :=
              if is_rate_limit et then
                let '(d, h2, w') :=
                  handle_rate_limit (extract_retry_after e) (rate_handler m1) w2 in
                (d, with_handler h2 m1, w')
              else
                let '(d, w') := calculate_delay attempt (config m1) et w2 in
                (d, m1, w') in
            let log' := log ++ [mkAttempt attempt et delay (now w3)] in
            if (max_attempts (config m2) <=? attempt)%Z then
              let m3 := with_breaker
                          (CircuitBreaker.record_failure (now w3) (circuit_breaker m2)) m2 in
              mkRun (Raised AttemptsExhausted)
                    (record_failure_stat name (record_failure_stat name m3))
                    w3 log' (Some e) (S inv) skp
            else
              attempt_loop name n' (attempt + 1)%Z m2 (sleep delay w3) log' (Some e)
                           (S inv) skp
        end
  end.

Definition execute_with_retry (name : string) (m : t) (w : W) : run :=
  let '(go, cb) := CircuitBreaker.can_proceed (now w) (circuit_breaker m) in
  let m0 := with_breaker cb m in
  if negb go then mkRun (Raised BreakerOpen) m0 w [] None 0 0
  else attempt_loop name (Z.to_nat (max_attempts (config m0))) 1 m0 w [] None 0 0.

End Manager.

(** A concrete outside world for closed examples: a clock and the
    outcomes the operation will produce, one per invocation; when the
    list is used up the operation returns [0].  [random.uniform(a, b)]
    draws [a]. *)
Record script := mkScript {
  clock : Q;
  pending : list (outcome Z RetryableErrorType)
}.

#[export] Instance script_world : World script := {
  now := clock;
  sleep := fun d w => mkScript (clock w + d) (pending w);
  uniform := fun a _ w => (a, w)
}.

Definition scripted_operation (w : script) : outcome Z RetryableErrorType * script :=
  match pending w with
  | [] => (Returned 0%Z, w)
  | o :: rest => (o, mkScript (clock w) rest)
  end.

End ApiRetryManager.

(** ** SmartCache and GateIOClient (dash01_refactored.py) *)

Module SmartCache.

Record t (V : Type) := mk {
  cache : gmap string V;
  cache_times : gmap string Q
}.
Arguments mk {V} _ _.
Arguments cache {V} _.
Arguments cache_times {V} _.

Definition empty {V} : t V := mk ∅ ∅.

Definition get {V} (now : Q) (key : string) (max_age_seconds : Q) (c : t V)
  : option V * t V :=
  match cache c !! key with
  | None => (None, c)
  | Some v =>
      let age := now - default 0 (cache_times c !! key) in
      if Qltb max_age_seconds age
      then (None, mk (delete key (cache c)) (delete key (cache_times c)))
      else (Some v, c)
  end.

Definition set {V} (now : Q) (key : string) (value : V) (c : t V) : t V :=
  mk (<[key := value]> (cache c)) (<[key := now]> (cache_times c)).

(** The keys [clear_expired] drops are those of [cache_times]. *)
Definition expired (now max_age_seconds : Q) (c_times : gmap string Q) (key : string) : bool :=
  match c_times !! key with
  | Some ts => Qltb max_age_seconds (now - ts)
  | None => false
  end.

Definition clear_expired {V} (now max_age_seconds : Q) (c : t V) : t V :=
  mk (filter (fun kv => expired now max_age_seconds (cache_times c) (fst kv) = false)
             (cache c))
     (filter (fun kv => Qltb max_age_seconds (now - snd kv) = false)
             (cache_times c)).

(** [cache.pop(key, None)] on the inner dict, as the dashboard's
    [_refresh_portfolio_data] does. *)
Definition pop {V} (key : string) (c : t V) : t V :=
  mk (delete key (cache c)) (cache_times c).

End SmartCache.

Module GateIOLimits.
Definition MIN_ORDER_VALUE_USDT : Q := 5.
Definition SAFETY_MARGIN : Q := 1.15.
Definition get_min_order_value_with_margin : Q :=
  MIN_ORDER_VALUE_USDT * SAFETY_MARGIN.
End GateIOLimits.

Module TradingConfig.
Definition DEFAULT_TAKER_FEE : Q := 0.002.
Definition CACHE_TIMEOUT_indicators : Q := 10.
Definition CACHE_TIMEOUT_stats : Q := 60.
Definition CACHE_TIMEOUT_trends : Q := 30.
Definition CACHE_TIMEOUT_orderbook : Q := 5.
End TradingConfig.

Module GateIOClient.

Inductive side := Buy | Sell.

Definition side_eqb (a b : side) : bool :=
  match a, b with Buy, Buy | Sell, Sell => true | _, _ => false end.

(** The JSON body of [POST /spot/orders]; amount and price are printed
    with eight decimals. *)
Record order := mkOrder {
  o_pair : string;
  o_side : side;
  o_amount : Q;
  o_price : Q
}.

(** What [place_spot_order] hands back: [None], or a dict that has or
    has not an ['error'] key. *)
Inductive api_result := ApiNone | ApiDict (has_error : bool).

(** [result and 'error' not in result] *)
Definition accepted (r : api_result) : bool :=
  match r with ApiDict false => true | _ => false end.

(** The checks of [place_spot_order] that raise [ValueError] before any
    request is made. *)
Definition order_is_valid (pair : string) (amount price : Q) : bool :=
  negb (String.eqb pair "") && truthy amount && truthy price
  && Qltb 0 amount && Qltb 0 price
  && negb (Qltb (amount * price) GateIOLimits.get_min_order_value_with_margin).

Record account := mkAccount {
  currency : string;
  available : Q;
  locked : Q
}.

Record raw_trade := mkRaw {
  t_side : side;
  t_price : Q;
  t_amount : Q;
  t_create_time_ms : Z;
  t_fee : option Q;
  t_fee_currency : string;
  t_order_id : string
}.

Record buy_trade := mkBuyTrade {
  bt_price : Q;
  bt_amount : Q;
  bt_value_usdt : Q;
  bt_timestamp : Z;
  bt_fee : Q;
  bt_fee_currency : string;
  bt_order_id : string
}.

Definition to_buy_trade (tr : raw_trade) : buy_trade :=
  let fee_amount := default 0 (t_fee tr) in
  let estimated := Qeq_bool fee_amount 0 in
  mkBuyTrade (t_price tr) (t_amount tr) (t_price tr * t_amount tr)
             (t_create_time_ms tr)
             (if estimated
              then t_price tr * t_amount tr * TradingConfig.DEFAULT_TAKER_FEE
              else fee_amount)
             (if estimated then "USDT"%string else t_fee_currency tr)
             (t_order_id tr).

(** [buy_trades.sort(key=timestamp, reverse=True)]: stable, newest first. *)
Fixpoint insert_desc (x : buy_trade) (l : list buy_trade) : list buy_trade :=
  match l with
  | [] => [x]
  | y :: l' =>
      if (bt_timestamp y <=? bt_timestamp x)%Z then x :: l
      else y :: insert_desc x l'
  end.

Definition sort_desc (l : list buy_trade) : list buy_trade :=
  fold_right insert_desc [] l.

Definition buy_trades_of (all_trades : list raw_trade) : list buy_trade :=
  sort_desc (map to_buy_trade
                 (filter (fun tr => side_eqb (t_side tr) Buy) all_trades)).

Record t := mk {
  price_cache : SmartCache.t Q;
  indicator_cache : SmartCache.t (list (Q * Q));
  stats_cache : SmartCache.t (list buy_trade);
  last_cache_cleanup : Q
}.

Definition init (now : Q) : t :=
  mk SmartCache.empty SmartCache.empty SmartCache.empty now.

(** [_cleanup_caches], run at the start of every [_request]. *)
Definition cleanup_caches (now : Q) (c : t) : t :=
  if Qltb 60 (now - last_cache_cleanup c) then
    mk (SmartCache.clear_expired now 5 (price_cache c))
       (SmartCache.clear_expired now 30 (indicator_cache c))
       (SmartCache.clear_expired now 120 (stats_cache c))
       now
  else c.

Section Exchange.
(** The exchange behind [_request], after retries: its state [X], the
    reply to [GET /spot/accounts] and [GET /spot/my_trades] ([None]
    when the request failed), and the effect and reply of
    [POST /spot/orders]. *)
Context {X : Type}.
Variable spot_accounts : X -> option (list account).
Variable my_trades : string -> X -> option (list raw_trade).
Variable submit_order : order -> X -> api_result * X.

Definition place_spot_order (now : Q) (pair : string) (sd : side)
           (amount price : Q) (c : t) (x : X) : api_result * t * X :=
  if order_is_valid pair amount price then
    let c' := cleanup_caches now c in
    let '(r, x') := submit_order (mkOrder pair sd (round8 amount) (round8 price)) x in
    (r, c', x')
  else (ApiDict true, c, x).

Definition wallet_key (cur : string) : string := "wallet_" +:+ cur.
Definition buy_trades_key (pair : string) : string := "buy_trades_" +:+ pair.

Definition get_wallet_balance (now : Q) (cur : string) (c : t) (x : X) : Q * t :=
  let '(cached, pc) :=
    SmartCache.get now (wallet_key cur) TradingConfig.CACHE_TIMEOUT_orderbook
                   (price_cache c) in
  let c1 := mk pc (indicator_cache c) (stats_cache c) (last_cache_cleanup c) in
  match cached with
  | Some b => (b, c1)
  | None =>
      let c2 := cleanup_caches now c1 in
      match spot_accounts x with
      | Some accounts =>
          match find (fun a => String.eqb (currency a) cur) accounts with
          | Some a =>
              let total := available a + locked a in
              (total,
               mk (SmartCache.set now (wallet_key cur) total (price_cache c2))
                  (indicator_cache c2) (stats_cache c2) (last_cache_cleanup c2))
          | None => (0, c2)
          end
      | None => (0, c2)
      end
  end.

Definition get_all_buy_trades (now : Q) (pair : string) (c : t) (x : X)
  : list buy_trade * t :=
  let '(cached, sc) :=
    SmartCache.get now (buy_trades_key pair) TradingConfig.CACHE_TIMEOUT_stats
                   (stats_cache c) in
  let c1 := mk (price_cache c) (indicator_cache c) sc (last_cache_cleanup c) in
  match cached with
  | Some trades => (trades, c1)
  | None =>
      let c2 := cleanup_caches now c1 in
      match my_trades pair x with
      | Some (tr :: trs) =>
          let bts := buy_trades_of (tr :: trs) in
          (bts,
           mk (price_cache c2) (indicator_cache c2)
              (SmartCache.set now (buy_trades_key pair) bts (stats_cache c2))
              (last_cache_cleanup c2))
      | _ => ([], c2)
      end
  end.

(** The dashboard's [_refresh_portfolio_data], the one place that drops
    the two entries after an order. *)
Definition refresh_portfolio_caches (pair base : string) (c : t) : t :=
  mk (SmartCache.pop (wallet_key base) (price_cache c))
     (indicator_cache c)
     (SmartCache.pop (buy_trades_key pair) (stats_cache c))
     (last_cache_cleanup c).
End Exchange.

(** The names bound on a [GateIOClient] object: the methods of the class
    and the attributes its code assigns. *)
Definition class_methods : list string :=
  ["__init__"; "_cleanup_caches"; "_generate_sign"; "_request";
   "_classify_api_error"; "get_spot_accounts"; "get_gt_fee_info";
   "get_gt_balance"; "get_effective_fee_rate"; "get_gt_status_summary";
   "get_ticker"; "get_all_spot_pairs"; "validate_pair_exists";
   "get_order_book"; "get_order_status"; "place_spot_order";
   "get_all_buy_trades"; "get_wallet_balance";
   "calculate_real_portfolio_data"; "_convert_fee_to_usdt";
   "get_best_book_price"]%string.

Definition instance_attributes : list string :=
  ["api_key"; "secret_key"; "rate_limit_enabled"; "rate_limit_manager";
   "endpoint_classifier"; "base_url"; "monitoring"; "session";
   "price_cache"; "indicator_cache"; "stats_cache"; "api_stats";
   "last_cache_cleanup"; "gt_fee_info"; "gt_balance";
   "last_gt_info_update"; "_endpoint_classifier_cache"]%string.

(** Attribute lookup: [false] is [AttributeError]. *)
Definition has_attribute (name : string) : bool :=
  existsb (String.eqb name) (class_methods ++ instance_attributes).

(** A simple exchange for closed examples: the balances and fills it
    holds now; an accepted order replaces them by the ones in
    [after_order]. *)
Record book := mkBook {
  accounts_now : list account;
  trades_now : list raw_trade;
  accounts_after : list account;
  trades_after : list raw_trade
}.

Definition book_accounts (b : book) : option (list account) := Some (accounts_now b).
Definition book_trades (_ : string) (b : book) : option (list raw_trade) :=
  Some (trades_now b).
Definition book_submit (_ : order) (b : book) : api_result * book :=
  (ApiDict false,
   mkBook (accounts_after b) (trades_after b) (accounts_after b) (trades_after b)).

End GateIOClient.

(** ** The strategy helpers used by the engine (dash01_refactored.py) *)

Definition clamp_0_100 (x : Q) : Q := Qmax 0 (Qmin 100 x).

Definition calculate_market_sentiment (rsi macd_histogram volume_change price_trend : Q) : Q :=
  let rsi_score := clamp_0_100 (if truthy rsi then rsi else 50) in
  let macd_score := clamp_0_100 (50 + macd_histogram * 1000) in
  let volume_score := clamp_0_100 (50 + volume_change * 200) in
  let trend_score := clamp_0_100 (50 + price_trend * 100) in
  clamp_0_100 (0.3 * rsi_score + 0.4 * macd_score + 0.2 * volume_score + 0.1 * trend_score).

Definition calculate_position_size (capital volatility confidence : Q) : Q :=
  let volatility := if Qle_bool volatility 0 then 0.0001 else volatility in
  let kelly_fraction := confidence - (1 - confidence) / (volatility * 100) in
  Qmax 0.01 (Qmin 0.2 kelly_fraction) * capital.

(** The nested [calculate_strategy_pnl] of [scalp_runner]. *)
Definition calculate_strategy_pnl (current_price entry_price : Q) : Q :=
  if Qle_bool entry_price 0 || Qle_bool current_price 0 then 0
  else (current_price - entry_price) / entry_price * 100.

(** ** CursesDashboard (dash01_refactored.py) *)

Module CursesDashboard.

(** The names bound on a [CursesDashboard] object: the attributes its
    methods assign and the methods of the class. *)
Definition instance_attributes : list string :=
  ["stdscr"; "client"; "pair"; "target_percent"; "last_update_time";
   "spot_assets"; "trading_logger"; "current_session_id"; "popup_service";
   "failure_tracker"; "scalping_active"; "scalping_stop_requested";
   "help_system"; "help_active"; "help_scroll_offset";
   "returning_from_scalping"; "current_tab"; "sentiment_expanded";
   "bot_live_expanded"; "real_portfolio_data"; "buy_price_avg"; "buy_price";
   "initial_amount"; "prezzi"; "quantita"; "total_invested_real";
   "total_fees_paid_real"; "target_price"; "last_valid_price";
   "price_history"; "pair_indicators"; "trades_stats"; "session_high";
   "session_low"; "profit_peaks"; "order_mode"; "order_percentage";
   "order_success"; "order_success_time"; "order_error"; "order_error_time";
   "pending_order"; "buy_order_mode"; "buy_order_percentage";
   "buy_order_success"; "buy_order_success_time"; "buy_order_error";
   "buy_order_error_time"; "technical_analyzer"; "market_data_cache";
   "last_technical_update"; "technical_indicators"; "GREEN"; "RED"; "YELLOW";
   "CYAN"; "MAGENTA"; "WHITE"; "wallet_manager"; "order_validator";
   "order_calculator"; "order_executor"; "order_logger";
   "buy_order_error_duration"; "buy_order_error_color_key";
   "progress_calculator"]%string.

Definition class_methods : list string :=
  ["__init__"; "_init_colors"; "_init_popup_service"; "run";
   "_handle_percentage_order"; "_execute_sell_order";
   "_draw_trading_stats_card"; "_refresh_portfolio_data";
   "_cancel_order_mode"; "_handle_buy_percentage_order";
   "__init_order_services"; "_execute_buy_order"; "_get_optimal_price";
   "_handle_validation_error"; "_handle_order_success";
   "_handle_order_error"; "_handle_order_exception";
   "_cancel_buy_order_mode"; "_handle_stop_scalping";
   "_handle_view_scalping_logs"; "_show_scalping_startup_info";
   "_handle_scalping_navigation"; "_show_scalping_live_log";
   "_tail_log_file"; "_check_scalping_user_input";
   "_handle_scalping_live_input"; "_show_scalping_live_menu";
   "_show_quick_status"; "_show_scalping_help"; "_show_scalping_status";
   "_handle_scalping_mode"; "scalp_runner"; "scalp_runner_worker_mode";
   "_get_current_usdt_balance"; "_draw_card_capital_percentage";
   "_get_current_balance"; "_draw_order_confirmation";
   "_draw_buy_order_confirmation"; "_draw_order_messages"; "_draw_box";
   "_safe_addstr"; "_show_popup"; "_get_active_order_mode_indicator";
   "_get_status_bar_color"; "_set_enhanced_buy_error"; "_draw_help_system";
   "_draw_card_api_stats"; "update_and_draw"; "_update_market_data";
   "_update_cache_stats"; "_draw_section_headers"; "_draw_enhanced_footer";
   "_draw_portfolio_overview"; "_get_portfolio_data";
   "_draw_financial_performance"; "_draw_professional_technical_analysis";
   "_update_technical_data"; "_draw_multi_timeframe_rsi";
   "_draw_multi_timeframe_macd"; "_draw_multi_timeframe_ema";
   "_draw_consolidated_signals"; "_get_rsi_analysis"; "_get_rsi_consensus";
   "_get_macd_consensus"; "_get_trend_consensus";
   "_calculate_consolidated_signal"; "_draw_market_sentiment_content";
   "_draw_bot_live_content"; "_get_bot_status_from_logs";
   "_draw_market_sentiment_panel"; "_format_impact_score";
   "_detect_market_regime_simple"; "_calculate_market_sentiment_score";
   "_format_sentiment_score"; "_get_macro_operational_advice";
   "_calculate_price_velocities"; "_get_trading_signals";
   "_draw_target_progress_system"; "_get_smart_operational_status";
   "_calculate_smart_time_estimate"; "_format_time_estimate";
   "_calculate_time_to_target"; "_get_target_status"; "_draw_card_buy_stats";
   "_draw_fees_details_card"; "_calculate_enhanced_fees_breakdown";
   "_calculate_fees_breakdown"; "_draw_fees_summary_line";
   "_get_today_trades_stats"; "_draw_card_daily_trades";
   "_draw_card_predictive_analysis"; "_get_btc_eth_correlation_data";
   "_get_fallback_correlation_data"; "_analyze_major_coin_trend";
   "_calculate_btc_eth_correlation"; "_determine_market_sentiment";
   "_calculate_correlation_impact"; "_get_correlation_based_advice";
   "_get_market_dominance_analysis"; "_get_optimal_timing";
   "_assess_correlation_risk"; "_detect_market_regime";
   "_get_correlation_key_level"; "_get_sentiment_analysis";
   "_get_scalping_signal"; "_get_swing_signal"; "_get_tactical_suggestion";
   "_get_market_alert"]%string.

(** Attribute lookup on [self]: [false] is [AttributeError]. *)
Definition has_attribute (name : string) : bool :=
  existsb (String.eqb name) (instance_attributes ++ class_methods).

End CursesDashboard.

(** ** The state machine of [CursesDashboard.scalp_runner] *)

Module Engine.

Import GateIOClient.

Inductive state := WAITING_TO_BUY | POSITION_OPEN | WAITING_FOR_SELL.

Definition state_eqb (a b : state) : bool :=
  match a, b with
  | WAITING_TO_BUY, WAITING_TO_BUY
  | POSITION_OPEN, POSITION_OPEN
  | WAITING_FOR_SELL, WAITING_FOR_SELL => true
  | _, _ => false
  end.

Record dca_level := mkLevel {
  trigger_percent : Q;
  multiplier : Q;
  activated : bool
}.

Definition activate (l : dca_level) : dca_level :=
  mkLevel (trigger_percent l) (multiplier l) true.
Definition deactivate (l : dca_level) : dca_level :=
  mkLevel (trigger_percent l) (multiplier l) false.

(** The arguments of [scalp_runner] that the loop reads, and the
    aggressiveness of the session chosen when it starts.  The
    [dca_level*] arguments are not read: the ladder is the literal one
    below. *)
Record params := mkParams {
  pair : string;
  base_currency : string;          (* pair.split('_')[0] *)
  usdt_per_trade : Q;
  target_net_percent : Q;
  max_trades : Z;
  sleep_between_cycles : Q;
  timeout_minutes : Q;
  aggressiveness : Q
}.

Definition max_main_loop_iterations : Z := 10000.
Definition max_balance_checks : nat := 25.

(** The local variables of [scalp_runner] and the objects it mutates.
    [currency] is bound only by the assignment in the buy path of
    WAITING_TO_BUY; reading it before that raises. *)
Record vars := mkVars {
  current_state : state;
  trades_done : Z;
  position_entry_price : Q;
  position_quantity : Q;
  position_time : Q;
  level1 : dca_level;
  level2 : dca_level;
  level3 : dca_level;
  dca_total_invested : Q;
  dca_weighted_avg_price : Q;
  currency : option string;
  safety : SafetySystem.t;
  failure_tracker : OrderFailureTracker.t;
  sleep_manager : SafeSleepManager.t;
  main_loop_iterations : Z
}.

Definition initial (max_daily_loss min_win_rate : Q) (today : Z) (now : Q)
           (tracker : OrderFailureTracker.t) : vars :=
  mkVars WAITING_TO_BUY 0 0 0 0
         (mkLevel (-2) 2 false) (mkLevel (-5) 3 false) (mkLevel (-10) 0 false)
         0 0 None
         (SafetySystem.init max_daily_loss min_win_rate today)
         tracker
         (SafeSleepManager.create_trading_sleep_manager now)
         0.

Definition set_state (s : state) (v : vars) : vars :=
  mkVars s (trades_done v) (position_entry_price v) (position_quantity v)
         (position_time v) (level1 v) (level2 v) (level3 v)
         (dca_total_invested v) (dca_weighted_avg_price v) (currency v)
         (safety v) (failure_tracker v) (sleep_manager v) (main_loop_iterations v).

Definition set_trades_done (n : Z) (v : vars) : vars :=
  mkVars (current_state v) n (position_entry_price v) (position_quantity v)
         (position_time v) (level1 v) (level2 v) (level3 v)
         (dca_total_invested v) (dca_weighted_avg_price v) (currency v)
         (safety v) (failure_tracker v) (sleep_manager v) (main_loop_iterations v).

Definition set_position (entry qty : Q) (v : vars) : vars :=
  mkVars (current_state v) (trades_done v) entry qty
         (position_time v) (level1 v) (level2 v) (level3 v)
         (dca_total_invested v) (dca_weighted_avg_price v) (currency v)
         (safety v) (failure_tracker v) (sleep_manager v) (main_loop_iterations v).

Definition set_position_time (t : Q) (v : vars) : vars :=
  mkVars (current_state v) (trades_done v) (position_entry_price v)
         (position_quantity v) t (level1 v) (level2 v) (level3 v)
         (dca_total_invested v) (dca_weighted_avg_price v) (currency v)
         (safety v) (failure_tracker v) (sleep_manager v) (main_loop_iterations v).

Definition set_levels (l1 l2 l3 : dca_level) (v : vars) : vars :=
  mkVars (current_state v) (trades_done v) (position_entry_price v)
         (position_quantity v) (position_time v) l1 l2 l3
         (dca_total_invested v) (dca_weighted_avg_price v) (currency v)
         (safety v) (failure_tracker v) (sleep_manager v) (main_loop_iterations v).

Definition set_dca (invested avg : Q) (v : vars) : vars :=
  mkVars (current_state v) (trades_done v) (position_entry_price v)
         (position_quantity v) (position_time v) (level1 v) (level2 v) (level3 v)
         invested avg (currency v)
         (safety v) (failure_tracker v) (sleep_manager v) (main_loop_iterations v).

Definition set_currency (c : option string) (v : vars) : vars :=
  mkVars (current_state v) (trades_done v) (position_entry_price v)
         (position_quantity v) (position_time v) (level1 v) (level2 v) (level3 v)
         (dca_total_invested v) (dca_weighted_avg_price v) c
         (safety v) (failure_tracker v) (sleep_manager v) (main_loop_iterations v).

Definition set_safety (s : SafetySystem.t) (v : vars) : vars :=
  mkVars (current_state v) (trades_done v) (position_entry_price v)
         (position_quantity v) (position_time v) (level1 v) (level2 v) (level3 v)
         (dca_total_invested v) (dca_weighted_avg_price v) (currency v)
         s (failure_tracker v) (sleep_manager v) (main_loop_iterations v).

Definition set_failure_tracker (f : OrderFailureTracker.t) (v : vars) : vars :=
  mkVars (current_state v) (trades_done v) (position_entry_price v)
         (position_quantity v) (position_time v) (level1 v) (level2 v) (level3 v)
         (dca_total_invested v) (dca_weighted_avg_price v) (currency v)
         (safety v) f (sleep_manager v) (main_loop_iterations v).

Definition set_sleep_manager (m : SafeSleepManager.t) (v : vars) : vars :=
  mkVars (current_state v) (trades_done v) (position_entry_price v)
         (position_quantity v) (position_time v) (level1 v) (level2 v) (level3 v)
         (dca_total_invested v) (dca_weighted_avg_price v) (currency v)
         (safety v) (failure_tracker v) m (main_loop_iterations v).

Definition set_iterations (n : Z) (v : vars) : vars :=
  mkVars (current_state v) (trades_done v) (position_entry_price v)
         (position_quantity v) (position_time v) (level1 v) (level2 v) (level3 v)
         (dca_total_invested v) (dca_weighted_avg_price v) (currency v)
         (safety v) (failure_tracker v) (sleep_manager v) n.

Record open_order := mkOpen {
  oo_side : side;
  oo_amount : Q;
  oo_price : Q
}.

(** What one pass of the main loop reads from outside.  One clock
    reading and one calendar date stand for all the readings of a pass
    outside the fill-polling loop, which has its own. *)
Record env := mkEnv {
  e_now : Q;
  e_today : Z;
  e_sleep : SafeSleepManager.sleep_env;
  e_balance : Q;                   (* get_wallet_balance in get_position_info *)
  e_open_orders : list open_order; (* what a listing of open orders would show *)
  e_ticker : option Q;             (* get_ticker *)
  e_best_ask : option Q;           (* get_best_book_price(side='buy') *)
  e_best_bid : option Q;           (* get_best_book_price(side='sell') *)
  e_best_bid_timeout : option Q;   (* the same call made by the timeout check *)
  e_candles : list (Q * Q);        (* close and volume of the 1m candles *)
  e_volatility : Q;                (* calculate_volatility of the closes *)
  e_price_trend : Q;               (* calculate_price_trend of the closes *)
  e_volume_anomaly : Z;            (* detect_volume_anomalies of the volumes *)
  e_reply1 : api_result;           (* the exchange's answer to the first order *)
  e_reply2 : api_result;           (* and to a second order of the same pass *)
  e_wait_start : Q;                (* time.time() when the fill wait begins *)
  e_poll_clock : nat -> Q;         (* time.time() at each test of the wait loop *)
  e_poll_balance : nat -> Q        (* get_wallet_balance at each poll *)
}.

Inductive event :=
| Order (o : order)
| Sleep (d : Q)
| ManagedSleep (granted : bool).

(** [get_position_info] *)
Definition get_position_info (e : env) : Q :=
  if truthy (e_balance e) && Qltb 0.0001 (e_balance e) then e_balance e else 0.

(** [check_open_orders]: the lookup of [list_spot_orders] on the client
    comes first; the bare [except] turns its failure into [False]. *)
Definition check_open_orders (e : env) : bool :=
  if has_attribute "list_spot_orders" then
    existsb (fun o => side_eqb (oo_side o) Sell) (e_open_orders e)
  else false.

(** [self.client.place_spot_order] as the engine sees it: an order that
    fails the client's own checks never reaches the exchange. *)
Definition place (p : params) (sd : side) (amount price : Q) (reply : api_result)
  : api_result * list event :=
  if order_is_valid (pair p) amount price
  then (reply, [Order (mkOrder (pair p) sd (round8 amount) (round8 price))])
  else (ApiDict true, []).

(** The fill wait: [remaining] polls are left, [k] have been made.
    Returns whether the fill was seen and how many polls were made. *)
Fixpoint poll_loop (e : env) (wait_until qty : Q) (remaining k : nat) : bool * nat :=
  match remaining with
  | O => (false, k)
  | S r =>
      if Qltb (e_poll_clock e k) wait_until then
        let bal := e_poll_balance e k in
        if truthy bal && Qgeb bal (qty * 0.999) then (true, S k)
        else poll_loop e wait_until qty r (S k)
      else (false, k)
  end.

(** [x or fallback] on an optional float. *)
Definition or_else (x : option Q) (fallback : Q) : Q :=
  match x with
  | Some a => if truthy a then a else fallback
  | None => fallback
  end.

(** [fallback if x is None else x] *)
Definition if_none (x : option Q) (fallback : Q) : Q :=
  match x with Some a => a | None => fallback end.

(** The result of the [try] block of one pass: the variables, what was
    done, and whether an exception left the block. *)
Record outcome := mkOutcome {
  out_vars : vars;
  out_events : list event;
  out_raised : bool
}.

Definition done (v : vars) (ev : list event) : outcome := mkOutcome v ev false.
Definition raised (v : vars) (ev : list event) : outcome := mkOutcome v ev true.

(** *** State WAITING_FOR_SELL *)

Definition step_waiting_for_sell (p : params) (e : env) (v : vars) : outcome :=
  let current_position := get_position_info e in
  let has_sell_orders := check_open_orders e in
  if Qeq_bool current_position 0 then
    let profit_pnl :=
      if Qltb 0 (position_entry_price v) then
        let current_price := or_else (e_ticker e) (position_entry_price v) in
        (current_price - position_entry_price v) / position_entry_price v * 100
      else 0 in
    let s' := snd (SafetySystem.check_trade (e_today e) (profit_pnl / 100) (safety v)) in
    done (set_position 0 0
            (set_trades_done (trades_done v + 1)
               (set_state WAITING_TO_BUY (set_safety s' v)))) []
  else if negb has_sell_orders then done (set_state POSITION_OPEN v) []
  else done v [Sleep (sleep_between_cycles p)].

(** *** State WAITING_TO_BUY *)

(** The virtual entry on an existing balance. *)
Definition virtual_entry (p : params) (e : env) (v : vars) : outcome :=
  let current_position := get_position_info e in
  let current_market_price :=
    match e_ticker e with Some t => Some t | None => e_best_ask e end in
  match current_market_price with
  | Some m =>
      if truthy m && Qltb 0 m then
        done (set_state POSITION_OPEN
                (set_dca (current_position * m) m
                   (set_levels (deactivate (level1 v)) (deactivate (level2 v))
                               (deactivate (level3 v))
                      (set_position_time (e_now e)
                         (set_position m current_position v))))) []
      else done v [Sleep (sleep_between_cycles p)]
  | None => done v [Sleep (sleep_between_cycles p)]
  end.

Definition sentiment_of (e : env) : Q :=
  let price_trend := e_price_trend e in
  calculate_market_sentiment (50 + price_trend * 100) (price_trend * 0.01)
                             (inject_Z (e_volume_anomaly e) * 0.1) price_trend.

(** [entry_conditions] *)
Definition entry_conditions (e : env) : bool :=
  Qltb 40 (sentiment_of e) && Qltb 0.0001 (e_volatility e)
  && Qltb 0.2 (sentiment_of e / 100).

Definition adaptive_position_size (p : params) (e : env) : Q :=
  let confidence := sentiment_of e / 100 in
  let base := calculate_position_size (usdt_per_trade p) (e_volatility e) confidence in
  let a0 := base * aggressiveness p in
  let min_required := GateIOLimits.get_min_order_value_with_margin in
  let a1 := if Qltb a0 min_required then min_required else a0 in
  if Qltb (usdt_per_trade p) a1 then usdt_per_trade p else a1.

(** The close of the last candle. *)
Definition last_close (e : env) : Q := List.last (map fst (e_candles e)) 0.

(** [optimal_buy_price] *)
Definition optimal_buy_price (e : env) : Q :=
  let best_ask := if_none (e_best_ask e) (last_close e * 1.0005) in
  round8 (Qmax 0.00000001 (best_ask * 1.002)).

Definition buy_quantity (p : params) (e : env) : Q :=
  round_amount (adaptive_position_size p e / optimal_buy_price e).

Definition sleeps (n : nat) (d : Q) : list event := repeat (Sleep d) n.

(** The buy path.  The statements that record the position (entry
    price, quantity, time, reset of the ladder) are written inside the
    [except] handler of the balance poll; [get_wallet_balance] catches
    its own exceptions and returns [0.0], so that handler never runs and
    the confirmed-fill branch only sets [executed].  After a confirmed
    fill the trade is reported through [self.monitoring], looked up on
    the dashboard, before the state is set to POSITION_OPEN. *)
Definition buy_path (p : params) (e : env) (v : vars) : outcome :=
  if (length (e_candles e) <? 5)%nat then done v [Sleep (sleep_between_cycles p)]
  else if negb (entry_conditions e) then
    done v [Sleep (Qmax 0.1 (sleep_between_cycles p
                             * (1 - Qmin 1 (e_volatility e * 10))))]
  else
    let price := optimal_buy_price e in
    let qty := buy_quantity p e in
    if Qle_bool qty 0 then done v [Sleep (sleep_between_cycles p)]
    else
      let v1 := set_currency (Some (base_currency p)) v in
      let '(buy_result, ev) := place p Buy qty price (e_reply1 e) in
      if negb (accepted buy_result) then
        done v1 (ev ++ [Sleep (sleep_between_cycles p)])
      else
        let wait_until := e_wait_start e + 5 in
        let '(executed, polls) :=
          poll_loop e wait_until qty max_balance_checks 0 in
        if negb executed then
          done v1 (ev ++ sleeps polls 0.2 ++ [Sleep (sleep_between_cycles p)])
        else if negb (CursesDashboard.has_attribute "monitoring") then
          raised v1 (ev ++ sleeps (polls - 1) 0.2)
        else
          done (set_state POSITION_OPEN v1)
               (ev ++ sleeps (polls - 1) 0.2 ++ [Sleep (sleep_between_cycles p)]).

Definition step_waiting_to_buy (p : params) (e : env) (v : vars) : outcome :=
  if Qltb 0 (get_position_info e) then virtual_entry p e v
  else buy_path p e v.

(** *** State POSITION_OPEN *)

Definition effective_entry_price (v : vars) : Q :=
  if activated (level1 v) || activated (level2 v)
  then dca_weighted_avg_price v
  else position_entry_price v.

Definition target_price (p : params) (v : vars) : Q :=
  effective_entry_price v * (1 + target_net_percent p / 100).

(** [self.client.get_ticker(pair) or position_entry_price] *)
Definition current_price_of (e : env) (v : vars) : Q :=
  or_else (e_ticker e) (position_entry_price v).

Definition fail_order (e : env) (v : vars) : vars :=
  set_failure_tracker
    (OrderFailureTracker.record_failure (e_now e) "unknown" (failure_tracker v)) v.

(** The sale at the target.  The log line before the order reads
    [currency]. *)
Definition sell_at_target (p : params) (e : env) (v : vars) : outcome :=
  let current_price := current_price_of e v in
  let optimal_sell_price := round8 (if_none (e_best_bid e) (current_price * 0.999)) in
  match currency v with
  | None => raised v []
  | Some _ =>
      let '(sell_result, ev) :=
        place p Sell (position_quantity v) optimal_sell_price (e_reply1 e) in
      if accepted sell_result then
        done (set_state WAITING_FOR_SELL
                (set_failure_tracker
                   (OrderFailureTracker.record_success (failure_tracker v)) v)) ev
      else done (fail_order e v) ev
  end.

(** One rung of the ladder: buy [usdt_per_trade * multiplier] at the
    current price plus 0.2 %, and on success move the entry to the
    volume-weighted average.  [which] is [true] for level 1. *)
Definition dca_buy (p : params) (e : env) (which : bool) (v : vars) : outcome :=
  let current_price := current_price_of e v in
  let lvl := if which then level1 v else level2 v in
  let dca_buy_amount := usdt_per_trade p * multiplier lvl in
  let dca_quantity := dca_buy_amount / current_price in
  let '(r, ev) := place p Buy dca_quantity (current_price * 1.002) (e_reply1 e) in
  if accepted r then
    let total_quantity := position_quantity v + dca_quantity in
    let total_invested :=
      position_quantity v * position_entry_price v + dca_quantity * current_price in
    if Qeq_bool total_quantity 0 then raised v ev
    else
      let avg := total_invested / total_quantity in
      let v1 := set_dca (dca_total_invested v + dca_buy_amount) avg v in
      let v2 := set_position avg total_quantity v1 in
      let v3 := if which
                then set_levels (activate (level1 v2)) (level2 v2) (level3 v2) v2
                else set_levels (level1 v2) (activate (level2 v2)) (level3 v2) v2 in
      done v3 ev
  else done (fail_order e v) ev.

(** The stop loss. *)
Definition stop_loss (p : params) (e : env) (v : vars) : outcome :=
  let current_price := current_price_of e v in
  let emergency_sell_price := if_none (e_best_bid e) (current_price * 0.995) in
  let '(r, ev) := place p Sell (position_quantity v) emergency_sell_price (e_reply1 e) in
  if accepted r then
    done (set_state WAITING_FOR_SELL
            (set_levels (level1 v) (level2 v) (activate (level3 v)) v)) ev
  else done (fail_order e v) ev.

(** Which branch of the [if / elif / elif] on the loss applies. *)
Inductive ladder_branch := Level1 | Level2 | StopLoss | NoBranch.

Definition ladder (strategy_pnl : Q) (v : vars) : ladder_branch :=
  if Qltb strategy_pnl 0 then
    if Qle_bool strategy_pnl (trigger_percent (level1 v)) && negb (activated (level1 v))
    then Level1
    else if Qle_bool strategy_pnl (trigger_percent (level2 v))
            && negb (activated (level2 v)) && activated (level1 v)
    then Level2
    else if Qle_bool strategy_pnl (trigger_percent (level3 v))
            && negb (activated (level3 v))
    then StopLoss
    else NoBranch
  else NoBranch.

(** The forced sale after the timeout, tried after the ladder in the
    same pass; [first] tells whether no order was placed before it. *)
Definition timeout_sale (p : params) (e : env) (first : bool) (v : vars) : outcome :=
  let current_price := current_price_of e v in
  let time_in_position := e_now e - position_time v in
  let timeout_seconds := timeout_minutes p * 60 in
  if Qltb 0 (timeout_minutes p) && Qltb timeout_seconds time_in_position then
    let optimal_sell_price :=
      round8 (or_else (e_best_bid_timeout e) (current_price * 0.999)) in
    let '(r, ev) := place p Sell (position_quantity v) optimal_sell_price
                          (if first then e_reply1 e else e_reply2 e) in
    if accepted r then done (set_state WAITING_FOR_SELL v) ev
    else done v ev
  else done v [].

Definition below_target (p : params) (e : env) (v : vars) : outcome :=
  let strategy_pnl := calculate_strategy_pnl (current_price_of e v) (position_entry_price v) in
  let o :=
    match ladder strategy_pnl v with
    | Level1 => dca_buy p e true v
    | Level2 => dca_buy p e false v
    | StopLoss => stop_loss p e v
    | NoBranch => done v []
    end in
  if out_raised o then o
  else
    let o' := timeout_sale p e (match out_events o with [] => true | _ => false end)
                           (out_vars o) in
    mkOutcome (out_vars o') (out_events o ++ out_events o') (out_raised o').

Definition step_position_open (p : params) (e : env) (v : vars) : outcome :=
  if Qeq_bool (get_position_info e) 0 then
    done (set_trades_done (trades_done v + 1) (set_state WAITING_TO_BUY v)) []
  else
    let o :=
      if Qltb 0 (position_entry_price v) then
        if Qgeb (current_price_of e v) (target_price p v)
        then sell_at_target p e v
        else below_target p e v
      else done v [] in
    if out_raised o then o
    else mkOutcome (out_vars o) (out_events o ++ [Sleep (sleep_between_cycles p)]) false.

(** *** One pass of the main loop *)

(** The [try] block. *)
Definition state_machine (p : params) (e : env) (v : vars) : outcome :=
  match current_state v with
  | WAITING_FOR_SELL => step_waiting_for_sell p e v
  | WAITING_TO_BUY => step_waiting_to_buy p e v
  | POSITION_OPEN => step_position_open p e v
  end.

(** The wait taken when the order circuit breaker refuses. *)
Definition breaker_wait (e : env) (v : vars) : vars * list event :=
  let f := failure_tracker v in
  let '(granted, m) :=
    if OrderFailureTracker.circuit_open f then
      SafeSleepManager.circuit_breaker_sleep
        (OrderFailureTracker.consecutive_failures f) (e_sleep e) (sleep_manager v)
    else
      let remaining :=
        OrderFailureTracker.backoff_time f
        - (e_now e - OrderFailureTracker.last_failure_time f) in
      SafeSleepManager.safe_sleep (Qmin 10 (Qmax 1 remaining))
        SafeSleepManager.CIRCUIT_BREAKER true (e_sleep e) (sleep_manager v) in
  (set_sleep_manager m v, [ManagedSleep granted]).

Inductive pass_result :=
| Continue (v : vars) (ev : list event)
| Break (v : vars) (ev : list event).

(** The body of the [while]: the breaker test, the second safety check,
    the state machine and the handler of its exceptions. *)
Definition pass (p : params) (e : env) (v : vars) : pass_result :=
  let v0 := set_iterations (main_loop_iterations v + 1) v in
  let '(can, f) := OrderFailureTracker.can_place_order (e_now e) (failure_tracker v0) in
  let v1 := set_failure_tracker f v0 in
  if negb can then
    let '(v2, ev) := breaker_wait e v1 in Continue v2 ev
  else
    let '(safety_check, s) := SafetySystem.check_trade (e_today e) 0 (safety v1) in
    let v2 := set_safety s v1 in
    if negb safety_check then Break v2 []
    else
      let o := state_machine p e v2 in
      if out_raised o
      then Continue (out_vars o) (out_events o ++ [Sleep 1])
      else Continue (out_vars o) (out_events o).

Inductive exit_reason :=
| MaxTrades        (* trades_done < max_trades failed *)
| SafetyGuard      (* safety.check_trade(0) in the loop test denied *)
| SafetyBlock      (* the check inside the pass denied: break *)
| IterationCap.    (* main_loop_iterations reached the cap *)

Record final := mkFinal {
  f_vars : vars;
  f_events : list event;
  f_reason : exit_reason;
  f_passes : nat
}.

(** The [while] loop.  [envs k] is what pass number [k] reads (its test
    included); [fuel] is the number of passes the iteration cap still
    allows. *)
Fixpoint loop (p : params) (envs : nat -> env) (fuel k : nat) (v : vars)
         (ev : list event) : final :=
  if negb (trades_done v <? max_trades p)%Z then mkFinal v ev MaxTrades k
  else
    let '(ok, s) := SafetySystem.check_trade (e_today (envs k)) 0 (safety v) in
    let v1 := set_safety s v in
    if negb ok then mkFinal v1 ev SafetyGuard k
    else if negb (main_loop_iterations v1 <? max_main_loop_iterations)%Z
    then mkFinal v1 ev IterationCap k
    else
      match fuel with
      | O => mkFinal v1 ev IterationCap k
      | S fuel' =>
          match pass p (envs k) v1 with
          | Continue v2 ev2 => loop p envs fuel' (S k) v2 (ev ++ ev2)
          | Break v2 ev2 => mkFinal v2 (ev ++ ev2) SafetyBlock (S k)
          end
      end.

Definition scalp_runner (p : params) (envs : nat -> env) (v : vars) : final :=
  loop p envs (Z.to_nat max_main_loop_iterations) 0 v [].

End Engine.

(** ** SharedState, BudgetCoordinator and SessionManager (session_manager.py) *)

Module SessionManager.

Inductive status := IDLE | STARTING | RUNNING | STOPPING | STOPPED | ERROR.

(** [bot.status in ['RUNNING', 'STARTING']] *)
Definition is_active (s : status) : bool :=
  match s with STARTING | RUNNING => true | _ => false end.

Record BotStatus := mkBot {
  bot_pair : string;
  bot_status : status;
  pid : option Z;
  start_time : option Q;
  allocated_budget : Q;
  trades_today : Z;
  pnl_percent : Q;
  last_action : option string;
  errors_count : Z
}.

Record budget_info := mkBudget {
  total_usdt : Q;
  allocated_usdt : Q;
  available_usdt : Q
}.

(** The shared JSON document and the map of worker processes of the
    supervisor (pair to pid). *)
Record t := mk {
  bots : gmap string BotStatus;
  global_budget : budget_info;
  workers : gmap string Z
}.

Definition init : t := mk ∅ (mkBudget 0 0 0) ∅.

Definition with_bots (b : gmap string BotStatus) (s : t) : t :=
  mk b (global_budget s) (workers s).
Definition with_budget (g : budget_info) (s : t) : t :=
  mk (bots s) g (workers s).
Definition with_workers (w : gmap string Z) (s : t) : t :=
  mk (bots s) (global_budget s) w.

(** [SharedState.set_bot_status] *)
Definition set_bot_status (b : BotStatus) (s : t) : t :=
  with_bots (<[bot_pair b := b]> (bots s)) s.

Definition set_status (st : status) (b : BotStatus) : BotStatus :=
  mkBot (bot_pair b) st (pid b) (start_time b) (allocated_budget b)
        (trades_today b) (pnl_percent b) (last_action b) (errors_count b).
Definition set_pid (p : option Z) (b : BotStatus) : BotStatus :=
  mkBot (bot_pair b) (bot_status b) p (start_time b) (allocated_budget b)
        (trades_today b) (pnl_percent b) (last_action b) (errors_count b).
Definition set_allocated (a : Q) (b : BotStatus) : BotStatus :=
  mkBot (bot_pair b) (bot_status b) (pid b) (start_time b) a
        (trades_today b) (pnl_percent b) (last_action b) (errors_count b).

(** The sum of [allocated_budget] over the bots that are running or
    starting. *)
Definition allocation_of (l : list (string * BotStatus)) : Q :=
  fold_right Qplus 0
    (map (fun kv => allocated_budget (snd kv))
         (filter (fun kv => is_active (bot_status (snd kv)) = true) l)).

Definition allocated_sum (b : gmap string BotStatus) : Q :=
  allocation_of (map_to_list b).

(** [BudgetCoordinator.update_budget_info]; [total] is the USDT balance
    the exchange reports at the call. *)
Definition update_budget_info (total : Q) (s : t) : budget_info * t :=
  let allocated := allocated_sum (bots s) in
  let info := mkBudget total allocated (Qmax 0 (total - allocated)) in
  (info, with_budget info s).

(** [BudgetCoordinator.allocate_budget] *)
Definition allocate_budget (total : Q) (pair : string) (requested_amount : Q) (s : t)
  : bool * Q * t :=
  let '(info, s') := update_budget_info total s in
  let available := available_usdt info in
  if Qle_bool requested_amount available then (true, requested_amount, s')
  else if Qltb 10 available then (true, available * 0.9, s')
  else (false, 0, s').

(** [BudgetCoordinator.deallocate_budget] *)
Definition deallocate_budget (total : Q) (pair : string) (s : t) : t :=
  let s1 :=
    match bots s !! pair with
    | Some b => set_bot_status (set_allocated 0 b) s
    | None => s
    end in
  snd (update_budget_info total s1).

(** [SessionManager._cleanup_worker] (the queue of the worker goes with
    its process). *)
Definition cleanup_worker (pair : string) (s : t) : t :=
  with_workers (delete pair (workers s)) s.




(** [SessionManager.start_bot]; [new_pid] is the pid of the spawned
    process. *)
Definition start_bot (total now : Q) (new_pid : Z) (pair : string) (budget : Q) (s : t)
  : bool * t :=
  match workers s !! pair with
  | Some _ => (false, s)
  | None =>
      let '(success, allocated, s1) := allocate_budget total pair budget s in
      if negb success then (false, s1)
      else
        let b := mkBot pair STARTING None (Some now) allocated 0 0 None 0 in
        let s2 := set_bot_status b s1 in
        let s3 := with_workers (<[pair := new_pid]> (workers s2)) s2 in
        (true, set_bot_status (set_status RUNNING (set_pid (Some new_pid) b)) s3)
  end.

(** [SessionManager.stop_bot] *)
Definition stop_bot (total : Q) (pair : string) (s : t) : bool * t :=
  match workers s !! pair with
  | None => (false, s)
  | Some _ =>
      let s1 := deallocate_budget total pair s in
      let s2 :=
        match bots s1 !! pair with
        | Some b => set_bot_status (set_pid None (set_status STOPPED b)) s1
        | None => s1
        end in
      (true, cleanup_worker pair s2)
  end.


(** Every record is stored under its own pair, as [set_bot_status]
    stores it. *)
Definition well_keyed (b : gmap string BotStatus) : Prop :=
  forall k r, b !! k = Some r -> bot_pair r = k.

End SessionManager.


(** ** The rate limiters behind [GateIOClient._request] (rate_limit_manager.py) *)

Module RateLimit.

Inductive EndpointCategory :=
| PUBLIC | SPOT_ORDER | SPOT_CANCEL | SPOT_OTHER
| WALLET_TRANSFER | WALLET_WITHDRAWAL | WALLET_OTHER
| FUTURES_ORDER | FUTURES_CANCEL | FUTURES_OTHER.

Definition category_eq_dec (a b : EndpointCategory) : {a = b} + {a <> b}.
Proof. decide equality. Defined.

Record RateLimitConfig := mkConfig {
  max_requests : Z;
  window_seconds : Z;
  burst_allowance : Q
}.

(** [int(x)] of a float: truncation toward zero. *)
Definition int_of (x : Q) : Z := Z.quot (Qnum x) (Zpos (Qden x)).

(** The property [safe_max_requests]. *)
Definition safe_max_requests (c : RateLimitConfig) : Z :=
  Z.max 1 (int_of (inject_Z (max_requests c) * burst_allowance c)).

(** The property [min_interval_ms]. *)
Definition min_interval_ms (c : RateLimitConfig) : Q :=
  if (safe_max_requests c <=? 0)%Z then 1000
  else inject_Z (window_seconds c * 1000) / inject_Z (safe_max_requests c).

(** [RateLimitRegistry.VIP_0_LIMITS] *)
Definition VIP_0_LIMITS (c : EndpointCategory) : RateLimitConfig :=
  match c with
  | PUBLIC => mkConfig 200 10 0.8
  | SPOT_ORDER => mkConfig 10 1 0.8
  | SPOT_CANCEL => mkConfig 200 1 0.8
  | SPOT_OTHER => mkConfig 200 10 0.8
  | WALLET_TRANSFER => mkConfig 80 10 0.8
  | WALLET_WITHDRAWAL => mkConfig 1 3 0.8
  | WALLET_OTHER => mkConfig 200 10 0.8
  | FUTURES_ORDER => mkConfig 100 1 0.8
  | FUTURES_CANCEL => mkConfig 200 1 0.8
  | FUTURES_OTHER => mkConfig 200 10 0.8
  end.

(** The clock the limiters read.  Every reading of [time.time()] comes
    some delay after the previous one, and [time.sleep] may return late:
    [delays] holds those delays in the order they are met (none left:
    no delay). *)
Record world := mkWorld {
  clock : Q;
  delays : list Q
}.

(** [time.time()] *)
Definition time (w : world) : Q * world :=
  match delays w with
  | [] => (clock w, w)
  | d :: ds => (clock w + d, mkWorld (clock w + d) ds)
  end.

(** [time.sleep(d)] *)
Definition sleep (d : Q) (w : world) : world :=
  match delays w with
  | [] => mkWorld (clock w + d) []
  | late :: ds => mkWorld (clock w + d + late) ds
  end.

(** The protocol [IRateLimitStrategy].  [time_until_next_request]
    answers [None] when the method raises. *)
Class IRateLimitStrategy (L : Type) := {
  can_make_request : L -> world -> bool * L * world;
  record_request : L -> world -> L * world;
  time_until_next_request : L -> world -> option Q * L * world
}.

Module SlidingWindowRateLimiter.

(** [requests] is the deque, oldest request first. *)
Record t := mk {
  config : RateLimitConfig;
  requests : list Q
}.

Definition init (c : RateLimitConfig) : t := mk c [].

(** [while self.requests and self.requests[0] <= cutoff_time: popleft()] *)
Fixpoint popleft_while (cutoff_time : Q) (l : list Q) : list Q :=
  match l with
  | [] => []
  | r :: l' => if Qle_bool r cutoff_time then popleft_while cutoff_time l' else l
  end.

Definition cleanup_old_requests (s : t) (w : world) : t * world :=
  let '(current_time, w1) := time w in
  let cutoff_time := current_time - inject_Z (window_seconds (config s)) in
  (mk (config s) (popleft_while cutoff_time (requests s)), w1).

Definition below_limit (s : t) : bool :=
  (Z.of_nat (length (requests s)) <? safe_max_requests (config s))%Z.

Definition can_make_request (s : t) (w : world) : bool * t * world :=
  let '(s1, w1) := cleanup_old_requests s w in
  (below_limit s1, s1, w1).

Definition record_request (s : t) (w : world) : t * world :=
  let '(stamp, w1) := time w in
  cleanup_old_requests (mk (config s) (requests s ++ [stamp])) w1.

Definition time_until_next_request (s : t) (w : world) : option Q * t * world :=
  let '(s1, w1) := cleanup_old_requests s w in
  if below_limit s1 then (Some 0, s1, w1)
  else
    match requests s1 with
    | [] => (None, s1, w1)         (* requests[0] of an empty deque *)
    | oldest_request :: _ =>
        let window_reset_time :=
          oldest_request + inject_Z (window_seconds (config s1)) in
        let '(now, w2) := time w1 in
        (Some (Qmax 0 (window_reset_time - now)), s1, w2)
    end.

#[global] Instance strategy : IRateLimitStrategy t := {
  can_make_request := can_make_request;
  record_request := record_request;
  time_until_next_request := time_until_next_request
}.

End SlidingWindowRateLimiter.

Module TokenBucketRateLimiter.

Record t := mk {
  config : RateLimitConfig;
  tokens : Q;
  last_refill : Q;
  refill_rate : Q
}.

(** [TokenBucketRateLimiter(config)]; [None] is the [ZeroDivisionError]
    of a zero window. *)
Definition init (c : RateLimitConfig) (w : world) : option (t * world) :=
  let '(now, w1) := time w in
  if (window_seconds c =? 0)%Z then None
  else Some (mk c (inject_Z (safe_max_requests c)) now
                (inject_Z (safe_max_requests c) / inject_Z (window_seconds c)),
             w1).

Definition refill_tokens (s : t) (w : world) : t * world :=
  let '(current_time, w1) := time w in
  let time_passed := current_time - last_refill s in
  let tokens_to_add := time_passed * refill_rate s in
  (mk (config s)
      (Qmin (inject_Z (safe_max_requests (config s))) (tokens s + tokens_to_add))
      current_time (refill_rate s),
   w1).

Definition can_make_request (s : t) (w : world) : bool * t * world :=
  let '(s1, w1) := refill_tokens s w in
  (Qgeb (tokens s1) 1, s1, w1).

Definition record_request (s : t) (w : world) : t * world :=
  let '(s1, w1) := refill_tokens s w in
  if Qgeb (tokens s1) 1
  then (mk (config s1) (tokens s1 - 1) (last_refill s1) (refill_rate s1), w1)
  else (s1, w1).

Definition time_until_next_request (s : t) (w : world) : option Q * t * world :=
  let '(s1, w1) := refill_tokens s w in
  if Qgeb (tokens s1) 1 then (Some 0, s1, w1)
  else if Qeq_bool (refill_rate s1) 0 then (None, s1, w1)   (* ZeroDivisionError *)
  else (Some ((1 - tokens s1) / refill_rate s1), s1, w1).

#[global] Instance strategy : IRateLimitStrategy t := {
  can_make_request := can_make_request;
  record_request := record_request;
  time_until_next_request := time_until_next_request
}.

End TokenBucketRateLimiter.

(** [RateLimitManager]: one limiter per category, all of the strategy
    chosen at construction.  A limiter is a mutable object: the methods
    put it back where they took it. *)
Section Manager.
Context {L : Type} `{IRateLimitStrategy L}.

Definition limiters := EndpointCategory -> option L.

Definition with_limiter (category : EndpointCategory) (s : L) (m : limiters) : limiters :=
  fun c => if category_eq_dec c category then Some s else m c.

Definition manager_can_make_request (category : EndpointCategory) (m : limiters)
           (w : world) : bool * limiters * world :=
  match m category with
  | None => (true, m, w)
  | Some s =>
      let '(ok, s1, w1) := can_make_request s w in
      (ok, with_limiter category s1 m, w1)
  end.

Definition manager_record_request (category : EndpointCategory) (m : limiters)
           (w : world) : limiters * world :=
  match m category with
  | None => (m, w)
  | Some s =>
      let '(s1, w1) := record_request s w in
      (with_limiter category s1 m, w1)
  end.

(** [wait_if_needed]; [None] when the limiter raised. *)
Definition wait_if_needed (category : EndpointCategory) (m : limiters) (w : world)
  : option (Q * limiters * world) :=
  match m category with
  | None => Some (0, m, w)
  | Some s =>
      match time_until_next_request s w with
      | (None, _, _) => None
      | (Some wait_time, s1, w1) =>
          Some (wait_time, with_limiter category s1 m,
                if Qltb 0 wait_time then sleep wait_time w1 else w1)
      end
  end.

(** The rate-limit enforcement at the head of [GateIOClient._request]
    for an endpoint of the given category: first the wait for a free
    slot, then the recording. *)
Definition await_slot (category : EndpointCategory) (m : limiters) (w : world)
  : option (limiters * world) :=
  let '(ok, m1, w1) := manager_can_make_request category m w in
  if negb ok then
    match wait_if_needed category m1 w1 with
    | None => None
    | Some (_, m2, w2) => Some (m2, w2)
    end
  else Some (m1, w1).

Definition enforce (category : EndpointCategory) (m : limiters) (w : world)
  : option (limiters * world) :=
  match await_slot category m w with
  | None => None
  | Some (m2, w2) => Some (manager_record_request category m2 w2)
  end.

(** [n] requests of one category in a row.  Beside the final state, the
    clock readings at which the requests were recorded, oldest first
    (the reading [record_request] makes first). *)
Fixpoint requests_in_a_row (n : nat) (category : EndpointCategory) (m : limiters)
         (w : world) : option (list Q * limiters * world) :=
  match n with
  | O => Some ([], m, w)
  | S n' =>
      match await_slot category m w with
      | None => None
      | Some (m2, w2) =>
          let stamp := fst (time w2) in
          let '(m3, w3) := manager_record_request category m2 w2 in
          match requests_in_a_row n' category m3 w3 with
          | None => None
          | Some (stamps, m4, w4) => Some (stamp :: stamps, m4, w4)
          end
      end
  end.

End Manager.

(** [RateLimitManager()] with the default strategy and configurations. *)
Definition sliding_window_manager : limiters (L := SlidingWindowRateLimiter.t) :=
  fun c => Some (SlidingWindowRateLimiter.init (VIP_0_LIMITS c)).

(** The requests recorded in the window of [window] seconds that ends
    at [T]. *)
Definition in_window (window T : Q) (stamps : list Q) : list Q :=
  List.filter (fun x => Qltb (T - window) x && Qle_bool x T) stamps.

End RateLimit.

(** What the proofs about the limiters keep track of. *)
Module RateLimitInvariants.
Import RateLimit.

(** No clock reading comes before the previous one. *)
Definition punctual (w : world) : Prop := Forall (fun d => 0 <= d) (delays w).

Definition window_of (c : RateLimitConfig) : Q := inject_Z (window_seconds c).

(** The deque [D] is the end of the list [hist] of all the requests
    recorded so far, and what it has dropped is out of the window. *)
Definition recorded (c : RateLimitConfig) (hist D : list Q) (w : world) : Prop :=
  punctual w /\
  exists P, hist = P ++ D /\ Forall (fun x => x <= clock w - window_of c) P.

Definition within_limit (c : RateLimitConfig) (hist : list Q) : Prop :=
  forall T, (Z.of_nat (length (in_window (window_of c) T hist)) <= safe_max_requests c)%Z.

Definition capacity (c : RateLimitConfig) : Q := inject_Z (safe_max_requests c).

(** A bucket of configuration [c] and rate [r] that held [B] tokens at
    time [t0], after [k] recorded requests. *)
Definition paced (c : RateLimitConfig) (r B t0 : Q) (k : nat)
           (s : TokenBucketRateLimiter.t) (w : world) : Prop :=
  punctual w /\ TokenBucketRateLimiter.config s = c /\
  TokenBucketRateLimiter.refill_rate s = r /\
  TokenBucketRateLimiter.last_refill s <= clock w /\
  0 <= TokenBucketRateLimiter.tokens s /\
  TokenBucketRateLimiter.tokens s <= capacity c /\
  TokenBucketRateLimiter.tokens s + inject_Z (Z.of_nat k)
  <= B + r * (TokenBucketRateLimiter.last_refill s - t0).

End RateLimitInvariants.

(** ** Sequences of calls on a circuit breaker *)

Module BreakerRuns.
Import CircuitBreaker.

Definition is_failure (o : op) : bool :=
  match o with RecordFailure _ => true | _ => false end.

Definition is_probe (o : op) : bool :=
  match o with CanProceed _ => true | _ => false end.

(** The number of [record_failure] calls among [ops]. *)
Definition failures (ops : list op) : Z :=
  Z.of_nat (length (List.filter is_failure ops)).

(** The breaker after the calls [ops], first call first. *)
Definition run (ops : list op) (b : t) : t :=
  fold_left (fun b o => apply o b) ops b.

End BreakerRuns.

(** The longest sleep [_sanitize_duration] lets through in a context. *)
Definition context_cap (m : SafeSleepManager.t) (context : SafeSleepManager.SleepContext) : Q :=
  match context with
  | SafeSleepManager.CIRCUIT_BREAKER => 600
  | SafeSleepManager.API_RETRY => SafeSleepManager.max_sleep (SafeSleepManager.limits m)
  | _ => Qmin (SafeSleepManager.max_sleep (SafeSleepManager.limits m)) 30
  end.

(** ** Order limits, wallet and bot state (dash01_refactored.py) *)

Module OrderLimits.

(** [GateIOLimits.validate_order_value] *)
Definition validate_order_value (value_usdt : Q) : bool * Q :=
  let min_required := GateIOLimits.get_min_order_value_with_margin in
  (Qgeb value_usdt min_required, min_required).

(** [GateIOLimits.adjust_to_minimum] *)
Definition adjust_to_minimum (value_usdt : Q) : Q :=
  Qmax value_usdt GateIOLimits.get_min_order_value_with_margin.

(** [OrderValidator.validate_balance]: the [is_valid] of the result. *)
Definition validate_balance (balance amount : Q) : bool :=
  if Qle_bool balance 0 then false
  else if Qltb balance amount then false
  else true.

(** [OrderValidator.validate_order_limits]: [is_valid] and
    [min_required] of the result. *)
Definition validate_order_limits (amount : Q) : bool * Q :=
  let '(is_valid, min_required) := validate_order_value amount in
  if negb is_valid then (false, min_required) else (true, 0).

End OrderLimits.

Module BotStateManager.

Record t := mk {
  blocked_pairs : gset string;
  blocked_reasons : gmap string string
}.

Definition init : t := mk ∅ ∅.

Definition block_pair (pair reason : string) (s : t) : t :=
  mk ({[pair]} ∪ blocked_pairs s) (<[pair := reason]> (blocked_reasons s)).

Definition unblock_pair (pair : string) (s : t) : t :=
  mk (blocked_pairs s ∖ {[pair]}) (delete pair (blocked_reasons s)).

Definition is_pair_blocked (pair : string) (s : t) : bool :=
  bool_decide (pair ∈ blocked_pairs s).

Definition get_block_reason (pair : string) (s : t) : string :=
  default EmptyString (blocked_reasons s !! pair).

(** The calls made on a manager, and the manager after a sequence of
    them, first call first. *)
Inductive op := Block (pair reason : string) | Unblock (pair : string).

Definition pair_of (o : op) : string :=
  match o with Block p _ => p | Unblock p => p end.

Definition apply (o : op) (s : t) : t :=
  match o with
  | Block p r => block_pair p r s
  | Unblock p => unblock_pair p s
  end.

Definition run (ops : list op) (s : t) : t :=
  fold_left (fun s o => apply o s) ops s.

End BotStateManager.

Module WalletManager.

(** [IConfirmationService]: what the operator answers to the two
    prompts. *)
Class IConfirmationService (C : Type) := {
  request_order_adjustment_confirmation : C -> Q -> Q -> string -> bool;
  request_insufficient_funds_confirmation : C -> Q -> Q -> string -> bool
}.

(** [ConsoleConfirmationService]; [interrupted] tells whether the
    operator answers the prompt with a keyboard interrupt. *)
Record ConsoleConfirmationService := mkConsole { interrupted : bool }.

#[global] Instance console : IConfirmationService ConsoleConfirmationService := {
  request_order_adjustment_confirmation := fun c _ _ _ => negb (interrupted c);
  request_insufficient_funds_confirmation := fun _ _ _ _ => true
}.

Record t := mk {
  cached_balance : option Q;
  last_update : Q;
  cache_duration : Q;
  state_manager : BotStateManager.t
}.

(** [WalletManager(client)] *)
Definition init : t := mk None 0 5 BotStateManager.init.

(** [x or 0.0] *)
Definition or_zero (x : option Q) : Q :=
  match x with
  | Some b => if truthy b then b else 0
  | None => 0
  end.

(** [get_available_usdt]; [balance] is what
    [client.get_wallet_balance('USDT')] answers, [None] when it
    raises. *)
Definition get_available_usdt (now : Q) (force_refresh : bool) (balance : option Q)
           (m : t) : Q * t :=
  if force_refresh || Qltb (cache_duration m) (now - last_update m) then
    match balance with
    | Some b =>
        (or_zero (Some b), mk (Some b) now (cache_duration m) (state_manager m))
    | None => (or_zero (cached_balance m), m)
    end
  else (or_zero (cached_balance m), m).

Definition can_afford_order (now : Q) (balance : option Q) (usdt_amount : Q) (m : t)
  : bool * t :=
  let '(available, m1) := get_available_usdt now false balance m in
  let buffer := usdt_amount * 0.1 in
  (Qgeb available (usdt_amount + buffer), m1).

Definition block (pair reason : string) (m : t) : t :=
  mk (cached_balance m) (last_update m) (cache_duration m)
     (BotStateManager.block_pair pair reason (state_manager m)).

Section Suggest.
Context {C : Type} `{IConfirmationService C}.

(** [suggest_affordable_amount]; [reason] stands for the text of the
    block reason, which is formatted from the amounts. *)
Definition suggest_affordable_amount (confirmation_service : C) (now : Q)
           (balance : option Q) (requested_amount : Q) (pair reason : string) (m : t)
  : Q * t :=
  let '(available, m1) := get_available_usdt now false balance m in
  let min_gate_io := GateIOLimits.get_min_order_value_with_margin in
  if Qgeb requested_amount min_gate_io then
    if Qle_bool requested_amount available then (requested_amount, m1)
    else if request_insufficient_funds_confirmation confirmation_service
              requested_amount available pair
         then (0, block pair reason m1)
         else (0, m1)
  else
    let adjusted_amount := min_gate_io in
    if Qgeb available adjusted_amount then
      if request_order_adjustment_confirmation confirmation_service
           requested_amount adjusted_amount pair
      then (adjusted_amount, m1)
      else (0, m1)
    else if request_insufficient_funds_confirmation confirmation_service
              adjusted_amount available pair
         then (0, block pair reason m1)
         else (0, m1).
End Suggest.

End WalletManager.

(** ** The strategy helpers of the engine (dash01_refactored.py) *)

Module StrategyOrchestrator.

Record t := mk {
  capital : Q;
  scalping : Q;
  mean_reversion : Q;
  momentum : Q
}.

(** [StrategyOrchestrator(capital)] *)
Definition init (capital : Q) : t := mk capital 0.4 0.3 0.3.



End StrategyOrchestrator.






(** [pyramid_position]; [None] is the division by a zero entry price. *)
Definition pyramid_position (entry_price current_price position_size : Q) : option Q :=
  if Qeq_bool entry_price 0 then None
  else
    let price_change := (current_price - entry_price) / entry_price in
    if Qltb 0.03 price_change then Some (position_size * 0.5) else Some 0.

Module ProfitLock.

Record t := mk {
  base_trail : Q;
  trailing_stop : Q;
  highest_price : Q
}.

Definition init : t := mk 0.005 0 0.

Definition update_trailing_stop (current_price highest volatility : Q) (s : t) : Q * t :=
  let volatility_factor := 1 + volatility * 10 in
  let stop := highest * (1 - base_trail s * volatility_factor) in
  (stop, mk (base_trail s) stop (Qmax (highest_price s) highest)).

(** The literal [profit_levels] of [partial_profit_targets]. *)
Definition profit_levels : list (Q * Q) := [(0.01, 0.3); (0.02, 0.3); (0.03, 0.4)].

Definition partial_profit_targets (entry_price current_price : Q) : Q :=
  let profit :=
    if Qltb 0 entry_price then (current_price - entry_price) / entry_price else 0 in
  let take_profit :=
    fold_left (fun acc level => if Qgeb profit (fst level) then acc + snd level else acc)
              profit_levels 0 in
  Qmin 1.0 take_profit.

End ProfitLock.

Module FeeCalculator.

Definition EXIT_FEE_RATE : Q := 0.002.



Definition calculate_breakeven_price (total_invested total_fees_paid current_balance : Q) : Q :=
  if Qle_bool current_balance 0 then 0
  else
    let total_cost := total_invested + total_fees_paid in
    (total_cost / current_balance) / (1 - EXIT_FEE_RATE).


End FeeCalculator.

Module ProfitCalculator.

Definition calculate_net_profit_usdt (current_value_net total_cost_basis : Q) : Q :=
  current_value_net - total_cost_basis.

Definition calculate_net_profit_percentage (net_profit_usdt total_cost_basis : Q) : Q :=
  if Qltb 0 total_cost_basis then net_profit_usdt / total_cost_basis * 100 else 0.

(** [calculate_breakeven_price] with the default exit fee rate. *)
Definition calculate_breakeven_price (total_cost_basis current_balance : Q) : Q :=
  if Qltb 0 current_balance
  then total_cost_basis / (current_balance * (1 - FeeCalculator.EXIT_FEE_RATE))
  else 0.

Definition calculate_distance_to_breakeven (current_price breakeven_price : Q) : Q :=
  if Qltb 0 breakeven_price
  then (current_price - breakeven_price) / breakeven_price * 100
  else 0.

End ProfitCalculator.


(** ** The portfolio figures and the order book (dash01_refactored.py) *)

Module Portfolio.
Import GateIOClient.







End Portfolio.

Module OrderBook.

(** A level of the book: price and volume. *)
Definition level := (Q * Q)%type.

Record book := mkBook {
  bids : list level;
  asks : list level
}.

(** [sorted(levels, key=price)], and with [reverse=True]: stable. *)
Fixpoint insert_level (descending : bool) (x : level) (l : list level) : list level :=
  match l with
  | [] => [x]
  | y :: l' =>
      if (if descending then Qle_bool (fst y) (fst x) else Qle_bool (fst x) (fst y))
      then x :: l
      else y :: insert_level descending x l'
  end.

Definition sorted_levels (descending : bool) (l : list level) : list level :=
  fold_right (insert_level descending) [] l.

(** The choice between the two best levels: the second when it holds
    less volume. *)
Definition choose (best_levels : list level) : option Q :=
  match best_levels with
  | [] => None
  | [l1] => Some (fst l1)
  | l1 :: l2 :: _ => Some (fst (if Qltb (snd l2) (snd l1) then l2 else l1))
  end.

(** [get_best_book_price]; [book] is what [get_order_book] answered,
    [None] when the request failed. *)
Definition get_best_book_price (book_now : option book) (sd : GateIOClient.side)
  : option Q :=
  match book_now with
  | None => None
  | Some b =>
      match sd with
      | GateIOClient.Sell => choose (firstn 2 (sorted_levels true (bids b)))
      | GateIOClient.Buy => choose (firstn 2 (sorted_levels false (asks b)))
      end
  end.

(** How many levels are priced above, or below, a price. *)
Definition count_above (r : Q) (l : list level) : nat :=
  length (List.filter (fun x => Qltb r (fst x)) l).
Definition count_below (r : Q) (l : list level) : nat :=
  length (List.filter (fun x => Qltb (fst x) r) l).

End OrderBook.

(** ** EndpointClassifier (rate_limit_manager.py) *)

Module EndpointClassifier.
Import Stdlib.Strings.Ascii RateLimit.

Definition ENDPOINT_MAPPINGS : list (string * EndpointCategory) :=
  [("/spot/currencies", PUBLIC);
   ("/spot/currency_pairs", PUBLIC);
   ("/spot/tickers", PUBLIC);
   ("/spot/order_book", PUBLIC);
   ("/spot/trades", PUBLIC);
   ("/spot/candlesticks", PUBLIC);
   ("/spot/orders", SPOT_ORDER);
   ("/spot/batch_orders", SPOT_ORDER);
   ("/spot/cancel_batch_orders", SPOT_CANCEL);
   ("/spot/accounts", SPOT_OTHER);
   ("/spot/my_trades", SPOT_OTHER);
   ("/wallet/transfers", WALLET_TRANSFER);
   ("/wallet/sub_account_transfers", WALLET_TRANSFER);
   ("/withdrawals", WALLET_WITHDRAWAL);
   ("/wallet/deposits", WALLET_OTHER);
   ("/wallet/balances", WALLET_OTHER);
   ("/futures/orders", FUTURES_ORDER);
   ("/futures/batch_orders", FUTURES_ORDER);
   ("/futures/cancel_orders", FUTURES_CANCEL);
   ("/futures/positions", FUTURES_OTHER)]%string.

Fixpoint mapping_get (key : string) (m : list (string * EndpointCategory))
  : option EndpointCategory :=
  match m with
  | [] => None
  | (k, c) :: m' => if String.eqb key k then Some c else mapping_get key m'
  end.

(** [endpoint.split('?')[0]] *)
Fixpoint before_query (endpoint : string) : string :=
  match endpoint with
  | EmptyString => EmptyString
  | String c rest =>
      if Ascii.eqb c "?"%char then EmptyString else String c (before_query rest)
  end.

(** [needle in s] *)
Definition contains (needle s : string) : bool :=
  match String.index 0 needle s with Some _ => true | None => false end.

Definition writes (method : string) : bool :=
  String.eqb method "POST" || String.eqb method "PUT".

Definition classify_endpoint (endpoint method : string) : EndpointCategory :=
  let clean_endpoint := before_query endpoint in
  match mapping_get clean_endpoint ENDPOINT_MAPPINGS with
  | Some category =>
      if String.eqb clean_endpoint "/spot/orders" then
        if writes method then SPOT_ORDER
        else if String.eqb method "DELETE" then SPOT_CANCEL
        else SPOT_OTHER
      else category
  | None =>
      if String.prefix "/spot/" clean_endpoint then
        if writes method && contains "orders" clean_endpoint then SPOT_ORDER
        else if String.eqb method "DELETE" && contains "orders" clean_endpoint
        then SPOT_CANCEL
        else SPOT_OTHER
      else if String.prefix "/wallet/" clean_endpoint
              || String.prefix "/withdrawals" clean_endpoint
      then WALLET_OTHER
      else if String.prefix "/futures/" clean_endpoint then
        if writes method && contains "orders" clean_endpoint then FUTURES_ORDER
        else if String.eqb method "DELETE" && contains "orders" clean_endpoint
        then FUTURES_CANCEL
        else FUTURES_OTHER
      else PUBLIC
  end.

End EndpointClassifier.

(** * Concrete situations used in the examples below *)

Module Scenarios.

(** A breaker with the default settings that has seen five failures at
    time 0 and was asked at time 400 whether a call may proceed. *)
Definition half_open_breaker : CircuitBreaker.t :=
  CircuitBreaker.apply (CircuitBreaker.CanProceed 400)
    (CircuitBreaker.apply (CircuitBreaker.RecordFailure 0)
      (CircuitBreaker.apply (CircuitBreaker.RecordFailure 0)
        (CircuitBreaker.apply (CircuitBreaker.RecordFailure 0)
          (CircuitBreaker.apply (CircuitBreaker.RecordFailure 0)
            (CircuitBreaker.apply (CircuitBreaker.RecordFailure 0)
              (CircuitBreaker.init 5 300)))))).

(** The order breaker after five failed orders at time 0. *)
Definition opened_tracker : OrderFailureTracker.t :=
  OrderFailureTracker.record_failure 0 "unknown"
    (OrderFailureTracker.record_failure 0 "unknown"
      (OrderFailureTracker.record_failure 0 "unknown"
        (OrderFailureTracker.record_failure 0 "unknown"
          (OrderFailureTracker.record_failure 0 "unknown"
            OrderFailureTracker.default)))).

End Scenarios.

Module SleepScenarios.
Import SafeSleepManager.




End SleepScenarios.

Module RetryScenarios.
Import ApiRetryManager.

(** [ApiRetryManager()]: the default policy (five attempts), a new
    handler, a closed breaker. *)
Definition new_manager : t (H := GateIORateLimitHandler) :=
  mk default_config new_handler CircuitBreaker.default ∅.

Definition call (m : t (H := GateIORateLimitHandler)) (w : script) : run :=
  execute_with_retry scripted_operation (fun e => e) (fun _ => None) "api_call" m w.

(** A first call at time 1000: the exchange answers every one of the five
    invocations with a rate-limit error that carries no Retry-After. *)
Definition limited : script :=
  mkScript 1000 [Raised RATE_LIMIT; Raised RATE_LIMIT; Raised RATE_LIMIT;
                 Raised RATE_LIMIT; Raised RATE_LIMIT].

Definition first_call : run := call new_manager limited.

(** One second after the first call has failed the same manager is used
    again, for an operation that would return at once. *)
Definition later : script := mkScript (clock (world first_call) + 1) [].



End RetryScenarios.

Module CacheScenarios.
Import GateIOClient.

Definition old_fill : raw_trade := mkRaw Buy 9 1 1000 (Some 0.018) "USDT" "o1".
Definition new_fill : raw_trade := mkRaw Buy 10 1 2000 (Some 0.02) "USDT" "o2".

(** Before the order the account holds no BTC and one old fill; the order
    is filled at once: one BTC and a second fill. *)
Definition exchange : book :=
  mkBook [mkAccount "BTC" 0 0; mkAccount "USDT" 100 0] [old_fill]
         [mkAccount "BTC" 1 0; mkAccount "USDT" 90 0] [new_fill; old_fill].

(** The balance and the fills are read at time 100, the order is placed
    at time 101, both are read again at time 102. *)
Definition client_after_reads : t :=
  snd (get_all_buy_trades book_trades 100 "BTC_USDT"
         (snd (get_wallet_balance book_accounts 100 "BTC" (init 100) exchange))
         exchange).

Definition ordered : api_result * t * book :=
  place_spot_order book_submit 101 "BTC_USDT" Buy 1 10 client_after_reads exchange.

Definition reply : api_result := fst (fst ordered).
Definition client_after_order : t := snd (fst ordered).
Definition exchange_after_order : book := snd ordered.

Definition balance_read_after_order : Q :=
  fst (get_wallet_balance book_accounts 102 "BTC" client_after_order exchange_after_order).

Definition fills_read_after_order : list buy_trade :=
  fst (get_all_buy_trades book_trades 102 "BTC_USDT" client_after_order exchange_after_order).

(** The same reads when the two entries are dropped first, as the
    dashboard does after a manual order. *)
Definition balance_read_after_refresh : Q :=
  fst (get_wallet_balance book_accounts 102 "BTC"
         (refresh_portfolio_caches "BTC_USDT" "BTC" client_after_order)
         exchange_after_order).

Definition fills_read_after_refresh : list buy_trade :=
  fst (get_all_buy_trades book_trades 102 "BTC_USDT"
         (refresh_portfolio_caches "BTC_USDT" "BTC" client_after_order)
         exchange_after_order).

End CacheScenarios.

Module EngineScenarios.
Import GateIOClient Engine.

(** The arguments of a run on BTC_USDT: 100 USDT per trade, target
    0.9 %, the safety system switched off by the operator
    ([max_daily_loss = 1.0], [min_win_rate = 0.0]). *)
Definition btc (trades : Z) : params :=
  mkParams "BTC_USDT" "BTC" 100 0.9 trades 0.5 5 1.

Definition fresh : vars :=
  initial 1 0 0 0 OrderFailureTracker.default.

Definition candles : list (Q * Q) :=
  [(100, 10); (100.1, 10); (99.9, 10); (100, 10); (100, 10)].

Definition quiet_sleep : SafeSleepManager.sleep_env := SafeSleepManager.mkEnv 1 0 1.

(** A pass in which the market allows an entry (volatility 0.05, flat
    trend, best ask 100) and the exchange accepts the orders; [balance]
    is the base balance at the start of the pass, [ticker] the last
    price, [fill] the balance seen by every poll of the fill wait. *)
Definition market (now balance ticker bid fill : Q) : env :=
  mkEnv now 0 quiet_sleep balance [] (Some ticker) (Some 100) (Some bid) (Some bid)
        candles 0.05 0 0 (ApiDict false) (ApiDict false)
        now (fun k => now + 0.2 * inject_Z (Z.of_nat k)) (fun _ => fill).

(** The quantity of the entry order of these passes. *)
Definition entry_qty : Q := 0.19960079.

(** A buy at the limit price 100.2 whose fill is confirmed by the first
    poll; on the next pass the last price is 105; on the one after it is
    104, above 100.2 * (1 + 0.9 / 100). *)
Definition filled_buy : env := market 10 0 100 99.9 entry_qty.
Definition price_jumped : env := market 20 entry_qty 105 104.9 entry_qty.
Definition price_eased : env := market 30 entry_qty 104 103.9 entry_qty.

Definition after_buy : outcome := state_machine (btc 200) filled_buy fresh.
Definition after_jump : outcome := state_machine (btc 200) price_jumped (out_vars after_buy).
Definition after_ease : outcome := state_machine (btc 200) price_eased (out_vars after_jump).

(** A position of one BTC entered at 100 with no rung of the ladder
    used, and the same with the first two rungs used. *)
Definition open_position (l1 l2 : bool) : vars :=
  set_levels (mkLevel (-2) 2 l1) (mkLevel (-5) 3 l2) (mkLevel (-10) 0 false)
    (set_dca 100 100
       (set_currency (Some "BTC"%string)
          (set_position 100 1 (set_state POSITION_OPEN fresh)))).

(** The price has fallen to 88, a loss of 12 %; the best bid is 87.9. *)
Definition crash : env := market 30 1 88 87.9 1.

(** A whole run of one trade: the buy is filled, the balance is adopted
    on the next pass at the last price 100, the price reaches the target
    and the sale is placed, the balance is still there on the following
    pass and gone on the one after. *)
Definition one_trade (k : nat) : env :=
  match k with
  | 0%nat => market 10 0 100 99.9 entry_qty
  | 1%nat => market 20 entry_qty 100 99.9 entry_qty
  | 2%nat => market 21 entry_qty 101 100.95 entry_qty
  | 3%nat => market 22 entry_qty 101 100.95 entry_qty
  | _ => market 23 0 101 100.95 0
  end.

(** The same run with the sale seen filled on the pass that follows it. *)
Definition one_trade_direct (k : nat) : env :=
  match k with
  | 0%nat => market 10 0 100 99.9 entry_qty
  | 1%nat => market 20 entry_qty 100 99.9 entry_qty
  | 2%nat => market 21 entry_qty 101 100.95 entry_qty
  | _ => market 22 0 101 100.95 0
  end.

(** A tracker that recorded one failed manual order at time 0, and
    passes taken at times 1, 11, 21, ... *)
Definition failed_once : OrderFailureTracker.t :=
  OrderFailureTracker.record_failure 0 "unknown" OrderFailureTracker.default.

Definition ticking (k : nat) : env :=
  market (1 + 10 * inject_Z (Z.of_nat k)) 0 100 99.9 0.

End EngineScenarios.

Module EngineInvariants.
Import Engine.

(** The orders among the events of a pass. *)
Definition orders_of (ev : list event) : list GateIOClient.order :=
  flat_map (fun x => match x with Order o => [o] | _ => [] end) ev.

(** The safety system holds [n] samples, all zero, taken on day [today]
    under the thresholds [mdl] and [mwr]. *)
Definition zero_samples (mdl mwr : Q) (today : Z) (n : nat) (s : SafetySystem.t) : Prop :=
  SafetySystem.trade_history s = repeat 0 n /\
  SafetySystem.daily_pnl s == 0 /\
  SafetySystem.start_time s = today /\
  SafetySystem.max_daily_loss s = mdl /\
  SafetySystem.min_win_rate s = mwr.

(** What holds between the passes of a run that started on day [today]
    with an empty history: only zero samples have been taken, and a
    position can be open only after two of them, a sale pending only
    after four. *)
Definition not_before (n : nat) (v : vars) : Prop :=
  (current_state v = POSITION_OPEN -> (2 <= n)%nat) /\
  (current_state v = WAITING_FOR_SELL -> (4 <= n)%nat).

Definition early (mdl mwr : Q) (today : Z) (n : nat) (v : vars) : Prop :=
  zero_samples mdl mwr today n (safety v) /\ not_before n v.

(** What a run leaves behind when it stops for lack of trades to do or
    on the refusal of a fifth zero sample. *)
Definition stopped (p : params) (mdl mwr : Q) (today : Z) (f : final) : Prop :=
  (f_reason f = MaxTrades /\ (max_trades p <= trades_done (f_vars f))%Z) \/
  ((f_reason f = SafetyGuard \/ f_reason f = SafetyBlock) /\
   zero_samples mdl mwr today 5 (safety (f_vars f))).

(** The order breaker holds no failure. *)
Definition tracker_clear (f : OrderFailureTracker.t) : Prop :=
  OrderFailureTracker.circuit_open f = false /\
  (OrderFailureTracker.consecutive_failures f <= 0)%Z.

End EngineInvariants.

Module SessionScenarios.
Import SessionManager.

(** One bot started on BTC_USDT with 50 of the 100 USDT of the account;
    then its worker is found dead by the health loop; then its budget is
    deallocated. *)
Definition started : t := snd (start_bot 100 0 4242 "BTC_USDT" 50 init).

End SessionScenarios.

Module DcaScenarios.
Import GateIOClient Engine.


(** A run started on a balance of one BTC adopts it at the last price,
    100; on a later pass the price is 101, above the target 100.9. *)
Definition adopted : vars :=
  out_vars (state_machine (EngineScenarios.btc 200)
              (EngineScenarios.market 10 1 100 99.9 1) EngineScenarios.fresh).
Definition at_target : env := EngineScenarios.market 20 1 101 100.9 1.

End DcaScenarios.

Module PortfolioScenarios.
Import GateIOClient.


End PortfolioScenarios.

Module BookScenarios.
Import OrderBook.

(** A book whose second bid holds less volume than the best one. *)
Definition thin_second : book :=
  mkBook [(99.8, 3); (100, 5); (99.9, 1)] [(100.1, 2); (100.2, 1)].

End BookScenarios.

(** * Properties *)

(** ** Comparisons on [Q] *)

Lemma Qltb_lt (a b : Q) : Qltb a b = true <-> a < b.
Proof.
  unfold Qltb. rewrite negb_true_iff, <- not_true_iff_false, Qle_bool_iff.
  split; [apply Qnot_le_lt | apply Qlt_not_le].
Qed.

Lemma Qltb_ge (a b : Q) : Qltb a b = false <-> b <= a.
Proof.
  unfold Qltb. rewrite negb_false_iff. apply Qle_bool_iff.
Qed.

Lemma Qgeb_ge (a b : Q) : Qgeb a b = true <-> b <= a.
Proof. unfold Qgeb. apply Qle_bool_iff. Qed.

Lemma Qgeb_lt (a b : Q) : Qgeb a b = false <-> a < b.
Proof.
  unfold Qgeb. rewrite <- not_true_iff_false, Qle_bool_iff.
  split; [apply Qnot_le_lt | apply Qlt_not_le].
Qed.

Lemma Qle_bool_false (a b : Q) : Qle_bool a b = false <-> b < a.
Proof.
  rewrite <- not_true_iff_false, Qle_bool_iff.
  split; [apply Qnot_le_lt | apply Qlt_not_le].
Qed.

(** ** The circuit breakers *)

Section CircuitBreakerFacts.
Import CircuitBreaker.

Variables (threshold : Z) (timeout : Q).

(** The fields fixed at construction never change. *)
Lemma reachable_config b :
  reachable threshold timeout b ->
  failure_threshold b = threshold /\ recovery_timeout b = timeout.
Proof.
  induction 1 as [|o b Hb [IHt IHr]]; [now split|].
  destruct o; simpl; unfold record_success, can_proceed;
    try destruct (st b); simpl; try destruct (Qgeb _ _); simpl; now split.
Qed.

(** A breaker that is not closed has counted at least [threshold]
    failures. *)
Lemma reachable_not_closed b :
  reachable threshold timeout b ->
  st b <> CLOSED -> (failure_threshold b <= failure_count b)%Z.
Proof.
  induction 1 as [|o b Hb IH]; [now simpl|].
  destruct o as [now| |now]; simpl.
  - unfold record_failure; simpl.
    destruct (Z.leb_spec (failure_threshold b) (failure_count b + 1)); simpl.
    + intros _. assumption.
    + intros Hst. specialize (IH Hst). lia.
  - unfold record_success. destruct (st b) eqn:E; simpl; try congruence.
    all: rewrite ?E; intros Hst; apply IH; congruence.
  - unfold can_proceed. destruct (st b) eqn:E; simpl.
    + rewrite E. congruence.
    + destruct (Qgeb _ _); simpl; intros _; apply IH; congruence.
    + rewrite E. intros _. apply IH. congruence.
Qed.
End CircuitBreakerFacts.

(** C8, as stated, fails: no breaker of the code has both the backoff
    and the half-open state.  [CircuitBreaker], the one with
    [can_proceed] and HALF_OPEN, lets a call proceed right after a
    failure that leaves it closed.  [OrderFailureTracker], the one with
    the backoff, has no half-open state: once the cooldown has elapsed it
    is closed with its counters reset, and a failure right after that
    does not reopen it. *)
Lemma C8_counterexample :
  let b := CircuitBreaker.record_failure 0 CircuitBreaker.default in
  let s := snd (OrderFailureTracker.can_place_order 60 Scenarios.opened_tracker) in
  CircuitBreaker.st b = CircuitBreaker.CLOSED /\
  fst (CircuitBreaker.can_proceed 0 b) = true /\
  OrderFailureTracker.circuit_open Scenarios.opened_tracker = true /\
  fst (OrderFailureTracker.can_place_order 60 Scenarios.opened_tracker) = true /\
  OrderFailureTracker.circuit_open s = false /\
  OrderFailureTracker.failure_count s = 0%Z /\
  OrderFailureTracker.circuit_open (OrderFailureTracker.record_failure 61 "unknown" s)
  = false.
Proof. vm_compute. repeat split. Qed.

(** C8, amended.  The order breaker [OrderFailureTracker]: after a
    failure that leaves it closed (the count of failures stays below the
    opening threshold), [can_place_order] answers false exactly while
    less than [min(cooldown * backoff_multiplier^(consecutive-1),
    max_backoff)] seconds have passed since that failure; when it is open
    and the cooldown has elapsed, [can_place_order] answers true and
    leaves it closed with the counters reset.  The breaker of the retry
    manager, [CircuitBreaker], applies no backoff while closed; it moves
    from closed to open when the failures reach the threshold, from open
    to half-open once the recovery timeout has elapsed (and stays open
    before), from half-open to closed with the counter reset on a
    success, and from half-open back to open, with a new opening time, on
    a failure. *)
Theorem C8_breaker_backoff_and_transitions
        (s : OrderFailureTracker.t) (t : Q) (kind : string)
        (threshold : Z) (timeout : Q) (b : CircuitBreaker.t)
        (Hclosed : OrderFailureTracker.circuit_open s = false)
        (Hbelow : (OrderFailureTracker.failure_count s + 1
                   < OrderFailureTracker.max_failures s)%Z)
        (Hcons : (0 <= OrderFailureTracker.consecutive_failures s)%Z)
        (Hreach : CircuitBreaker.reachable threshold timeout b) :
  let s' := OrderFailureTracker.record_failure t kind s in
  let consecutive := (OrderFailureTracker.consecutive_failures s + 1)%Z in
  let backoff :=
    Qmin (OrderFailureTracker.cooldown_seconds s
          * Qpower (OrderFailureTracker.backoff_multiplier s) (consecutive - 1))
         (OrderFailureTracker.max_backoff s) in
  (OrderFailureTracker.circuit_open s' = false /\
   forall now,
     (fst (OrderFailureTracker.can_place_order now s') = false <-> now - t < backoff) /\
     snd (OrderFailureTracker.can_place_order now s') = s')
  /\
  (forall now,
     CircuitBreaker.st b = CircuitBreaker.CLOSED ->
     (threshold <= CircuitBreaker.failure_count b + 1)%Z ->
     CircuitBreaker.st (CircuitBreaker.record_failure now b) = CircuitBreaker.OPEN /\
     CircuitBreaker.last_failure_time (CircuitBreaker.record_failure now b) = now)
  /\
  (forall now,
     CircuitBreaker.st b = CircuitBreaker.OPEN ->
     (timeout <= now - CircuitBreaker.last_failure_time b ->
      fst (CircuitBreaker.can_proceed now b) = true /\
      CircuitBreaker.st (snd (CircuitBreaker.can_proceed now b)) = CircuitBreaker.HALF_OPEN) /\
     (now - CircuitBreaker.last_failure_time b < timeout ->
      fst (CircuitBreaker.can_proceed now b) = false /\
      snd (CircuitBreaker.can_proceed now b) = b))
  /\
  (CircuitBreaker.st b = CircuitBreaker.HALF_OPEN ->
   CircuitBreaker.st (CircuitBreaker.record_success b) = CircuitBreaker.CLOSED /\
   CircuitBreaker.failure_count (CircuitBreaker.record_success b) = 0%Z)
  /\
  (forall now,
     CircuitBreaker.st b = CircuitBreaker.HALF_OPEN ->
     CircuitBreaker.st (CircuitBreaker.record_failure now b) = CircuitBreaker.OPEN /\
     CircuitBreaker.last_failure_time (CircuitBreaker.record_failure now b) = now)
  /\
  (forall now,
     CircuitBreaker.st b = CircuitBreaker.CLOSED ->
     CircuitBreaker.can_proceed now b = (true, b))
  /\
  (forall now o,
     OrderFailureTracker.circuit_open o = true ->
     OrderFailureTracker.cooldown_seconds o
     <= now - OrderFailureTracker.last_failure_time o ->
     fst (OrderFailureTracker.can_place_order now o) = true /\
     OrderFailureTracker.circuit_open (snd (OrderFailureTracker.can_place_order now o))
     = false /\
     OrderFailureTracker.failure_count (snd (OrderFailureTracker.can_place_order now o))
     = 0%Z /\
     OrderFailureTracker.consecutive_failures
       (snd (OrderFailureTracker.can_place_order now o)) = 0%Z).
Proof.
  intros s' consecutive backoff.
  destruct (reachable_config threshold timeout b Hreach) as [Hthr Hto].
  repeat split.
  - (* the order circuit stays closed *)
    subst s'. unfold OrderFailureTracker.record_failure; simpl.
    destruct (Z.leb_spec (OrderFailureTracker.max_failures s)
                         (OrderFailureTracker.failure_count s + 1)); [lia | exact Hclosed].
  - (* refusal implies the window is running *)
    subst s'. unfold OrderFailureTracker.can_place_order, OrderFailureTracker.record_failure,
      OrderFailureTracker.backoff_time; simpl.
    destruct (Z.leb_spec (OrderFailureTracker.max_failures s)
                         (OrderFailureTracker.failure_count s + 1)); [lia|].
    rewrite Hclosed; simpl.
    destruct (Z.ltb_spec 0 (OrderFailureTracker.consecutive_failures s + 1)); [|lia].
    fold consecutive. fold backoff.
    destruct (Qltb (now - t) backoff) eqn:E; simpl; [|discriminate].
    intros _. now apply Qltb_lt.
  - subst s'. unfold OrderFailureTracker.can_place_order, OrderFailureTracker.record_failure,
      OrderFailureTracker.backoff_time; simpl.
    destruct (Z.leb_spec (OrderFailureTracker.max_failures s)
                         (OrderFailureTracker.failure_count s + 1)); [lia|].
    rewrite Hclosed; simpl.
    destruct (Z.ltb_spec 0 (OrderFailureTracker.consecutive_failures s + 1)); [|lia].
    fold consecutive. fold backoff.
    intros Hlt. apply Qltb_lt in Hlt. now rewrite Hlt.
  - (* the tracker itself is left as it was *)
    subst s'. unfold OrderFailureTracker.can_place_order, OrderFailureTracker.record_failure; simpl.
    destruct (Z.leb_spec (OrderFailureTracker.max_failures s)
                         (OrderFailureTracker.failure_count s + 1)); [lia|].
    rewrite Hclosed; simpl.
    destruct (_ <? _)%Z; [destruct (Qltb _ _)|]; reflexivity.
  - (* closed -> open *)
    unfold CircuitBreaker.record_failure; simpl. rewrite Hthr.
    destruct (Z.leb_spec threshold (CircuitBreaker.failure_count b + 1)); [reflexivity | lia].
  - (* open -> half-open *)
    unfold CircuitBreaker.can_proceed. rewrite H. rewrite Hto.
    apply Qgeb_ge in H0. now rewrite H0.
  - unfold CircuitBreaker.can_proceed. rewrite H. rewrite Hto.
    apply Qgeb_ge in H0. now rewrite H0.
  - unfold CircuitBreaker.can_proceed. rewrite H. rewrite Hto.
    apply Qgeb_lt in H0. now rewrite H0.
  - unfold CircuitBreaker.can_proceed. rewrite H. rewrite Hto.
    apply Qgeb_lt in H0. now rewrite H0.
  - (* half-open -> closed *)
    unfold CircuitBreaker.record_success. now rewrite H.
  - unfold CircuitBreaker.record_success. now rewrite H.
  - (* half-open -> open *)
    unfold CircuitBreaker.record_failure; simpl.
    assert (Hinv : (CircuitBreaker.failure_threshold b <= CircuitBreaker.failure_count b)%Z).
    { apply (reachable_not_closed threshold timeout b Hreach). congruence. }
    destruct (Z.leb_spec (CircuitBreaker.failure_threshold b)
                         (CircuitBreaker.failure_count b + 1)); [reflexivity | lia].
  - (* no backoff in the breaker of the retry manager *)
    intros now H. unfold CircuitBreaker.can_proceed. now rewrite H.
  - (* the order breaker closes after the cooldown *)
    unfold OrderFailureTracker.can_place_order. rewrite H. cbn [negb].
    apply Qgeb_ge in H0. now rewrite H0.
  - unfold OrderFailureTracker.can_place_order. rewrite H. cbn [negb].
    apply Qgeb_ge in H0. now rewrite H0.
  - unfold OrderFailureTracker.can_place_order. rewrite H. cbn [negb].
    apply Qgeb_ge in H0. now rewrite H0.
  - unfold OrderFailureTracker.can_place_order. rewrite H. cbn [negb].
    apply Qgeb_ge in H0. now rewrite H0.
Qed.

Lemma C8_witness :
  OrderFailureTracker.circuit_open OrderFailureTracker.default = false /\
  (OrderFailureTracker.failure_count OrderFailureTracker.default + 1
   < OrderFailureTracker.max_failures OrderFailureTracker.default)%Z /\
  (0 <= OrderFailureTracker.consecutive_failures OrderFailureTracker.default)%Z /\
  CircuitBreaker.reachable 5 300 Scenarios.half_open_breaker /\
  (fst (OrderFailureTracker.can_place_order 130
          (OrderFailureTracker.record_failure 100 "unknown" OrderFailureTracker.default))
   = false <-> 130 - 100 < 60) /\
  CircuitBreaker.st (CircuitBreaker.record_failure 500 Scenarios.half_open_breaker)
  = CircuitBreaker.OPEN.
Proof.
  assert (H1 : OrderFailureTracker.circuit_open OrderFailureTracker.default = false)
    by reflexivity.
  assert (H2 : (OrderFailureTracker.failure_count OrderFailureTracker.default + 1
                < OrderFailureTracker.max_failures OrderFailureTracker.default)%Z)
    by (vm_compute; reflexivity).
  assert (H3 : (0 <= OrderFailureTracker.consecutive_failures OrderFailureTracker.default)%Z)
    by (vm_compute; discriminate).
  assert (H4 : CircuitBreaker.reachable 5 300 Scenarios.half_open_breaker)
    by (unfold Scenarios.half_open_breaker; repeat constructor).
  pose proof (C8_breaker_backoff_and_transitions
                OrderFailureTracker.default 100 "unknown" 5 300
                Scenarios.half_open_breaker H1 H2 H3 H4) as [[_ HA] [_ [_ [_ [HB _]]]]].
  split; [exact H1|]. split; [exact H2|]. split; [exact H3|]. split; [exact H4|].
  split.
  - exact (proj1 (HA 130)).
  - apply (HB 500). reflexivity.
Defined.

(** ** The sleep budget *)

Section SleepFacts.
Import SafeSleepManager.




End SleepFacts.




(** ** The retry loop *)

Section RetryFacts.
Import ApiRetryManager.
Context {W H R E : Type} `{World W} `{IRateLimitHandler H W}.
Variable operation : W -> outcome R E * W.
Variable classify : E -> RetryableErrorType.
Variable extract_retry_after : E -> option Z.
Variable name : string.

Abbreviation attempt_loop' := (attempt_loop operation classify extract_retry_after name).

(** Every attempt number is spent either on an invocation or on a
    refusal of the rate-limit handler. *)
Lemma attempt_loop_count n : forall attempt (m : t) w log last inv skp,
  Z.of_nat n = (max_attempts (config m) - attempt + 1)%Z ->
  (invocations (attempt_loop' n attempt m w log last inv skp)
   + skipped (attempt_loop' n attempt m w log last inv skp) <= inv + skp + n)%nat /\
  (result (attempt_loop' n attempt m w log last inv skp) = Raised AttemptsExhausted ->
   (invocations (attempt_loop' n attempt m w log last inv skp)
    + skipped (attempt_loop' n attempt m w log last inv skp) = inv + skp + n)%nat).
Proof.
  induction n as [|n IH]; intros attempt m w log last inv skp Hn; simpl.
  - split; [lia | intros _; lia].
  - destruct (can_make_request (rate_handler m) w) as [[ok h1] w1].
    destruct ok; simpl.
    + destruct (operation w1) as [[r|e] w2].
      * simpl. split; [lia | discriminate].
      * destruct (is_rate_limit (classify e)).
        -- simpl.
           destruct (handle_rate_limit (extract_retry_after e) h1 w2) as [[d h2] w3].
           simpl.
           destruct (Z.leb_spec (max_attempts (config m)) attempt).
           ++ simpl. split; [lia | intros _; lia].
           ++ specialize (IH (attempt + 1)%Z (with_handler h2 (with_handler h1 m))
                             (sleep d w3)
                             (log ++ [mkAttempt attempt (classify e) d (now w3)])
                             (Some e) (S inv) skp).
              simpl in IH. destruct IH as [IH1 IH2]; [lia|].
              split; [lia | intros Hr; specialize (IH2 Hr); lia].
        -- simpl.
           destruct (calculate_delay attempt (config m) (classify e) w2) as [d w3].
           simpl.
           destruct (Z.leb_spec (max_attempts (config m)) attempt).
           ++ simpl. split; [lia | intros _; lia].
           ++ specialize (IH (attempt + 1)%Z (with_handler h1 m) (sleep d w3)
                             (log ++ [mkAttempt attempt (classify e) d (now w3)])
                             (Some e) (S inv) skp).
              simpl in IH. destruct IH as [IH1 IH2]; [lia|].
              split; [lia | intros Hr; specialize (IH2 Hr); lia].
    + specialize (IH (attempt + 1)%Z (with_handler h1 m) (sleep 0.1 w1) log last
                     inv (S skp)).
      simpl in IH. destruct IH as [IH1 IH2]; [lia|].
      split; [lia | intros Hr; specialize (IH2 Hr); lia].
Qed.

End RetryFacts.



(** ** The caches of the exchange client *)

Section CacheFacts.
Import GateIOClient.

Lemma clear_expired_keeps {V} now age (c : SmartCache.t V) key v ts :
  SmartCache.cache c !! key = Some v ->
  SmartCache.cache_times c !! key = Some ts ->
  now - ts <= age ->
  SmartCache.cache (SmartCache.clear_expired now age c) !! key = Some v /\
  SmartCache.cache_times (SmartCache.clear_expired now age c) !! key = Some ts.
Proof.
  intros Hv Hts Hage. unfold SmartCache.clear_expired; simpl.
  assert (Hfresh : Qltb age (now - ts) = false) by now apply Qltb_ge.
  split; apply map_lookup_filter_Some; (split; [assumption|]); simpl.
  - unfold SmartCache.expired. now rewrite Hts.
  - exact Hfresh.
Qed.

Context {X : Type}.
Variable spot_accounts : X -> option (list account).
Variable submit_order : order -> X -> api_result * X.

(** An order leaves a cached balance that is still fresh where it is,
    and the next read of the balance returns it whatever the exchange
    holds by then. *)
Lemma place_spot_order_keeps_fresh_balance
      now pair sd amount price c x cur v ts later :
  SmartCache.cache (price_cache c) !! wallet_key cur = Some v ->
  SmartCache.cache_times (price_cache c) !! wallet_key cur = Some ts ->
  now - ts <= 5 -> later - ts <= 5 ->
  fst (get_wallet_balance spot_accounts later cur
         (snd (fst (place_spot_order submit_order now pair sd amount price c x)))
         (snd (place_spot_order submit_order now pair sd amount price c x))) = v.
Proof.
  intros Hv Hts Hnow Hlater.
  assert (Hc : forall c', SmartCache.cache (price_cache c') !! wallet_key cur = Some v ->
                          SmartCache.cache_times (price_cache c') !! wallet_key cur = Some ts ->
                          forall x', fst (get_wallet_balance spot_accounts later cur c' x') = v).
  { intros c' Hv' Hts' x'. unfold get_wallet_balance, SmartCache.get.
    rewrite Hv', Hts'. simpl.
    assert (Hfresh : Qltb TradingConfig.CACHE_TIMEOUT_orderbook (later - ts) = false)
      by (apply Qltb_ge; exact Hlater).
    now rewrite Hfresh. }
  unfold place_spot_order.
  destruct (order_is_valid pair amount price); simpl; [|now apply Hc].
  destruct (submit_order _ x) as [r x']; simpl.
  unfold cleanup_caches. destruct (Qltb 60 _); simpl; [|now apply Hc].
  destruct (clear_expired_keeps now 5 (price_cache c) _ v ts Hv Hts Hnow) as [Hv' Hts'].
  now apply Hc.
Qed.
End CacheFacts.

(** C10, evaluated.  The balance and the fills of the pair are read, an
    order is placed through [place_spot_order] and accepted, and both are
    read again one second later: the exchange holds one BTC and two
    fills, the client answers with the values cached before the order
    (no BTC, one fill).  After the invalidation that the dashboard makes
    for manual orders the same reads return the new values. *)
Theorem C10_order_keeps_cached_entries :
  CacheScenarios.reply = GateIOClient.ApiDict false /\
  GateIOClient.book_accounts CacheScenarios.exchange_after_order
  = Some [GateIOClient.mkAccount "BTC" 1 0; GateIOClient.mkAccount "USDT" 90 0] /\
  CacheScenarios.balance_read_after_order == 0 /\
  length CacheScenarios.fills_read_after_order = 1%nat /\
  CacheScenarios.balance_read_after_refresh == 1 /\
  length CacheScenarios.fills_read_after_refresh = 2%nat.
Proof. vm_compute. repeat split. Qed.

(** ** The open-order check of the engine *)

Lemma positive_truthy (x : Q) : 0 < x -> truthy x = true.
Proof.
  intros Hx. unfold truthy. apply negb_true_iff.
  destruct (Qeq_bool x 0) eqn:E; [|reflexivity].
  apply Qeq_bool_iff in E. rewrite E in Hx. now apply Qlt_irrefl in Hx.
Qed.

Lemma above_dust_position (e : Engine.env) :
  0.0001 < Engine.e_balance e -> Engine.get_position_info e = Engine.e_balance e.
Proof.
  intros Hb. unfold Engine.get_position_info.
  rewrite positive_truthy by (eapply Qlt_trans; [|exact Hb]; reflexivity).
  apply Qltb_lt in Hb. now rewrite Hb.
Qed.


(** ** The state machine *)

Section EngineFacts.
Import Engine EngineInvariants.

Ltac break_match :=
  match goal with
  | |- context [match ?x with _ => _ end] => destruct x eqn:?
  end.

Ltac open_machine :=
  unfold state_machine, step_waiting_for_sell, step_waiting_to_buy,
    step_position_open, virtual_entry, buy_path, sell_at_target,
    below_target, dca_buy, stop_loss, timeout_sale, fail_order, done, raised.

(** Projections of the records of the engine, and nothing else. *)
Ltac project :=
  cbn [out_vars out_events out_raised fst snd
       current_state trades_done position_entry_price position_quantity
       position_time level1 level2 level3 dca_total_invested
       dca_weighted_avg_price currency safety failure_tracker sleep_manager
       main_loop_iterations
       set_state set_trades_done set_position set_position_time set_levels
       set_dca set_currency set_safety set_failure_tracker set_sleep_manager
       set_iterations] in *.

Ltac split_cases := repeat (break_match; project).

(** The fill wait makes at most as many polls as it has left. *)
Lemma poll_loop_bound e wait_until qty remaining : forall k,
  (snd (poll_loop e wait_until qty remaining k) <= k + remaining)%nat.
Proof.
  induction remaining as [|r IH]; intros k; simpl; [lia|].
  destruct (Qltb _ _); simpl; [|lia].
  destruct (_ && _); simpl; [lia|].
  specialize (IH (S k)). lia.
Qed.

(** A poll is made only while the clock is before [wait_until]. *)
Lemma poll_loop_in_time e wait_until qty remaining : forall k j,
  (k <= j)%nat -> (j < snd (poll_loop e wait_until qty remaining k))%nat ->
  e_poll_clock e j < wait_until.
Proof.
  induction remaining as [|r IH]; intros k j Hkj Hj; simpl in Hj; [lia|].
  destruct (Qltb (e_poll_clock e k) wait_until) eqn:E; simpl in Hj; [|lia].
  destruct (Nat.eq_dec j k) as [->|Hne]; [now apply Qltb_lt|].
  destruct (_ && _); simpl in Hj; [lia|].
  apply (IH (S k) j); [lia | exact Hj].
Qed.

(** In WAITING_TO_BUY a pass leaves the safety system, the order
    breaker, the count of trades and the recorded position as they are,
    and can only stay or open a position. *)
Lemma waiting_to_buy_frame p e v :
  current_state v = WAITING_TO_BUY ->
  let o := state_machine p e v in
  safety (out_vars o) = safety v /\
  failure_tracker (out_vars o) = failure_tracker v /\
  trades_done (out_vars o) = trades_done v /\
  main_loop_iterations (out_vars o) = main_loop_iterations v /\
  (current_state (out_vars o) = WAITING_TO_BUY \/
   current_state (out_vars o) = POSITION_OPEN).
Proof.
  intros Hst. open_machine. rewrite Hst.
  split_cases; repeat split; auto.
Qed.

(** In POSITION_OPEN a pass leaves the safety system as it is. *)
Lemma position_open_frame p e v :
  current_state v = POSITION_OPEN ->
  let o := state_machine p e v in
  safety (out_vars o) = safety v /\
  main_loop_iterations (out_vars o) = main_loop_iterations v.
Proof.
  intros Hst. open_machine. rewrite Hst.
  split_cases; repeat split; auto.
Qed.

(** The buy path never writes the position: entry price, quantity and
    opening time are the ones from before the buy. *)
Lemma buy_path_keeps_position p e v :
  position_entry_price (out_vars (buy_path p e v)) = position_entry_price v /\
  position_quantity (out_vars (buy_path p e v)) = position_quantity v /\
  position_time (out_vars (buy_path p e v)) = position_time v.
Proof.
  open_machine. split_cases; repeat split; auto.
Qed.

(** The buy path never changes the state: the report of the confirmed
    fill through [self.monitoring] raises before the assignment of
    POSITION_OPEN, and a pass whose fill was confirmed ends in the
    handler of the loop. *)
Lemma buy_path_keeps_state p e v :
  current_state (out_vars (buy_path p e v)) = current_state v.
Proof.
  unfold buy_path.
  replace (CursesDashboard.has_attribute "monitoring") with false by reflexivity.
  cbn [negb]. unfold done, raised, place.
  split_cases; reflexivity.
Qed.

(** With no entry price recorded, a pass in POSITION_OPEN places no
    order and never moves to WAITING_FOR_SELL. *)
Lemma position_open_without_entry p e v :
  current_state v = POSITION_OPEN ->
  position_entry_price v <= 0 ->
  orders_of (out_events (state_machine p e v)) = [] /\
  current_state (out_vars (state_machine p e v)) <> WAITING_FOR_SELL.
Proof.
  intros Hst Hentry. open_machine. rewrite Hst.
  apply Qltb_ge in Hentry. rewrite Hentry.
  destruct (Qeq_bool _ _); project; rewrite ?Hst; split; auto; discriminate.
Qed.
End EngineFacts.

(** ** The zero samples of the loop test *)

Section SafetyFacts.
Import SafetySystem EngineInvariants.

Lemma wins_zeros n : wins (repeat 0 n) = 0%nat.
Proof. induction n as [|n IH]; [reflexivity|]. simpl. exact IH. Qed.

Lemma win_rate_zeros n : win_rate (repeat 0 n) == 0.
Proof. unfold win_rate. rewrite wins_zeros. unfold Qdiv. apply Qmult_0_l. Qed.

Variables (mdl mwr : Q) (today : Z).
Hypothesis Hmdl : 0 <= mdl.
Hypothesis Hmwr : 0 < mwr.

(** A zero sample on top of [n] zero samples is accepted exactly when it
    is not the fifth; the refusal is the one of the win-rate rule. *)
Lemma check_zero n s :
  zero_samples mdl mwr today n s ->
  fst (check_trade today 0 s) = (n <? 4)%nat /\
  zero_samples mdl mwr today (S n) (snd (check_trade today 0 s)).
Proof.
  intros (Hh & Hp & Hd & Hl & Hw). unfold check_trade.
  rewrite Hd, Z.eqb_refl. cbn [negb].
  cbn [max_daily_loss min_win_rate daily_pnl trade_history start_time].
  rewrite Hh, Hl, Hw, ?Hd.
  replace (repeat 0 n ++ [0]) with (repeat 0 (S n))
    by apply repeat_cons.
  assert (Hloss : Qltb (daily_pnl s + 0) (- mdl) = false).
  { apply Qltb_ge. rewrite Hp. lra. }
  rewrite Hloss, repeat_length.
  assert (Hz : zero_samples mdl mwr today (S n)
                 (mk mdl mwr (daily_pnl s + 0) (repeat 0 (S n)) today)).
  { repeat split; try reflexivity. cbn [daily_pnl]. rewrite Hp. reflexivity. }
  destruct (Nat.leb_spec 5 (S n)) as [Hge|Hlt].
  - assert (Hrate : Qltb (win_rate (repeat 0 (S n))) mwr = true).
    { apply Qltb_lt. rewrite win_rate_zeros. exact Hmwr. }
    rewrite Hrate. cbn [fst snd]. split; [|exact Hz].
    symmetry. apply Nat.ltb_ge. lia.
  - cbn [fst snd]. split; [|exact Hz].
    symmetry. apply Nat.ltb_lt. lia.
Qed.
End SafetyFacts.

(** ** The main loop under zero samples *)

Section LoopFacts.
Import Engine EngineInvariants.

Variables (p : params) (envs : nat -> env) (mdl mwr : Q) (today : Z).
Hypothesis Hmdl : 0 <= mdl.
Hypothesis Hmwr : 0 < mwr.
Hypothesis Hday : forall k, e_today (envs k) = today.

Ltac project :=
  cbn [out_vars out_events out_raised fst snd
       current_state trades_done position_entry_price position_quantity
       position_time level1 level2 level3 dca_total_invested
       dca_weighted_avg_price currency safety failure_tracker sleep_manager
       main_loop_iterations
       set_state set_trades_done set_position set_position_time set_levels
       set_dca set_currency set_safety set_failure_tracker set_sleep_manager
       set_iterations] in *.

(** A clear breaker lets the pass through and stays as it is. *)
Lemma tracker_clear_allows now f :
  tracker_clear f -> OrderFailureTracker.can_place_order now f = (true, f).
Proof.
  intros [Hopen Hcons]. unfold OrderFailureTracker.can_place_order.
  rewrite Hopen. cbn [negb].
  destruct (Z.ltb_spec 0 (OrderFailureTracker.consecutive_failures f)); [lia | reflexivity].
Qed.

Lemma breaker_wait_frame e v :
  safety (fst (breaker_wait e v)) = safety v /\
  current_state (fst (breaker_wait e v)) = current_state v /\
  trades_done (fst (breaker_wait e v)) = trades_done v /\
  main_loop_iterations (fst (breaker_wait e v)) = main_loop_iterations v.
Proof.
  unfold breaker_wait.
  destruct (if OrderFailureTracker.circuit_open (failure_tracker v) then _ else _)
    as [granted m].
  project. repeat split.
Qed.

(** A pass that the breaker refuses takes no sample and leaves the
    state machine where it is. *)
Lemma pass_refused e v :
  fst (OrderFailureTracker.can_place_order (e_now e) (failure_tracker v)) = false ->
  exists v' ev,
    pass p e v = Continue v' ev /\
    safety v' = safety v /\
    current_state v' = current_state v /\
    trades_done v' = trades_done v /\
    main_loop_iterations v' = (main_loop_iterations v + 1)%Z.
Proof.
  intros Hcan. unfold pass. project.
  destruct (OrderFailureTracker.can_place_order (e_now e) (failure_tracker v)) as [can f].
  cbn [fst] in Hcan. subst can. cbn [negb].
  set (v1 := set_failure_tracker f (set_iterations (main_loop_iterations v + 1) v)).
  destruct (breaker_wait_frame e v1) as (Hs & Hc & Ht & Hi).
  destruct (breaker_wait e v1) as [v2 ev].
  exists v2, ev. split; [reflexivity|]. project. repeat split; assumption.
Qed.

(** A pass that the breaker lets through takes its zero sample; with
    [n <= 2] samples before the loop test the state machine runs, with
    more the pass breaks out of the loop on the fifth sample. *)
Lemma pass_allowed e v n :
  e_today e = today ->
  fst (OrderFailureTracker.can_place_order (e_now e) (failure_tracker v)) = true ->
  zero_samples mdl mwr today (S n) (safety v) ->
  not_before n v ->
  match pass p e v with
  | Continue v' ev =>
      (n <= 2)%nat /\ early mdl mwr today (S (S n)) v' /\
      main_loop_iterations v' = (main_loop_iterations v + 1)%Z /\
      (current_state v = WAITING_TO_BUY ->
       failure_tracker v'
       = snd (OrderFailureTracker.can_place_order (e_now e) (failure_tracker v)) /\
       trades_done v' = trades_done v)
  | Break v' ev =>
      (3 <= n)%nat /\ zero_samples mdl mwr today (S (S n)) (safety v') /\
      trades_done v' = trades_done v
  end.
Proof.
  intros He Hcan Hz [Hopen Hsell]. unfold pass. project.
  destruct (OrderFailureTracker.can_place_order (e_now e) (failure_tracker v)) as [can f].
  cbn [fst] in Hcan. subst can. cbn [negb snd].
  destruct (check_zero mdl mwr today Hmdl Hmwr (S n) (safety v) Hz) as [Hfst Hsnd].
  rewrite He.
  destruct (SafetySystem.check_trade today 0 (safety v)) as [ok s].
  cbn [fst snd] in Hfst, Hsnd. subst ok.
  destruct (Nat.ltb_spec (S n) 4) as [Hlt|Hge]; cbn [negb].
  - set (v2 := set_safety s
                 (set_failure_tracker f
                    (set_iterations (main_loop_iterations v + 1) v))).
    assert (Hcs : current_state v2 = current_state v) by reflexivity.
    assert (Hgoal :
      (n <= 2)%nat /\ early mdl mwr today (S (S n)) (out_vars (state_machine p e v2)) /\
      main_loop_iterations (out_vars (state_machine p e v2))
      = (main_loop_iterations v + 1)%Z /\
      (current_state v = WAITING_TO_BUY ->
       failure_tracker (out_vars (state_machine p e v2)) = f /\
       trades_done (out_vars (state_machine p e v2)) = trades_done v)).
    { destruct (current_state v) eqn:Hst.
      - destruct (waiting_to_buy_frame p e v2 Hcs) as (Hs & Hf & Ht & Hi & Hn).
        split; [lia|]. split; [|split; [exact Hi|intros _; split; assumption]].
        split; [rewrite Hs; exact Hsnd|].
        split; [intros _; lia|].
        intros Hw. destruct Hn as [Hn|Hn]; rewrite Hn in Hw; discriminate.
      - destruct (position_open_frame p e v2 Hcs) as (Hs & Hi).
        split; [lia|]. split; [|split; [exact Hi|discriminate]].
        split; [rewrite Hs; exact Hsnd|].
        specialize (Hopen eq_refl). split; intros _; lia.
      - specialize (Hsell eq_refl). lia. }
    destruct (out_raised (state_machine p e v2)); exact Hgoal.
  - split; [lia|]. project. split; [exact Hsnd | reflexivity].
Qed.

(** From [n] zero samples the loop makes at most [4 - n] more passes. *)
Lemma loop_early fuel : forall k v ev n,
  early mdl mwr today n v ->
  (n <= 4)%nat -> (5 <= fuel + n)%nat ->
  (0 <= main_loop_iterations v <= Z.of_nat n)%Z ->
  (f_passes (loop p envs fuel k v ev) <= k + (4 - n))%nat /\
  stopped p mdl mwr today (loop p envs fuel k v ev).
Proof.
  induction fuel as [|fuel IH]; intros k v ev n [Hz Hnb] Hn Hfuel Hit; [lia|].
  cbn [loop].
  destruct (Z.ltb_spec (trades_done v) (max_trades p)) as [Hlt|Hge]; cbn [negb].
  2:{ cbn [f_passes]. split; [lia|]. left. split; [reflexivity | exact Hge]. }
  destruct (check_zero mdl mwr today Hmdl Hmwr n (safety v) Hz) as [Hfst Hsnd].
  rewrite Hday.
  destruct (SafetySystem.check_trade today 0 (safety v)) as [ok s].
  cbn [fst snd] in Hfst, Hsnd. subst ok.
  destruct (Nat.ltb_spec n 4) as [Hn3|Hn4]; cbn [negb].
  2:{ cbn [f_passes]. split; [lia|]. right. split; [now left|].
      replace n with 4%nat in Hsnd by lia. exact Hsnd. }
  project.
  destruct (Z.ltb_spec (main_loop_iterations v) max_main_loop_iterations) as [_|Hcap];
    [|unfold max_main_loop_iterations in Hcap; lia].
  cbn [negb].
  set (v1 := set_safety s v).
  assert (Hz1 : zero_samples mdl mwr today (S n) (safety v1)) by exact Hsnd.
  assert (Hnb1 : not_before n v1) by exact Hnb.
  destruct (fst (OrderFailureTracker.can_place_order (e_now (envs k)) (failure_tracker v1)))
    eqn:Hcan.
  - pose proof (pass_allowed (envs k) v1 n (Hday k) Hcan Hz1 Hnb1) as Hp.
    destruct (pass p (envs k) v1) as [v2 ev2|v2 ev2].
    + destruct Hp as (Hn2 & Hearly & Hi & _).
      destruct (IH (S k) v2 (ev ++ ev2) (S (S n)) Hearly) as [Hpass Hstop];
        [lia | lia | rewrite Hi; subst v1; project; lia |].
      split; [lia | exact Hstop].
    + destruct Hp as (Hn3' & Hz5 & _). cbn [f_passes].
      split; [lia|]. right. split; [now right|].
      replace n with 3%nat in Hz5 by lia. exact Hz5.
  - destruct (pass_refused (envs k) v1 Hcan) as (v2 & ev2 & Hp & Hs & Hc & _ & Hi).
    rewrite Hp.
    assert (Hearly : early mdl mwr today (S n) v2).
    { split; [rewrite Hs; exact Hz1|].
      destruct Hnb as [Ho Hw]. split; rewrite Hc; intros Hst.
      - specialize (Ho Hst). lia.
      - specialize (Hw Hst). lia. }
    destruct (IH (S k) v2 (ev ++ ev2) (S n) Hearly) as [Hpass Hstop];
      [lia | lia | rewrite Hi; subst v1; project; lia |].
    split; [lia | exact Hstop].
Qed.

(** With a clear breaker the loop body runs exactly twice. *)
Lemma loop_clear_breaker now tracker :
  (0 < max_trades p)%Z ->
  tracker_clear tracker ->
  f_passes (scalp_runner p envs (initial mdl mwr today now tracker)) = 2%nat.
Proof.
  intros Hmax Hclear. unfold scalp_runner.
  set (v0 := initial mdl mwr today now tracker).
  assert (Hz0 : zero_samples mdl mwr today 0 (safety v0)) by (repeat split).
  change (Z.to_nat max_main_loop_iterations) with (S (S (S 9997))).
  (* the first test and pass *)
  cbn [loop].
  destruct (Z.ltb_spec (trades_done v0) (max_trades p)) as [_|Hge];
    [|subst v0; cbn in Hge; lia].
  cbn [negb].
  destruct (check_zero mdl mwr today Hmdl Hmwr 0 (safety v0) Hz0) as [Hfst Hsnd].
  rewrite Hday.
  destruct (SafetySystem.check_trade today 0 (safety v0)) as [ok s].
  cbn [fst snd] in Hfst, Hsnd. subst ok. cbn [Nat.ltb Nat.leb negb]. project.
  destruct (Z.ltb_spec (main_loop_iterations v0) max_main_loop_iterations) as [_|Hcap];
    [|subst v0; cbn in Hcap; unfold max_main_loop_iterations in Hcap; lia].
  cbn [negb].
  set (v1 := set_safety s v0).
  assert (Hcan1 : OrderFailureTracker.can_place_order (e_now (envs 0)) (failure_tracker v1)
                  = (true, tracker)) by (apply tracker_clear_allows; exact Hclear).
  assert (Hnb1 : not_before 0 v1) by (split; discriminate).
  pose proof (pass_allowed (envs 0) v1 0 (Hday 0)
                (eq_trans (f_equal fst Hcan1) eq_refl) Hsnd Hnb1) as Hp1.
  destruct (pass p (envs 0) v1) as [v2 ev2|v2 ev2]; [|destruct Hp1 as [Habs _]; lia].
  destruct Hp1 as (_ & [Hz2 Hnb2] & Hi2 & Hkeep).
  destruct (Hkeep eq_refl) as [Hf2 Ht2]. rewrite Hcan1 in Hf2. cbn [snd] in Hf2.
  (* the second test and pass *)
  cbn [loop].
  destruct (Z.ltb_spec (trades_done v2) (max_trades p)) as [_|Hge];
    [|rewrite Ht2 in Hge; subst v1 v0; cbn in Hge; lia].
  cbn [negb].
  destruct (check_zero mdl mwr today Hmdl Hmwr 2 (safety v2) Hz2) as [Hfst2 Hsnd2].
  rewrite Hday.
  destruct (SafetySystem.check_trade today 0 (safety v2)) as [ok2 s2].
  cbn [fst snd] in Hfst2, Hsnd2. subst ok2. cbn [Nat.ltb Nat.leb negb]. project.
  destruct (Z.ltb_spec (main_loop_iterations v2) max_main_loop_iterations) as [_|Hcap];
    [|rewrite Hi2 in Hcap; subst v1 v0; cbn in Hcap;
      unfold max_main_loop_iterations in Hcap; lia].
  cbn [negb].
  set (v3 := set_safety s2 v2).
  assert (Hcan3 : OrderFailureTracker.can_place_order (e_now (envs 1)) (failure_tracker v3)
                  = (true, tracker)).
  { subst v3. project. rewrite Hf2. apply tracker_clear_allows. exact Hclear. }
  assert (Hnb3 : not_before 2 v3) by exact Hnb2.
  pose proof (pass_allowed (envs 1) v3 2 (Hday 1)
                (eq_trans (f_equal fst Hcan3) eq_refl) Hsnd2 Hnb3) as Hp3.
  destruct (pass p (envs 1) v3) as [v4 ev4|v4 ev4]; [|destruct Hp3 as [Habs _]; lia].
  destruct Hp3 as (_ & [Hz4 _] & _).
  (* the third test *)
  cbn [loop].
  destruct (Z.ltb_spec (trades_done v4) (max_trades p)); cbn [negb]; [|reflexivity].
  destruct (check_zero mdl mwr today Hmdl Hmwr 4 (safety v4) Hz4) as [Hfst4 _].
  rewrite Hday.
  destruct (SafetySystem.check_trade today 0 (safety v4)) as [ok4 s4].
  cbn [fst] in Hfst4. subst ok4. reflexivity.
Qed.
End LoopFacts.

(** C2, as stated, fails: when the order breaker holds one earlier
    failure it refuses the passes before the second safety check, each
    pass takes one zero sample only, and the loop body runs four times
    before the fifth sample is refused. *)
Lemma C2_counterexample :
  let f := Engine.scalp_runner (EngineScenarios.btc 200) EngineScenarios.ticking
             (Engine.initial 0.15 0.3 0 0 EngineScenarios.failed_once) in
  Engine.f_passes f = 4%nat /\
  Engine.f_reason f = Engine.SafetyGuard /\
  Engine.trades_done (Engine.f_vars f) = 0%Z /\
  SafetySystem.trade_history (Engine.safety (Engine.f_vars f)) = [0; 0; 0; 0; 0].
Proof. vm_compute. repeat split. Qed.

(** C2, amended.  In a run of [scalp_runner] that stays within one
    calendar day, with [min_win_rate > 0] and [max_daily_loss >= 0], the
    loop test and the check inside the pass both call [check_trade(0)]
    and each call appends a zero sample.  The fifth zero sample is
    refused by the win-rate rule, so the loop body runs at most four
    times; when no trade has been counted the run ends on that refusal
    with exactly five zero samples in the history; and when the order
    breaker holds no failure at the start the loop body runs exactly
    twice. *)
Theorem C2_zero_samples_stop_the_run
        (p : Engine.params) (envs : nat -> Engine.env)
        (mdl mwr : Q) (today : Z) (now : Q) (tracker : OrderFailureTracker.t)
        (Hmdl : 0 <= mdl) (Hmwr : 0 < mwr)
        (Hday : forall k, Engine.e_today (envs k) = today)
        (Hmax : (0 < Engine.max_trades p)%Z) :
  let f := Engine.scalp_runner p envs (Engine.initial mdl mwr today now tracker) in
  let s := Engine.safety (Engine.f_vars f) in
  (Engine.f_passes f <= 4)%nat /\
  (Engine.trades_done (Engine.f_vars f) = 0%Z ->
   (Engine.f_reason f = Engine.SafetyGuard \/ Engine.f_reason f = Engine.SafetyBlock) /\
   SafetySystem.trade_history s = [0; 0; 0; 0; 0] /\
   SafetySystem.win_rate (SafetySystem.trade_history s) < SafetySystem.min_win_rate s /\
   ~ SafetySystem.daily_pnl s < - SafetySystem.max_daily_loss s) /\
  (EngineInvariants.tracker_clear tracker -> Engine.f_passes f = 2%nat).
Proof.
  intros f s.
  assert (Hearly : EngineInvariants.early mdl mwr today 0
                     (Engine.initial mdl mwr today now tracker)).
  { split; [repeat split | split; discriminate]. }
  destruct (loop_early p envs mdl mwr today Hmdl Hmwr Hday
              (Z.to_nat Engine.max_main_loop_iterations) 0
              (Engine.initial mdl mwr today now tracker) [] 0 Hearly)
    as [Hpasses Hstop].
  - lia.
  - unfold Engine.max_main_loop_iterations. lia.
  - cbn. lia.
  - subst s f. unfold Engine.scalp_runner.
    split; [exact Hpasses|]. split.
    + intros Hnone. destruct Hstop as [[_ Hge]|[Hreason Hz]]; [lia|].
      destruct Hz as (Hh & Hp & _ & Hl & Hw).
      split; [exact Hreason|]. split; [exact Hh|]. split.
      * rewrite Hh, Hw. rewrite (win_rate_zeros 5). exact Hmwr.
      * rewrite Hp, Hl. intros Hneg. lra.
    + intros Hclear.
      apply (loop_clear_breaker p envs mdl mwr today Hmdl Hmwr Hday now tracker Hmax Hclear).
Qed.

Lemma C2_witness :
  0 <= 0.15 /\ 0 < 0.3 /\
  (forall k, Engine.e_today (EngineScenarios.ticking k) = 0%Z) /\
  (0 < Engine.max_trades (EngineScenarios.btc 200))%Z /\
  (Engine.f_passes
     (Engine.scalp_runner (EngineScenarios.btc 200) EngineScenarios.ticking
        (Engine.initial 0.15 0.3 0 0 OrderFailureTracker.default)) <= 4)%nat.
Proof.
  assert (H1 : 0 <= 0.15) by (vm_compute; discriminate).
  assert (H2 : 0 < 0.3) by reflexivity.
  assert (H3 : forall k, Engine.e_today (EngineScenarios.ticking k) = 0%Z)
    by (intros k; reflexivity).
  assert (H4 : (0 < Engine.max_trades (EngineScenarios.btc 200))%Z) by reflexivity.
  split; [exact H1|]. split; [exact H2|]. split; [exact H3|]. split; [exact H4|].
  exact (proj1 (C2_zero_samples_stop_the_run
                  (EngineScenarios.btc 200) EngineScenarios.ticking
                  0.15 0.3 0 0 OrderFailureTracker.default H1 H2 H3 H4)).
Defined.


(** ** The buy and the sale at the target *)

(** C1, evaluated.  The engine is in WAITING_TO_BUY, the entry conditions
    hold, the best ask is 100: the buy is placed at 100.2 and the first
    poll confirms the fill.  The position is not recorded there (those
    statements are in the handler of the poll's exceptions), and the
    report to [self.monitoring], an attribute the dashboard does not
    have, raises before the state is set: the pass ends in the handler of
    the loop with the state still WAITING_TO_BUY.  On the next pass the
    balance is adopted as a position entered at the last price, 105, not
    at the limit price of the buy.  One pass later the price is 104,
    above 100.2 * (1 + 0.9 / 100) but below 105 * (1 + 0.9 / 100): no
    order is placed and the state stays POSITION_OPEN. *)
Theorem C1_fill_not_recorded :
  let o1 := EngineScenarios.after_buy in
  let o2 := EngineScenarios.after_jump in
  let o3 := EngineScenarios.after_ease in
  Engine.entry_conditions EngineScenarios.filled_buy = true /\
  EngineInvariants.orders_of (Engine.out_events o1)
  = [GateIOClient.mkOrder "BTC_USDT" GateIOClient.Buy 0.19960079 100.20000000] /\
  Engine.poll_loop EngineScenarios.filled_buy
    (Engine.e_wait_start EngineScenarios.filled_buy + 5)
    (Engine.buy_quantity (EngineScenarios.btc 200) EngineScenarios.filled_buy)
    Engine.max_balance_checks 0 = (true, 1%nat) /\
  CursesDashboard.has_attribute "monitoring" = false /\
  Engine.out_raised o1 = true /\
  Engine.current_state (Engine.out_vars o1) = Engine.WAITING_TO_BUY /\
  Engine.position_entry_price (Engine.out_vars o1) = 0 /\
  Engine.current_state (Engine.out_vars o2) = Engine.POSITION_OPEN /\
  Engine.position_entry_price (Engine.out_vars o2) = 105 /\
  Engine.position_quantity (Engine.out_vars o2) = 0.19960079 /\
  Engine.position_time (Engine.out_vars o2) = 20 /\
  100.2 * (1 + 0.9 / 100) <= 104 /\
  EngineInvariants.orders_of (Engine.out_events o3) = [] /\
  Engine.current_state (Engine.out_vars o3) = Engine.POSITION_OPEN.
Proof. vm_compute. repeat split; discriminate. Qed.

(** ** The completion of a trade *)

(** C3, evaluated.  In a run of one trade (bought, adopted at 100, sold
    at the target) the balance is still above the dust threshold on the
    pass after the sale, no open order is seen and the engine goes back
    to POSITION_OPEN; one pass later the balance is gone and the engine
    returns to WAITING_TO_BUY from POSITION_OPEN, counting the trade.
    The history of the safety system then holds the ten zero samples of
    the five passes and no sample for the trade.  When the balance is
    gone on the pass right after the sale, the trade is completed from
    WAITING_FOR_SELL and its sample (+1 %) is recorded. *)
Theorem C3_trade_counted_without_sample :
  let f := Engine.scalp_runner (EngineScenarios.btc 1) EngineScenarios.one_trade
             EngineScenarios.fresh in
  let g := Engine.scalp_runner (EngineScenarios.btc 1) EngineScenarios.one_trade_direct
             EngineScenarios.fresh in
  Engine.f_reason f = Engine.MaxTrades /\
  Engine.trades_done (Engine.f_vars f) = 1%Z /\
  Engine.current_state (Engine.f_vars f) = Engine.WAITING_TO_BUY /\
  Engine.f_passes f = 5%nat /\
  EngineInvariants.orders_of (Engine.f_events f)
  = [GateIOClient.mkOrder "BTC_USDT" GateIOClient.Buy 0.19960079 100.20000000;
     GateIOClient.mkOrder "BTC_USDT" GateIOClient.Sell 0.19960079 100.95000000] /\
  SafetySystem.trade_history (Engine.safety (Engine.f_vars f)) = repeat 0 10 /\
  Engine.trades_done (Engine.f_vars g) = 1%Z /\
  SafetySystem.trade_history (Engine.safety (Engine.f_vars g)) = repeat 0 8 ++ [0.0100].
Proof. vm_compute. repeat split. Qed.

(** A direct return from WAITING_FOR_SELL to WAITING_TO_BUY happens only
    with the balance at or below the dust threshold, and appends exactly
    one sample to the history. *)
Lemma waiting_for_sell_completion p e v :
  Engine.current_state v = Engine.WAITING_FOR_SELL ->
  Engine.e_today e = SafetySystem.start_time (Engine.safety v) ->
  Engine.current_state (Engine.out_vars (Engine.state_machine p e v))
  = Engine.WAITING_TO_BUY ->
  Engine.e_balance e <= 0.0001 /\
  exists pnl,
    SafetySystem.trade_history (Engine.safety (Engine.out_vars (Engine.state_machine p e v)))
    = SafetySystem.trade_history (Engine.safety v) ++ [pnl].
Proof.
  intros Hst Hday. unfold Engine.state_machine. rewrite Hst.
  unfold Engine.step_waiting_for_sell, Engine.get_position_info, Engine.done.
  destruct (Qltb 0.0001 (Engine.e_balance e)) eqn:Hdust.
  - apply Qltb_lt in Hdust.
    rewrite positive_truthy by (eapply Qlt_trans; [|exact Hdust]; reflexivity).
    cbn [andb].
    destruct (Qeq_bool (Engine.e_balance e) 0) eqn:E.
    + apply Qeq_bool_iff in E. rewrite E in Hdust. discriminate.
    + cbn. discriminate.
  - intros _. apply Qltb_ge in Hdust. split; [exact Hdust|].
    rewrite andb_false_r. cbv iota. change (Qeq_bool 0 0) with true. cbv iota.
    cbn [Engine.out_vars Engine.safety Engine.set_position Engine.set_trades_done
         Engine.set_state Engine.set_safety].
    unfold SafetySystem.check_trade. rewrite Hday, Z.eqb_refl. cbn [negb].
    exists ((if Qltb 0 (Engine.position_entry_price v)
             then (Engine.or_else (Engine.e_ticker e) (Engine.position_entry_price v)
                   - Engine.position_entry_price v)
                  / Engine.position_entry_price v * 100
             else 0) / 100).
    repeat match goal with
           | |- context [if ?b then _ else _] => destruct b
           end; reflexivity.
Qed.

(** ** The stop loss *)

(** C4, as stated, fails.  With a loss of 12 % (below the level-3
    trigger of -10 %), level 3 not activated and no rung used yet, the
    engine buys for the first rung and stays in POSITION_OPEN; and when
    the stop loss does fire (both rungs used) the sale is priced at the
    best bid itself, 87.9, which is above [bestBid * 0.995]. *)
Lemma C4_counterexample :
  let p := EngineScenarios.btc 200 in
  let o := Engine.state_machine p EngineScenarios.crash
             (EngineScenarios.open_position false false) in
  let o' := Engine.state_machine p EngineScenarios.crash
              (EngineScenarios.open_position true true) in
  calculate_strategy_pnl 88 100 <= -10 /\
  Engine.activated (Engine.level3 (EngineScenarios.open_position false false)) = false /\
  EngineInvariants.orders_of (Engine.out_events o)
  = [GateIOClient.mkOrder "BTC_USDT" GateIOClient.Buy 2.27272727 88.17600000] /\
  Engine.current_state (Engine.out_vars o) = Engine.POSITION_OPEN /\
  EngineInvariants.orders_of (Engine.out_events o')
  = [GateIOClient.mkOrder "BTC_USDT" GateIOClient.Sell 1.00000000 87.90000000] /\
  ~ 87.9 <= 87.9 * 0.995.
Proof.
  intros p o o'.
  split; [vm_compute; discriminate|].
  split; [reflexivity|].
  split; [vm_compute; reflexivity|].
  split; [vm_compute; reflexivity|].
  split; [vm_compute; reflexivity|].
  intros H. vm_compute in H. apply H. reflexivity.
Qed.

Section StopLossFacts.
Import Engine EngineInvariants.

(** The timeout check that follows the ladder keeps a pending sale
    pending and does not touch the ladder. *)
Lemma timeout_sale_keeps_sale p e first v :
  current_state v = WAITING_FOR_SELL ->
  current_state (out_vars (timeout_sale p e first v)) = WAITING_FOR_SELL /\
  level3 (out_vars (timeout_sale p e first v)) = level3 v /\
  out_raised (timeout_sale p e first v) = false.
Proof.
  intros Hst. unfold timeout_sale, done.
  destruct (_ && _); [|now repeat split].
  destruct (place _ _ _ _ _) as [r ev].
  destruct (GateIOClient.accepted r); now repeat split.
Qed.
End StopLossFacts.

(** C4, amended.  Whenever the engine is in POSITION_OPEN with a balance
    above dust and a recorded entry price, the price is below the target,
    the strategy P&L is negative and at or below the level-3 trigger,
    level 3 is not activated and levels 1 and 2 already are, it places a
    limit sell of the whole recorded quantity at the best bid of the book
    (at the current price times 0.995 when the book gives no price), and,
    the order passing the client's checks and being accepted, marks level
    3 activated and moves to WAITING_FOR_SELL. *)
Theorem C4_stop_loss_after_both_rungs
        (p : Engine.params) (e : Engine.env) (v : Engine.vars)
        (Hstate : Engine.current_state v = Engine.POSITION_OPEN)
        (Hbalance : 0.0001 < Engine.e_balance e)
        (Hentry : 0 < Engine.position_entry_price v)
        (Hbelow : Engine.current_price_of e v < Engine.target_price p v)
        (Hneg : calculate_strategy_pnl (Engine.current_price_of e v)
                                       (Engine.position_entry_price v) < 0)
        (Hloss : calculate_strategy_pnl (Engine.current_price_of e v)
                                        (Engine.position_entry_price v)
                 <= Engine.trigger_percent (Engine.level3 v))
        (H1 : Engine.activated (Engine.level1 v) = true)
        (H2 : Engine.activated (Engine.level2 v) = true)
        (H3 : Engine.activated (Engine.level3 v) = false)
        (Hvalid : GateIOClient.order_is_valid (Engine.pair p) (Engine.position_quantity v)
                    (Engine.if_none (Engine.e_best_bid e)
                                    (Engine.current_price_of e v * 0.995)) = true)
        (Haccept : GateIOClient.accepted (Engine.e_reply1 e) = true) :
  let price := Engine.if_none (Engine.e_best_bid e) (Engine.current_price_of e v * 0.995) in
  let o := Engine.state_machine p e v in
  (exists rest,
     Engine.out_events o
     = Engine.Order (GateIOClient.mkOrder (Engine.pair p) GateIOClient.Sell
                       (round8 (Engine.position_quantity v)) (round8 price)) :: rest) /\
  Engine.current_state (Engine.out_vars o) = Engine.WAITING_FOR_SELL /\
  Engine.activated (Engine.level3 (Engine.out_vars o)) = true.
Proof.
  intros price o. subst o price.
  unfold Engine.state_machine. rewrite Hstate.
  unfold Engine.step_position_open.
  rewrite above_dust_position by exact Hbalance.
  assert (Hpos : 0 < Engine.e_balance e)
    by (eapply Qlt_trans; [|exact Hbalance]; reflexivity).
  destruct (Qeq_bool (Engine.e_balance e) 0) eqn:E.
  { apply Qeq_bool_iff in E. rewrite E in Hpos. now apply Qlt_irrefl in Hpos. }
  apply Qltb_lt in Hentry. rewrite Hentry.
  apply Qgeb_lt in Hbelow. rewrite Hbelow.
  unfold Engine.below_target, Engine.ladder.
  apply Qltb_lt in Hneg. rewrite Hneg.
  apply Qle_bool_iff in Hloss. rewrite Hloss.
  rewrite H1, H2, H3. cbn [negb andb]. rewrite !andb_false_r. cbn [andb].
  unfold Engine.stop_loss, Engine.place. rewrite Hvalid, Haccept.
  cbn [Engine.done Engine.out_raised Engine.out_events Engine.out_vars].
  set (v' := Engine.set_state Engine.WAITING_FOR_SELL
               (Engine.set_levels (Engine.level1 v) (Engine.level2 v)
                  (Engine.activate (Engine.level3 v)) v)).
  destruct (timeout_sale_keeps_sale p e false v' eq_refl) as (Hs & Hl & Hr).
  rewrite Hr. cbn [Engine.out_vars Engine.out_events].
  split; [|split].
  - eexists. reflexivity.
  - exact Hs.
  - rewrite Hl. reflexivity.
Qed.

Lemma C4_witness :
  let p := EngineScenarios.btc 200 in
  let e := EngineScenarios.crash in
  let v := EngineScenarios.open_position true true in
  Engine.current_state v = Engine.POSITION_OPEN /\
  0.0001 < Engine.e_balance e /\
  0 < Engine.position_entry_price v /\
  Engine.current_price_of e v < Engine.target_price p v /\
  calculate_strategy_pnl (Engine.current_price_of e v) (Engine.position_entry_price v) < 0 /\
  calculate_strategy_pnl (Engine.current_price_of e v) (Engine.position_entry_price v)
  <= Engine.trigger_percent (Engine.level3 v) /\
  Engine.current_state (Engine.out_vars (Engine.state_machine p e v))
  = Engine.WAITING_FOR_SELL.
Proof.
  intros p e v.
  assert (H1 : Engine.current_state v = Engine.POSITION_OPEN) by reflexivity.
  assert (H2 : 0.0001 < Engine.e_balance e) by reflexivity.
  assert (H3 : 0 < Engine.position_entry_price v) by reflexivity.
  assert (H4 : Engine.current_price_of e v < Engine.target_price p v)
    by (vm_compute; reflexivity).
  assert (H5 : calculate_strategy_pnl (Engine.current_price_of e v)
                 (Engine.position_entry_price v) < 0) by (vm_compute; reflexivity).
  assert (H6 : calculate_strategy_pnl (Engine.current_price_of e v)
                 (Engine.position_entry_price v)
               <= Engine.trigger_percent (Engine.level3 v)) by (vm_compute; discriminate).
  split; [exact H1|]. split; [exact H2|]. split; [exact H3|]. split; [exact H4|].
  split; [exact H5|]. split; [exact H6|].
  exact (proj1 (proj2 (C4_stop_loss_after_both_rungs p e v H1 H2 H3 H4 H5 H6
                         eq_refl eq_refl eq_refl eq_refl eq_refl))).
Defined.

(** ** The supervisor and the budget *)

Section SessionFacts.
Import SessionManager.

Lemma well_keyed_insert (m : gmap string BotStatus) r :
  well_keyed m -> well_keyed (<[bot_pair r := r]> m).
Proof.
  intros Hm k r' Hk. destruct (decide (bot_pair r = k)) as [<-|Hne].
  - rewrite lookup_insert_eq in Hk. now inversion Hk.
  - rewrite lookup_insert_ne in Hk by exact Hne. now apply Hm.
Qed.

Lemma start_bot_well_keyed total now new_pid pair budget s :
  well_keyed (bots s) ->
  well_keyed (bots (snd (start_bot total now new_pid pair budget s))).
Proof.
  intros Hkeys. unfold start_bot.
  destruct (workers s !! pair); [exact Hkeys|].
  unfold allocate_budget. cbn [update_budget_info].
  destruct (Qle_bool _ _); [|destruct (Qltb _ _)];
    cbn [negb fst snd bots with_bots with_budget with_workers set_bot_status];
    try exact Hkeys.
  all: apply well_keyed_insert; apply well_keyed_insert; exact Hkeys.
Qed.




(** Sums of allocations do not depend on the order of the records, and
    a record that is neither running nor starting does not count. *)
Lemma allocation_of_perm l l' :
  l ≡ₚ l' -> allocation_of l == allocation_of l'.
Proof.
  unfold allocation_of.
  induction 1 as [|x l l' _ IH|x y l|l l' l'' _ IH1 _ IH2].
  - reflexivity.
  - rewrite !filter_cons. destruct (decide _); cbn; [now rewrite IH | exact IH].
  - rewrite !filter_cons. do 2 destruct (decide _); cbn; try reflexivity.
    rewrite !Qplus_assoc. rewrite (Qplus_comm (allocated_budget y.2)). reflexivity.
  - now rewrite IH1.
Qed.

Lemma allocated_sum_skips_inactive (m : gmap string BotStatus) k r :
  m !! k = Some r -> is_active (bot_status r) = false ->
  allocated_sum m == allocated_sum (delete k m).
Proof.
  intros Hk Hr.
  unfold allocated_sum.
  rewrite <- (insert_delete_id m k r Hk) at 1.
  rewrite (allocation_of_perm _ _
             (map_to_list_insert (delete k m) k r (lookup_delete_eq m k))).
  unfold allocation_of. rewrite filter_cons.
  destruct (decide _) as [Hact|_]; [cbn in Hact; congruence | reflexivity].
Qed.
End SessionFacts.




(** * Further properties of the code *)

(** ** The rate limiters *)

Section RateLimitFacts.
Import RateLimit RateLimitInvariants.


Lemma time_later w :
  punctual w ->
  clock w <= fst (time w) /\ clock (snd (time w)) = fst (time w) /\ punctual (snd (time w)).
Proof.
  unfold punctual, time. intros Hp. destruct (delays w) as [|d ds] eqn:E; simpl.
  - rewrite E. repeat split; [lra | constructor].
  - inversion Hp; subst. repeat split; [lra | assumption].
Qed.

Lemma sleep_later d w :
  punctual w ->
  clock w + d <= clock (sleep d w) /\ punctual (sleep d w).
Proof.
  unfold punctual, sleep. intros Hp. destruct (delays w) as [|late ds]; simpl.
  - split; [lra | constructor].
  - inversion Hp; subst. split; [lra | assumption].
Qed.

Lemma popleft_while_split cutoff l :
  exists P, l = P ++ SlidingWindowRateLimiter.popleft_while cutoff l /\
            Forall (fun x => x <= cutoff) P.
Proof.
  induction l as [|r l IH]; simpl.
  - exists []. split; [reflexivity | constructor].
  - destruct (Qle_bool r cutoff) eqn:E.
    + destruct IH as [P [HP HF]]. exists (r :: P). split.
      * simpl. now rewrite <- HP.
      * constructor; [now apply Qle_bool_iff | exact HF].
    + exists []. split; [reflexivity | constructor].
Qed.

Lemma popleft_while_length cutoff l :
  (length (SlidingWindowRateLimiter.popleft_while cutoff l) <= length l)%nat.
Proof.
  induction l as [|r l IH]; simpl; [lia|].
  destruct (Qle_bool r cutoff); simpl; lia.
Qed.

Lemma popleft_while_head cutoff r l :
  r <= cutoff ->
  (length (SlidingWindowRateLimiter.popleft_while cutoff (r :: l)) <= length l)%nat.
Proof.
  intros Hr. simpl. apply Qle_bool_iff in Hr. rewrite Hr. apply popleft_while_length.
Qed.

Lemma in_window_app win T l1 l2 :
  in_window win T (l1 ++ l2) = in_window win T l1 ++ in_window win T l2.
Proof. apply List.filter_app. Qed.

Lemma in_window_length win T l : (length (in_window win T l) <= length l)%nat.
Proof.
  unfold in_window. induction l as [|x l IH]; simpl; [lia|].
  destruct (_ && _); simpl; lia.
Qed.

Lemma in_window_old win T c l :
  c <= T - win -> Forall (fun x => x <= c) l -> in_window win T l = [].
Proof.
  intros Hc. induction 1 as [|x l Hx _ IH]; [reflexivity|].
  unfold in_window in *. simpl. rewrite IH.
  replace (Qltb (T - win) x) with false; [reflexivity|].
  symmetry. apply Qltb_ge. lra.
Qed.

Lemma in_window_future win T x : T < x -> in_window win T [x] = [].
Proof.
  intros Hx. unfold in_window. simpl.
  replace (Qle_bool x T) with false; [now rewrite andb_false_r|].
  symmetry. apply Qle_bool_false. exact Hx.
Qed.


Import SlidingWindowRateLimiter.

Lemma Forall_le_weaken (a b : Q) l :
  a <= b -> Forall (fun x => x <= a) l -> Forall (fun x => x <= b) l.
Proof. intros Hab HF. eapply List.Forall_impl; [|exact HF]. simpl. intros x Hx. lra. Qed.

Lemma cleanup_recorded c D w hist :
  recorded c hist D w ->
  let r := cleanup_old_requests (mk c D) w in
  config (fst r) = c /\
  recorded c hist (requests (fst r)) (snd r) /\
  (length (requests (fst r)) <= length D)%nat /\
  clock w <= clock (snd r).
Proof.
  intros [Hp [P [Hh HP]]]. unfold cleanup_old_requests.
  destruct (time_later w Hp) as [Hle [Hck Hp1]].
  destruct (time w) as [ta wa]; simpl in *.
  destruct (popleft_while_split (ta - inject_Z (window_seconds c)) D) as [P1 [HD HP1]].
  repeat split.
  - exact Hp1.
  - exists (P ++ P1). split.
    + rewrite <- app_assoc, <- HD. exact Hh.
    + apply Forall_app. split.
      * eapply Forall_le_weaken; [|exact HP]. unfold window_of. rewrite Hck. lra.
      * rewrite Hck. exact HP1.
  - apply popleft_while_length.
  - rewrite Hck. exact Hle.
Qed.

(** Recording when the deque has a free slot. *)
Lemma record_free c D w hist :
  recorded c hist D w ->
  (Z.of_nat (length D) < safe_max_requests c)%Z ->
  within_limit c hist ->
  let stamp := fst (time w) in
  let r := record_request (mk c D) w in
  config (fst r) = c /\
  recorded c (hist ++ [stamp]) (requests (fst r)) (snd r) /\
  (Z.of_nat (length (requests (fst r))) <= safe_max_requests c)%Z /\
  within_limit c (hist ++ [stamp]).
Proof.
  intros [Hp [P [Hh HP]]] Hlen Hwin. unfold record_request.
  destruct (time_later w Hp) as [Hle [Hck Hp1]].
  destruct (time w) as [t wa]; simpl in *.
  assert (Hrec : recorded c (hist ++ [t]) (D ++ [t]) wa).
  { split; [exact Hp1|]. exists P. split.
    - rewrite Hh. now rewrite app_assoc.
    - eapply Forall_le_weaken; [|exact HP]. rewrite Hck. lra. }
  destruct (cleanup_recorded c (D ++ [t]) wa (hist ++ [t]) Hrec) as [Hc [Hr [Hl _]]].
  rewrite length_app in Hl. simpl in Hl.
  split; [exact Hc|]. split; [exact Hr|]. split; [lia|].
  intros T. rewrite in_window_app.
  destruct (Qlt_le_dec T t) as [Hlt|Hge].
  - rewrite (in_window_future _ _ _ Hlt), app_nil_r. apply Hwin.
  - rewrite Hh, in_window_app.
    rewrite (in_window_old (window_of c) T (clock w - window_of c) P); [|lra|exact HP].
    rewrite length_app. simpl.
    pose proof (in_window_length (window_of c) T D).
    pose proof (in_window_length (window_of c) T [t]). simpl in *. lia.
Qed.

(** Recording on a full deque whose oldest request has left the
    window. *)
Lemma record_after_wait c o rest w hist :
  recorded c hist (o :: rest) w ->
  (Z.of_nat (length (o :: rest)) <= safe_max_requests c)%Z ->
  o + window_of c <= clock w ->
  within_limit c hist ->
  let stamp := fst (time w) in
  let r := record_request (mk c (o :: rest)) w in
  config (fst r) = c /\
  recorded c (hist ++ [stamp]) (requests (fst r)) (snd r) /\
  (Z.of_nat (length (requests (fst r))) <= safe_max_requests c)%Z /\
  within_limit c (hist ++ [stamp]).
Proof.
  intros [Hp [P [Hh HP]]] Hlen Hold Hwin. unfold record_request.
  destruct (time_later w Hp) as [Hle [Hck Hp1]].
  destruct (time w) as [t wa] eqn:Et; simpl in *.
  assert (Hrec : recorded c (hist ++ [t]) ((o :: rest) ++ [t]) wa).
  { split; [exact Hp1|]. exists P. split.
    - rewrite Hh. now rewrite app_assoc.
    - eapply Forall_le_weaken; [|exact HP]. rewrite Hck. lra. }
  destruct (cleanup_recorded c ((o :: rest) ++ [t]) wa (hist ++ [t]) Hrec) as [Hc [Hr _]].
  split; [exact Hc|]. split; [exact Hr|]. split.
  - unfold cleanup_old_requests.
    destruct (time_later wa Hp1) as [Hle2 _].
    destruct (time wa) as [tc wc]; simpl in *.
    assert (Ho : o <= tc - inject_Z (window_seconds c)).
    { unfold window_of in Hold. rewrite Hck in Hle2. lra. }
    pose proof (popleft_while_head _ o (rest ++ [t]) Ho) as Hl.
    rewrite length_app in Hl. simpl in Hl. simpl. lia.
  - intros T. rewrite in_window_app.
    destruct (Qlt_le_dec T t) as [Hlt|Hge].
    + rewrite (in_window_future _ _ _ Hlt), app_nil_r. apply Hwin.
    + rewrite Hh, in_window_app.
      rewrite (in_window_old (window_of c) T (clock w - window_of c) P); [|lra|exact HP].
      change (o :: rest) with ([o] ++ rest). rewrite in_window_app.
      rewrite (in_window_old (window_of c) T o [o]);
        [|lra|constructor; [lra|constructor]].
      rewrite !length_app. simpl.
      pose proof (in_window_length (window_of c) T rest).
      pose proof (in_window_length (window_of c) T [t]). simpl in *. lia.
Qed.


Lemma safe_max_positive c : (1 <= safe_max_requests c)%Z.
Proof. unfold safe_max_requests. lia. Qed.

(** Waiting the advertised time leaves a free slot or an oldest request
    that is out of the window. *)
Lemma wait_frees c D w hist :
  recorded c hist D w ->
  exists wt D' w',
    time_until_next_request (mk c D) w = (Some wt, mk c D', w') /\
    let w'' := if Qltb 0 wt then sleep wt w' else w' in
    recorded c hist D' w'' /\
    (length D' <= length D)%nat /\
    ((Z.of_nat (length D') < safe_max_requests c)%Z \/
     exists o rest, D' = o :: rest /\ o + window_of c <= clock w'').
Proof.
  intros Hrec. unfold time_until_next_request.
  destruct (cleanup_recorded c D w hist Hrec) as [_ [Hr [Hl _]]].
  unfold cleanup_old_requests in *. destruct (time w) as [ta wa]; simpl in *.
  set (D1 := popleft_while (ta - inject_Z (window_seconds c)) D) in *.
  unfold below_limit; simpl.
  destruct (Z.ltb_spec (Z.of_nat (length D1)) (safe_max_requests c)) as [Hlt|Hge].
  - exists 0, D1, wa. split; [reflexivity|]. simpl.
    split; [exact Hr|]. split; [exact Hl|]. left. exact Hlt.
  - destruct D1 as [|o rest] eqn:ED.
    + pose proof (safe_max_positive c). simpl in Hge. lia.
    + destruct Hr as [Hp [P [Hh HP]]].
      destruct (time_later wa Hp) as [Hle [Hck Hp2]].
      destruct (time wa) as [now w2]; simpl in *.
      set (wt := Qmax 0 (o + inject_Z (window_seconds c) - now)).
      exists wt, (o :: rest), w2. split; [reflexivity|].
      assert (Hwt : o + inject_Z (window_seconds c) - now <= wt) by apply Q.le_max_r.
      destruct (Qltb 0 wt) eqn:Epos.
      * destruct (sleep_later wt w2 Hp2) as [Hs Hps]. rewrite Hck in Hs.
        split; [|split; [exact Hl|]].
        -- split; [exact Hps|]. exists P. split; [exact Hh|].
           eapply Forall_le_weaken; [|exact HP].
           apply Qltb_lt in Epos. unfold window_of. lra.
        -- right. exists o, rest. split; [reflexivity|]. unfold window_of. lra.
      * apply Qltb_ge in Epos.
        split; [|split; [exact Hl|]].
        -- split; [exact Hp2|]. exists P. split; [exact Hh|].
           eapply Forall_le_weaken; [|exact HP]. rewrite Hck. lra.
        -- right. exists o, rest. split; [reflexivity|]. rewrite Hck.
           unfold window_of. lra.
Qed.

Lemma with_limiter_same {L} cat (s : L) m : with_limiter cat s m cat = Some s.
Proof. unfold with_limiter. destruct (category_eq_dec cat cat); congruence. Qed.

Lemma enforce_step cat (m : limiters) w c D hist :
  m cat = Some (mk c D) ->
  recorded c hist D w ->
  (Z.of_nat (length D) <= safe_max_requests c)%Z ->
  within_limit c hist ->
  exists m2 w2 D3,
    await_slot cat m w = Some (m2, w2) /\
    let stamp := fst (time w2) in
    let r := manager_record_request cat m2 w2 in
    fst r cat = Some (mk c D3) /\
    recorded c (hist ++ [stamp]) D3 (snd r) /\
    (Z.of_nat (length D3) <= safe_max_requests c)%Z /\
    within_limit c (hist ++ [stamp]).
Proof.
  intros Hm Hrec Hlen Hwin.
  unfold await_slot, manager_can_make_request. rewrite Hm.
  cbn [RateLimit.can_make_request strategy]. unfold SlidingWindowRateLimiter.can_make_request.
  destruct (cleanup_recorded c D w hist Hrec) as [_ [Hr [Hl _]]].
  unfold cleanup_old_requests in *. destruct (time w) as [ta wa]; simpl in Hr, Hl.
  set (D1 := popleft_while (ta - inject_Z (window_seconds (config (mk c D)))) (requests (mk c D))) in *.
  cbn [config]. unfold below_limit. cbn [requests config].
  destruct (Z.ltb_spec (Z.of_nat (length D1)) (safe_max_requests c)) as [Hlt|Hge]; cbn [negb].
  - (* a slot is free *)
    destruct (record_free c D1 wa hist Hr Hlt Hwin) as [Hc [Hr3 [Hl3 Hw3]]].
    exists (with_limiter cat (mk c D1) m), wa,
      (requests (fst (SlidingWindowRateLimiter.record_request (mk c D1) wa))).
    split; [reflexivity|].
    unfold manager_record_request. rewrite with_limiter_same.
    cbn [RateLimit.record_request strategy].
    destruct (SlidingWindowRateLimiter.record_request (mk c D1) wa) as [[c3 D3] w3] eqn:E3.
    simpl in *. subst c3. rewrite with_limiter_same.
    split; [reflexivity|]. split; [exact Hr3|]. split; [exact Hl3 | exact Hw3].
  - (* the deque is full *)
    unfold wait_if_needed. rewrite with_limiter_same.
    cbn [RateLimit.time_until_next_request strategy].
    destruct (wait_frees c D1 wa hist Hr) as [wt [D' [w' [Ht [Hr' [Hl' Hcase]]]]]].
    rewrite Ht.
    set (w'' := if Qltb 0 wt then sleep wt w' else w') in *.
    exists (with_limiter cat (mk c D') (with_limiter cat (mk c D1) m)), w'',
      (requests (fst (SlidingWindowRateLimiter.record_request (mk c D') w''))).
    split; [reflexivity|].
    unfold manager_record_request. rewrite with_limiter_same.
    cbn [RateLimit.record_request strategy].
    assert (Hgoal :
      let r := SlidingWindowRateLimiter.record_request (mk c D') w'' in
      config (fst r) = c /\
      recorded c (hist ++ [fst (time w'')]) (requests (fst r)) (snd r) /\
      (Z.of_nat (length (requests (fst r))) <= safe_max_requests c)%Z /\
      within_limit c (hist ++ [fst (time w'')])).
    { destruct Hcase as [Hfree|[o [rest [-> Hold]]]].
      - apply record_free; assumption.
      - apply record_after_wait; try assumption.
        clear - Hl' Hl Hlen. subst D1. cbn [length config requests] in *. lia. }
    destruct (SlidingWindowRateLimiter.record_request (mk c D') w'') as [[c3 D3] w3] eqn:E3.
    simpl in Hgoal. destruct Hgoal as [Hc [Hr3 [Hl3 Hw3]]]. subst c3.
    simpl. rewrite with_limiter_same.
    split; [reflexivity|]. split; [exact Hr3|]. split; [exact Hl3 | exact Hw3].
Qed.


Lemma requests_in_a_row_bounded n : forall cat (m : limiters) w c D hist,
  m cat = Some (mk c D) ->
  recorded c hist D w ->
  (Z.of_nat (length D) <= safe_max_requests c)%Z ->
  within_limit c hist ->
  exists stamps m' w',
    requests_in_a_row n cat m w = Some (stamps, m', w') /\
    length stamps = n /\
    within_limit c (hist ++ stamps).
Proof.
  induction n as [|n IH]; intros cat m w c D hist Hm Hrec Hlen Hwin.
  - exists [], m, w. rewrite app_nil_r. now repeat split.
  - destruct (enforce_step cat m w c D hist Hm Hrec Hlen Hwin)
      as [m2 [w2 [D3 [Ha [Hm3 [Hr3 [Hl3 Hw3]]]]]]].
    cbn [requests_in_a_row]. rewrite Ha.
    destruct (manager_record_request cat m2 w2) as [m3 w3]; simpl in *.
    destruct (IH cat m3 w3 c D3 _ Hm3 Hr3 Hl3 Hw3) as [stamps [m' [w' [Hrun [Hn Hw]]]]].
    rewrite Hrun. exists (fst (time w2) :: stamps), m', w'.
    split; [reflexivity|]. split; [simpl; now rewrite Hn|].
    rewrite <- app_assoc in Hw. exact Hw.
Qed.

End RateLimitFacts.

(** Through the default limiter, however the clock runs, the requests of
    one category are recorded and no window of [window_seconds] holds
    more than [safe_max_requests] of them. *)
Theorem sliding_window_never_over_limit
        (category : RateLimit.EndpointCategory)
        (m : RateLimit.limiters (L := RateLimit.SlidingWindowRateLimiter.t))
        (c : RateLimit.RateLimitConfig) (n : nat) (w : RateLimit.world) :
  m category = Some (RateLimit.SlidingWindowRateLimiter.init c) ->
  Forall (fun d => 0 <= d) (RateLimit.delays w) ->
  exists stamps m' w',
    RateLimit.requests_in_a_row n category m w = Some (stamps, m', w') /\
    length stamps = n /\
    forall T,
      (Z.of_nat (length (RateLimit.in_window (inject_Z (RateLimit.window_seconds c)) T stamps))
       <= RateLimit.safe_max_requests c)%Z.
Proof.
  intros Hm Hp.
  apply (requests_in_a_row_bounded n category m w c [] []); try assumption.
  - split; [exact Hp|]. exists []. split; [reflexivity | constructor].
  - pose proof (safe_max_positive c). simpl. lia.
  - intros T. pose proof (safe_max_positive c). simpl. lia.
Qed.

Lemma sliding_window_never_over_limit_witness :
  exists stamps m' w',
    RateLimit.requests_in_a_row 12 RateLimit.SPOT_ORDER RateLimit.sliding_window_manager
      (RateLimit.mkWorld 0 []) = Some (stamps, m', w') /\
    length stamps = 12%nat /\
    forall T,
      (Z.of_nat (length (RateLimit.in_window
                           (inject_Z (RateLimit.window_seconds
                                        (RateLimit.VIP_0_LIMITS RateLimit.SPOT_ORDER)))
                           T stamps))
       <= RateLimit.safe_max_requests (RateLimit.VIP_0_LIMITS RateLimit.SPOT_ORDER))%Z.
Proof.
  apply (sliding_window_never_over_limit RateLimit.SPOT_ORDER
           RateLimit.sliding_window_manager
           (RateLimit.VIP_0_LIMITS RateLimit.SPOT_ORDER) 12 (RateLimit.mkWorld 0 [])).
  - reflexivity.
  - constructor.
Defined.

Section TokenBucketFacts.
Import RateLimit RateLimit.TokenBucketRateLimiter RateLimitInvariants.

Variables (c : RateLimitConfig) (r B t0 : Q).
Local Abbreviation cap := (capacity c).
Local Abbreviation paced := (RateLimitInvariants.paced c r B t0).
Hypothesis Hr : 0 < r.


Lemma cap_ge_1 : 1 <= cap.
Proof.
  unfold capacity. change 1 with (inject_Z 1). rewrite <- Zle_Qle. apply safe_max_positive.
Qed.

Lemma refill_paced k s w :
  paced k s w ->
  let r' := refill_tokens s w in
  paced k (fst r') (snd r') /\
  last_refill (fst r') = fst (time w) /\
  tokens s <= tokens (fst r') /\
  Qmin cap (tokens s + (fst (time w) - last_refill s) * r) <= tokens (fst r').
Proof.
  intros [Hp [Hc [Hrate [Hlast [H0 [Hcap Hk]]]]]]. cbv zeta. unfold RateLimitInvariants.paced, refill_tokens.
  destruct (time_later w Hp) as [Hle [Hck Hp1]].
  destruct (time w) as [t wa]; cbn [fst snd tokens last_refill config refill_rate] in *.
  rewrite Hc, Hrate. fold (capacity c).
  assert (Hadd : 0 <= (t - last_refill s) * r) by nra.
  repeat split; try assumption; try reflexivity.
  - rewrite Hck. lra.
  - apply Q.min_glb; lra.
  - apply Q.le_min_l.
  - pose proof (Q.le_min_r cap (tokens s + (t - last_refill s) * r)). nra.
  - apply Q.min_glb; lra.
  - lra.
Qed.

Lemma inject_succ k : inject_Z (Z.of_nat (S k)) == inject_Z (Z.of_nat k) + 1.
Proof. rewrite Nat2Z.inj_succ. unfold Z.succ. rewrite inject_Z_plus. reflexivity. Qed.

(** Recording when a token is there, or will be at the next refill. *)
Lemma record_ready k s w :
  paced k s w ->
  1 <= tokens s + (clock w - last_refill s) * r ->
  let rr := TokenBucketRateLimiter.record_request s w in
  paced (S k) (fst rr) (snd rr) /\
  inject_Z (Z.of_nat (S k)) <= B + r * (fst (time w) - t0).
Proof.
  intros Hpaced Hready. cbv zeta. unfold TokenBucketRateLimiter.record_request.
  destruct (refill_paced k s w Hpaced) as [Hp1 [Hlast [Hmono Hmin]]].
  destruct Hpaced as [Hp [Hc [Hrate [Hl [H0 [Hcap Hk]]]]]].
  destruct (time_later w Hp) as [Hle _].
  destruct (refill_tokens s w) as [s1 w1]; cbn [fst snd] in *.
  destruct Hp1 as [Hp1 [Hc1 [Hrate1 [Hl1 [H01 [Hcap1 Hk1]]]]]].
  assert (Hone : 1 <= tokens s1).
  { eapply Qle_trans; [|exact Hmin]. apply Q.min_glb; [apply cap_ge_1|]. nra. }
  replace (Qgeb (tokens s1) 1) with true by (symmetry; now apply Qgeb_ge).
  cbn [fst snd]. rewrite inject_succ. unfold RateLimitInvariants.paced.
  cbn [tokens last_refill config refill_rate]. rewrite inject_succ.
  rewrite <- Hlast.
  repeat split; try assumption; lra.
Qed.

Lemma bucket_step cat (m : limiters) w s k :
  m cat = Some s ->
  paced k s w ->
  exists m2 w2 s3,
    await_slot cat m w = Some (m2, w2) /\
    let stamp := fst (time w2) in
    let rr := manager_record_request cat m2 w2 in
    fst rr cat = Some s3 /\
    paced (S k) s3 (snd rr) /\
    inject_Z (Z.of_nat (S k)) <= B + r * (stamp - t0).
Proof.
  intros Hm Hpaced.
  unfold await_slot, manager_can_make_request. rewrite Hm.
  cbn [RateLimit.can_make_request strategy].
  unfold TokenBucketRateLimiter.can_make_request.
  destruct (refill_paced k s w Hpaced) as [Hp1 _].
  destruct (refill_tokens s w) as [s1 w1]; cbn [fst snd] in *.
  destruct (Qgeb (tokens s1) 1) eqn:Eok; cbn [negb].
  - (* a token is there *)
    apply Qgeb_ge in Eok.
    assert (Hready : 1 <= tokens s1 + (clock w1 - last_refill s1) * r).
    { destruct Hp1 as [_ [_ [_ [Hl _]]]]. nra. }
    destruct (record_ready k s1 w1 Hp1 Hready) as [Hp3 Hk3].
    exists (with_limiter cat s1 m), w1,
      (fst (TokenBucketRateLimiter.record_request s1 w1)).
    split; [reflexivity|].
    unfold manager_record_request. rewrite with_limiter_same.
    cbn [RateLimit.record_request strategy].
    destruct (TokenBucketRateLimiter.record_request s1 w1) as [s3 w3].
    cbn [fst snd] in *. rewrite with_limiter_same.
    split; [reflexivity|]. split; assumption.
  - (* no token: wait for one *)
    apply Qgeb_lt in Eok.
    unfold wait_if_needed. rewrite with_limiter_same.
    cbn [RateLimit.time_until_next_request strategy].
    unfold TokenBucketRateLimiter.time_until_next_request.
    destruct (refill_paced k s1 w1 Hp1) as [Hp2 [Hlast2 _]].
    destruct (refill_tokens s1 w1) as [s2 w2]; cbn [fst snd] in *.
    assert (Hrate2 : refill_rate s2 = r) by apply Hp2.
    assert (Hck2 : last_refill s2 <= clock w2) by apply Hp2.
    assert (Hready : exists wt w2',
      (if Qgeb (tokens s2) 1 then (Some 0, s2, w2)
       else if Qeq_bool (refill_rate s2) 0 then (None, s2, w2)
       else (Some ((1 - tokens s2) / refill_rate s2), s2, w2)) = (Some wt, s2, w2) /\
      w2' = (if Qltb 0 wt then sleep wt w2 else w2) /\
      paced k s2 w2' /\
      1 <= tokens s2 + (clock w2' - last_refill s2) * r).
    { destruct (Qgeb (tokens s2) 1) eqn:E2.
      - apply Qgeb_ge in E2. exists 0, w2. split; [reflexivity|].
        split; [reflexivity|]. split; [exact Hp2|]. nra.
      - apply Qgeb_lt in E2. rewrite Hrate2.
        destruct (Qeq_bool r 0) eqn:Ez; [apply Qeq_bool_iff in Ez; lra|].
        set (wt := (1 - tokens s2) / r).
        assert (Hwt : wt * r == 1 - tokens s2).
        { unfold wt. field. intros Hz. lra. }
        assert (Hpos : 0 < wt).
        { unfold wt. apply Qlt_shift_div_l; [exact Hr|]. lra. }
        exists wt, (sleep wt w2). split; [reflexivity|].
        replace (Qltb 0 wt) with true by (symmetry; now apply Qltb_lt).
        split; [reflexivity|].
        destruct Hp2 as [Hp [Hc [Hrate [Hl [H0 [Hcap Hk]]]]]].
        destruct (sleep_later wt w2 Hp) as [Hs Hps].
        split.
        + unfold RateLimitInvariants.paced. repeat split; try assumption. lra.
        + nra. }
    destruct Hready as [wt [w2' [Ht [Hw2' [Hp2' Hready]]]]].
    rewrite Ht. rewrite <- Hw2'.
    destruct (record_ready k s2 w2' Hp2' Hready) as [Hp3 Hk3].
    exists (with_limiter cat s2 (with_limiter cat s1 m)), w2',
      (fst (TokenBucketRateLimiter.record_request s2 w2')).
    split; [reflexivity|].
    unfold manager_record_request. rewrite with_limiter_same.
    cbn [RateLimit.record_request strategy].
    destruct (TokenBucketRateLimiter.record_request s2 w2') as [s3 w3].
    cbn [fst snd] in *. rewrite with_limiter_same.
    split; [reflexivity|]. split; assumption.
Qed.

Lemma bucket_run n : forall cat (m : limiters) w s k,
  m cat = Some s ->
  paced k s w ->
  exists stamps m' w',
    requests_in_a_row n cat m w = Some (stamps, m', w') /\
    length stamps = n /\
    forall i stamp,
      nth_error stamps i = Some stamp ->
      inject_Z (Z.of_nat (k + S i)) <= B + r * (stamp - t0).
Proof.
  induction n as [|n IH]; intros cat m w s k Hm Hpaced.
  - exists [], m, w. repeat split. intros [|i] stamp; discriminate.
  - destruct (bucket_step cat m w s k Hm Hpaced) as [m2 [w2 [s3 [Ha [Hm3 [Hp3 Hk3]]]]]].
    cbn [requests_in_a_row]. rewrite Ha.
    destruct (manager_record_request cat m2 w2) as [m3 w3]; cbn [fst snd] in *.
    destruct (IH cat m3 w3 s3 (S k) Hm3 Hp3) as [stamps [m' [w' [Hrun [Hn Hall]]]]].
    rewrite Hrun. exists (fst (time w2) :: stamps), m', w'.
    split; [reflexivity|]. split; [simpl; now rewrite Hn|].
    intros [|i] stamp Hnth; simpl in Hnth.
    + injection Hnth as <-. replace (k + 1)%nat with (S k) by lia. exact Hk3.
    + replace (k + S (S i))%nat with (S k + S i)%nat by lia. now apply Hall.
Qed.

End TokenBucketFacts.

(** A token bucket created at time [t0] lets no more than its capacity
    plus what has been refilled since through: request number [i + 1]
    is recorded only when [i + 1 <= safe_max + rate * (t - t0)]. *)
Theorem token_bucket_paces_requests
        (category : RateLimit.EndpointCategory)
        (m : RateLimit.limiters (L := RateLimit.TokenBucketRateLimiter.t))
        (c : RateLimit.RateLimitConfig) (n : nat) (w w0 : RateLimit.world)
        (b : RateLimit.TokenBucketRateLimiter.t) :
  (0 < RateLimit.window_seconds c)%Z ->
  Forall (fun d => 0 <= d) (RateLimit.delays w) ->
  RateLimit.TokenBucketRateLimiter.init c w = Some (b, w0) ->
  m category = Some b ->
  exists stamps m' w',
    RateLimit.requests_in_a_row n category m w0 = Some (stamps, m', w') /\
    length stamps = n /\
    forall i stamp,
      nth_error stamps i = Some stamp ->
      inject_Z (Z.of_nat (S i))
      <= inject_Z (RateLimit.safe_max_requests c)
         + inject_Z (RateLimit.safe_max_requests c) / inject_Z (RateLimit.window_seconds c)
           * (stamp - fst (RateLimit.time w)).
Proof.
  intros Hwin Hp Hinit Hm.
  unfold RateLimit.TokenBucketRateLimiter.init in Hinit.
  destruct (time_later w Hp) as [Hle [Hck Hp0]].
  destruct (RateLimit.time w) as [t0 wa] eqn:Et; cbn [fst snd] in *.
  destruct (Z.eqb_spec (RateLimit.window_seconds c) 0) as [Hz|_]; [lia|].
  injection Hinit as <- <-.
  set (cap := inject_Z (RateLimit.safe_max_requests c)).
  set (r := cap / inject_Z (RateLimit.window_seconds c)).
  assert (Hcap : 1 <= cap) by apply cap_ge_1.
  assert (Hr : 0 < r).
  { unfold r. apply Qlt_shift_div_l.
    - change 0 with (inject_Z 0). now rewrite <- Zlt_Qlt.
    - lra. }
  apply (bucket_run c r cap t0 Hr n category m wa _ 0%nat Hm).
  unfold RateLimitInvariants.paced, RateLimitInvariants.capacity. cbn. fold cap. rewrite Hck.
  repeat split; try assumption; try reflexivity; try lra.
  change (inject_Z (Z.of_nat 0)) with 0. nra.
Qed.

Lemma token_bucket_paces_requests_witness :
  let c := RateLimit.VIP_0_LIMITS RateLimit.SPOT_ORDER in
  let w := RateLimit.mkWorld 0 [] in
  let b := RateLimit.TokenBucketRateLimiter.mk c 8 0 8 in
  exists stamps m' w',
    RateLimit.requests_in_a_row 12 RateLimit.SPOT_ORDER
      (RateLimit.with_limiter RateLimit.SPOT_ORDER b (fun _ => None)) w
    = Some (stamps, m', w') /\
    length stamps = 12%nat /\
    forall i stamp,
      nth_error stamps i = Some stamp ->
      inject_Z (Z.of_nat (S i))
      <= inject_Z (RateLimit.safe_max_requests c)
         + inject_Z (RateLimit.safe_max_requests c) / inject_Z (RateLimit.window_seconds c)
           * (stamp - fst (RateLimit.time w)).
Proof.
  intros c w b.
  apply (token_bucket_paces_requests RateLimit.SPOT_ORDER
           (RateLimit.with_limiter RateLimit.SPOT_ORDER b (fun _ => None))
           c 12 w w b).
  - reflexivity.
  - constructor.
  - reflexivity.
  - reflexivity.
Defined.

(** ** The breaker of the retry manager counts every failure *)

Section BreakerRunFacts.
Import CircuitBreaker BreakerRuns.

Lemma run_counts threshold ops : forall b k,
  failure_threshold b = threshold ->
  failure_count b = k ->
  st b = (if (threshold <=? k)%Z then OPEN else CLOSED) ->
  forallb (fun o => negb (is_probe o)) ops = true ->
  failure_count (run ops b) = (k + failures ops)%Z /\
  st (run ops b) = (if (threshold <=? k + failures ops)%Z then OPEN else CLOSED).
Proof.
  induction ops as [|o ops IH]; intros b k Ht Hk Hst Hops.
  - unfold failures; simpl. rewrite Z.add_0_r. now split.
  - simpl in Hops. apply andb_true_iff in Hops as [Ho Hops].
    destruct o as [now| |now]; [| |discriminate].
    + (* a failure *)
      assert (Hf : failures (RecordFailure now :: ops) = (1 + failures ops)%Z).
      { unfold failures. simpl. lia. }
      rewrite Hf. replace (k + (1 + failures ops))%Z with ((k + 1) + failures ops)%Z by lia.
      change (run (RecordFailure now :: ops) b) with (run ops (apply (RecordFailure now) b)).
      apply IH; try assumption.
      * simpl. now rewrite Hk.
      * simpl. rewrite Ht, Hk, Hst.
        destruct (Z.leb_spec threshold (k + 1)), (Z.leb_spec threshold k);
          try reflexivity; lia.
    + (* a success *)
      assert (Hf : failures (RecordSuccess :: ops) = failures ops) by reflexivity.
      rewrite Hf.
      assert (Hsame : apply RecordSuccess b = b).
      { simpl. unfold record_success. rewrite Hst. now destruct (_ <=? _)%Z. }
      change (run (RecordSuccess :: ops) b) with (run ops (apply RecordSuccess b)).
      rewrite Hsame. now apply IH.
Qed.
End BreakerRunFacts.

(** Successes between the failures do not count for a closed breaker:
    after any sequence of [record_failure] and [record_success] calls on
    a new breaker, [failure_count] is the number of failures, and the
    breaker is open exactly when that number has reached the threshold. *)
Theorem breaker_counts_failures_across_successes
        (threshold : Z) (timeout : Q) (ops : list CircuitBreaker.op) :
  (1 <= threshold)%Z ->
  forallb (fun o => negb (BreakerRuns.is_probe o)) ops = true ->
  let b := BreakerRuns.run ops (CircuitBreaker.init threshold timeout) in
  CircuitBreaker.failure_count b = BreakerRuns.failures ops /\
  CircuitBreaker.st b
  = (if (threshold <=? BreakerRuns.failures ops)%Z
     then CircuitBreaker.OPEN else CircuitBreaker.CLOSED).
Proof.
  intros Hthr Hops.
  apply (run_counts threshold ops (CircuitBreaker.init threshold timeout) 0);
    try reflexivity; try assumption.
  simpl. destruct (Z.leb_spec threshold 0); [lia | reflexivity].
Qed.

Lemma breaker_counts_failures_across_successes_witness :
  let ops := [CircuitBreaker.RecordFailure 1; CircuitBreaker.RecordSuccess;
              CircuitBreaker.RecordFailure 2; CircuitBreaker.RecordSuccess;
              CircuitBreaker.RecordFailure 3; CircuitBreaker.RecordSuccess;
              CircuitBreaker.RecordFailure 4; CircuitBreaker.RecordSuccess;
              CircuitBreaker.RecordFailure 5] in
  let b := BreakerRuns.run ops (CircuitBreaker.init 5 300) in
  CircuitBreaker.failure_count b = BreakerRuns.failures ops /\
  CircuitBreaker.st b
  = (if (5 <=? BreakerRuns.failures ops)%Z
     then CircuitBreaker.OPEN else CircuitBreaker.CLOSED).
Proof.
  intros ops.
  apply (breaker_counts_failures_across_successes 5 300 ops); [lia | reflexivity].
Defined.

(** ** The books of a retried call *)

Section RetryBooks.
Import ApiRetryManager.
Context {W H R E : Type} `{World W} `{IRateLimitHandler H W}.
Variable operation : W -> outcome R E * W.
Variable classify : E -> RetryableErrorType.
Variable extract_retry_after : E -> option Z.
Variable name : string.

Abbreviation loop' := (attempt_loop operation classify extract_retry_after name).

Lemma attempt_loop_books n : forall attempt (m : t) w log last inv skp,
  Z.of_nat n = (max_attempts (config m) - attempt + 1)%Z ->
  let r := loop' n attempt m w log last inv skp in
  (skp <= skipped r)%nat /\
  match result r with
  | Returned _ =>
      circuit_breaker (manager r) = CircuitBreaker.record_success (circuit_breaker m) /\
      retry_stats (manager r) = bump (name +:+ "_success") (retry_stats m)
  | Raised _ =>
      skipped r = skp -> (0 < n)%nat ->
      exists t,
        circuit_breaker (manager r) = CircuitBreaker.record_failure t (circuit_breaker m) /\
        retry_stats (manager r)
        = bump (name +:+ "_failure") (bump (name +:+ "_failure") (retry_stats m))
  end.
Proof.
  induction n as [|n IH]; intros attempt m w log last inv skp Hn; simpl.
  - split; [lia | intros _ Hpos; lia].
  - destruct (can_make_request (rate_handler m) w) as [[ok h1] w1].
    destruct ok; simpl.
    + destruct (operation w1) as [[x|e] w2].
      * simpl. split; [lia | now split].
      * destruct (is_rate_limit (classify e)).
        -- simpl.
           destruct (handle_rate_limit (extract_retry_after e) h1 w2) as [[d h2] w3].
           simpl.
           destruct (Z.leb_spec (max_attempts (config m)) attempt).
           ++ simpl. split; [lia|]. intros _ _. eexists. split; reflexivity.
           ++ specialize (IH (attempt + 1)%Z (with_handler h2 (with_handler h1 m))
                             (sleep d w3)
                             (log ++ [mkAttempt attempt (classify e) d (now w3)])
                             (Some e) (S inv) skp).
              simpl in IH. destruct IH as [IH1 IH2]; [lia|]. split; [exact IH1|].
              destruct (result _); [exact IH2|].
              intros Hs _. apply IH2; [exact Hs | lia].
        -- simpl.
           destruct (calculate_delay attempt (config m) (classify e) w2) as [d w3].
           simpl.
           destruct (Z.leb_spec (max_attempts (config m)) attempt).
           ++ simpl. split; [lia|]. intros _ _. eexists. split; reflexivity.
           ++ specialize (IH (attempt + 1)%Z (with_handler h1 m) (sleep d w3)
                             (log ++ [mkAttempt attempt (classify e) d (now w3)])
                             (Some e) (S inv) skp).
              simpl in IH. destruct IH as [IH1 IH2]; [lia|]. split; [exact IH1|].
              destruct (result _); [exact IH2|].
              intros Hs _. apply IH2; [exact Hs | lia].
    + specialize (IH (attempt + 1)%Z (with_handler h1 m) (sleep 0.1 w1) log last
                     inv (S skp)).
      simpl in IH. destruct IH as [IH1 IH2]; [lia|]. split; [lia|].
      destruct (result _); [exact IH2|].
      intros Hs _. lia.
Qed.
End RetryBooks.

(** A call on a closed breaker that fails with every attempt invoked
    (no attempt was refused by the rate-limit handler) invokes the
    operation [max_attempts] times, counts one failure on the breaker
    and two in the failure statistic of the operation. *)
Theorem failed_call_counts_one_breaker_failure
        {W H R E : Type} `{ApiRetryManager.World W}
        `{ApiRetryManager.IRateLimitHandler H W}
        (operation : W -> ApiRetryManager.outcome R E * W)
        (classify : E -> ApiRetryManager.RetryableErrorType)
        (extract_retry_after : E -> option Z)
        (name : string) (m : ApiRetryManager.t) (w : W) :
  let r := ApiRetryManager.execute_with_retry
             operation classify extract_retry_after name m w in
  let key := (name +:+ "_failure")%string in
  CircuitBreaker.st (ApiRetryManager.circuit_breaker m) = CircuitBreaker.CLOSED ->
  (1 <= ApiRetryManager.max_attempts (ApiRetryManager.config m))%Z ->
  ApiRetryManager.result r = ApiRetryManager.Raised ApiRetryManager.AttemptsExhausted ->
  ApiRetryManager.skipped r = 0%nat ->
  ApiRetryManager.invocations r
  = Z.to_nat (ApiRetryManager.max_attempts (ApiRetryManager.config m)) /\
  CircuitBreaker.failure_count (ApiRetryManager.circuit_breaker (ApiRetryManager.manager r))
  = (CircuitBreaker.failure_count (ApiRetryManager.circuit_breaker m) + 1)%Z /\
  ApiRetryManager.retry_stats (ApiRetryManager.manager r) !! key
  = Some (default 0%Z (ApiRetryManager.retry_stats m !! key) + 2)%Z.
Proof.
  intros r key Hst Hmax Hres Hskip. subst r.
  unfold ApiRetryManager.execute_with_retry in *.
  unfold CircuitBreaker.can_proceed in *. rewrite Hst in *. cbn [negb] in *.
  set (m0 := ApiRetryManager.with_breaker (ApiRetryManager.circuit_breaker m) m) in *.
  set (n := Z.to_nat (ApiRetryManager.max_attempts (ApiRetryManager.config m0))) in *.
  assert (Hn : Z.of_nat n = (ApiRetryManager.max_attempts (ApiRetryManager.config m0) - 1 + 1)%Z).
  { unfold n, m0. simpl. clear - Hmax. rewrite Z2Nat.id; [ring|].
    apply Z.le_trans with 1%Z; [discriminate | exact Hmax]. }
  pose proof (attempt_loop_books operation classify extract_retry_after name
                n 1 m0 w [] None 0 0 Hn) as [_ Hb].
  pose proof (attempt_loop_count operation classify extract_retry_after name
                n 1 m0 w [] None 0 0 Hn) as [_ Hc].
  cbv zeta in Hb. rewrite Hres in Hb.
  assert (Hpos : (0 < n)%nat).
  { unfold n, m0; cbn [ApiRetryManager.config ApiRetryManager.with_breaker]. lia. }
  destruct (Hb Hskip Hpos) as [t [Hcb Hstats]].
  specialize (Hc Hres). rewrite Hskip in Hc.
  split; [rewrite Nat.add_0_r in Hc; exact Hc|].
  split.
  - rewrite Hcb. reflexivity.
  - rewrite Hstats. unfold ApiRetryManager.bump.
    rewrite lookup_insert_eq. rewrite lookup_insert_eq. f_equal.
    unfold m0, key. cbn [ApiRetryManager.retry_stats ApiRetryManager.with_breaker].
    generalize (ApiRetryManager.retry_stats m !! (name +:+ "_failure")%string).
    intros [z|]; cbn [default from_option id]; lia.
Qed.

Lemma failed_call_counts_one_breaker_failure_witness :
  let r := RetryScenarios.first_call in
  ApiRetryManager.invocations r = 5%nat /\
  CircuitBreaker.failure_count (ApiRetryManager.circuit_breaker (ApiRetryManager.manager r))
  = 1%Z /\
  ApiRetryManager.retry_stats (ApiRetryManager.manager r) !! "api_call_failure"%string
  = Some 2%Z.
Proof.
  exact (@failed_call_counts_one_breaker_failure _ _ _ _
           ApiRetryManager.script_world
           (@ApiRetryManager.gate_io_handler _ ApiRetryManager.script_world)
           ApiRetryManager.scripted_operation (fun e => e) (fun _ => None) "api_call"
           RetryScenarios.new_manager RetryScenarios.limited
           eq_refl ltac:(vm_compute; discriminate) eq_refl eq_refl).
Defined.

(** ** The delay between two attempts *)

(** Whatever the attempt number and the kind of error, a delay computed
    for a retry lies between 100 ms and 1.2 times [max_delay] (the
    jitter can add a fifth to the capped delay); for an attempt number
    that is not positive it is 0. *)
Theorem calculate_delay_bounds
        {W : Type} `{ApiRetryManager.World W}
        (attempt : Z) (cfg : ApiRetryManager.RetryConfig)
        (et : ApiRetryManager.RetryableErrorType) (w : W) :
  (forall a b w', a <= b ->
     a <= fst (ApiRetryManager.uniform a b w') /\ fst (ApiRetryManager.uniform a b w') <= b) ->
  0 <= ApiRetryManager.base_delay cfg ->
  0 <= ApiRetryManager.exponential_base cfg ->
  0 <= ApiRetryManager.backoff_multiplier cfg ->
  0 <= ApiRetryManager.max_delay cfg ->
  let d := fst (ApiRetryManager.calculate_delay attempt cfg et w) in
  ((attempt <= 0)%Z -> d = 0) /\
  ((0 < attempt)%Z ->
   0.1 <= d /\ d <= Qmax 0.1 (1.2 * ApiRetryManager.max_delay cfg)).
Proof.
  intros Hu Hb He Hm Hmax d. subst d. unfold ApiRetryManager.calculate_delay.
  destruct (Z.leb_spec attempt 0) as [Hle|Hgt].
  - split; [reflexivity | lia].
  - split; [lia|]. intros _.
    set (d0 := ApiRetryManager.base_delay cfg
               * Qpower (ApiRetryManager.exponential_base cfg) (attempt - 1)).
    assert (H0 : 0 <= d0).
    { unfold d0. apply Qmult_le_0_compat; [exact Hb | now apply Qpower_0_le]. }
    set (d1 := if ApiRetryManager.is_rate_limit et then Qmax d0 60 else d0).
    assert (H1 : 0 <= d1).
    { unfold d1. destruct (ApiRetryManager.is_rate_limit et); [|exact H0].
      eapply Qle_trans; [exact H0 | apply Q.le_max_l]. }
    set (d3 := Qmin (d1 * ApiRetryManager.backoff_multiplier cfg)
                    (ApiRetryManager.max_delay cfg)).
    assert (H3 : 0 <= d3 /\ d3 <= ApiRetryManager.max_delay cfg).
    { unfold d3. split; [|apply Q.le_min_r].
      apply Q.min_glb; [now apply Qmult_le_0_compat | exact Hmax]. }
    destruct H3 as [H3 H3'].
    destruct (ApiRetryManager.jitter cfg).
    + assert (Hr : - (d3 * 0.2) <= d3 * 0.2) by lra.
      destruct (Hu (- (d3 * 0.2)) (d3 * 0.2) w Hr) as [Hj1 Hj2].
      destruct (ApiRetryManager.uniform (- (d3 * 0.2)) (d3 * 0.2) w) as [j w1].
      cbn [fst] in *. split; [apply Q.le_max_l|].
      apply Q.max_lub; [apply Q.le_max_l|].
      eapply Qle_trans; [|apply Q.le_max_r]. lra.
    + cbn [fst]. split; [apply Q.le_max_l|].
      apply Q.max_lub; [apply Q.le_max_l|].
      eapply Qle_trans; [|apply Q.le_max_r]. lra.
Qed.

Lemma calculate_delay_bounds_witness :
  let d := fst (ApiRetryManager.calculate_delay
                  (H := ApiRetryManager.script_world) 3
                  ApiRetryManager.default_config ApiRetryManager.SERVER_ERROR
                  (ApiRetryManager.mkScript 0 [])) in
  0.1 <= d /\ d <= Qmax 0.1 (1.2 * 60).
Proof.
  apply (@calculate_delay_bounds _ ApiRetryManager.script_world 3
           ApiRetryManager.default_config ApiRetryManager.SERVER_ERROR
           (ApiRetryManager.mkScript 0 [])).
  - intros a b w' Hab. simpl. split; [apply Qle_refl | exact Hab].
  - vm_compute; discriminate.
  - vm_compute; discriminate.
  - vm_compute; discriminate.
  - vm_compute; discriminate.
  - reflexivity.
Defined.

(** ** The local rate-limit handler *)



(** ** The length of one sleep *)

Section SleepBounds.
Import SafeSleepManager.

Lemma sanitize_duration_bounds m duration ctx :
  min_sleep (limits m) <= sanitize_duration m duration ctx /\
  sanitize_duration m duration ctx <= Qmax (min_sleep (limits m)) (context_cap m ctx).
Proof.
  unfold sanitize_duration.
  destruct (Qle_bool duration 0).
  - split; [apply Qle_refl | apply Q.le_max_l].
  - split; [apply Q.le_max_l|].
    apply Q.max_le_compat_l.
    eapply Qle_trans; [apply Q.le_min_l|].
    destruct ctx; simpl; apply Q.le_min_r.
Qed.
End SleepBounds.

(** Whatever duration is asked for (negative, zero or huge), the time
    handed to [time.sleep] is at least [min_sleep] and at most 1.1
    times the larger of [min_sleep] and the cap of the context (600 s
    for the circuit breaker, [max_sleep] for API retries, the smaller
    of [max_sleep] and 30 s otherwise). *)
Theorem sleep_length_is_bounded
        (m : SafeSleepManager.t) (duration : Q)
        (ctx : SafeSleepManager.SleepContext) (jitter : bool)
        (e : SafeSleepManager.sleep_env) :
  0 <= SafeSleepManager.min_sleep (SafeSleepManager.limits m) ->
  0.9 <= SafeSleepManager.jitter_factor e ->
  SafeSleepManager.jitter_factor e <= 1.1 ->
  let d := SafeSleepManager.planned_duration m duration ctx jitter e in
  SafeSleepManager.min_sleep (SafeSleepManager.limits m) <= d /\
  d <= 1.1 * Qmax (SafeSleepManager.min_sleep (SafeSleepManager.limits m))
                  (context_cap m ctx).
Proof.
  intros Hmin Hlo Hhi d. subst d. unfold SafeSleepManager.planned_duration.
  destruct (sanitize_duration_bounds m duration ctx) as [Hs1 Hs2].
  set (s := SafeSleepManager.sanitize_duration m duration ctx) in *.
  set (top := Qmax (SafeSleepManager.min_sleep (SafeSleepManager.limits m))
                   (context_cap m ctx)) in *.
  assert (Htop : SafeSleepManager.min_sleep (SafeSleepManager.limits m) <= top)
    by apply Q.le_max_l.
  destruct (jitter && negb (SafeSleepManager.is_circuit_breaker ctx)).
  - split; [apply Q.le_max_l|].
    apply Q.max_lub; nra.
  - split; [exact Hs1 | nra].
Qed.

Lemma sleep_length_is_bounded_witness :
  let m := SafeSleepManager.create_trading_sleep_manager 0 in
  let d := SafeSleepManager.planned_duration m 100000 SafeSleepManager.TRADING_CYCLE true
             (SafeSleepManager.mkEnv 1.1 0 0) in
  0.1 <= d /\ d <= 1.1 * Qmax 0.1 (Qmin 30 30).
Proof.
  apply (sleep_length_is_bounded (SafeSleepManager.create_trading_sleep_manager 0)
           100000 SafeSleepManager.TRADING_CYCLE true (SafeSleepManager.mkEnv 1.1 0 0));
    vm_compute; discriminate.
Defined.

(** ** The safety system across days *)

(** The first check of a new day forgets the previous day: the history
    is the new sample alone, the daily loss restarts from it, and the
    trade is allowed as soon as the sample itself does not pass the
    daily loss limit, whatever block was in force the day before. *)
Theorem first_check_of_a_day_starts_afresh
        (today : Z) (pnl : Q) (s : SafetySystem.t) :
  today <> SafetySystem.start_time s ->
  - SafetySystem.max_daily_loss s <= pnl ->
  let r := SafetySystem.check_trade today pnl s in
  fst r = true /\
  SafetySystem.trade_history (snd r) = [pnl] /\
  SafetySystem.daily_pnl (snd r) == pnl /\
  SafetySystem.start_time (snd r) = today.
Proof.
  intros Hday Hpnl r. subst r. unfold SafetySystem.check_trade.
  destruct (Z.eqb_spec today (SafetySystem.start_time s)) as [Heq|_]; [contradiction|].
  cbn [negb SafetySystem.max_daily_loss SafetySystem.min_win_rate SafetySystem.daily_pnl
       SafetySystem.trade_history SafetySystem.start_time app length].
  replace (Qltb (0 + pnl) (- SafetySystem.max_daily_loss s)) with false.
  - cbn. repeat split. ring.
  - symmetry. apply Qltb_ge. lra.
Qed.

Lemma first_check_of_a_day_starts_afresh_witness :
  let blocked := SafetySystem.mk 0.05 0.6 (-1) [-0.2; -0.2; -0.2; -0.2; -0.2] 7 in
  fst (SafetySystem.check_trade 7 0 blocked) = false /\
  fst (SafetySystem.check_trade 8 0 blocked) = true /\
  SafetySystem.trade_history (snd (SafetySystem.check_trade 8 0 blocked)) = [0].
Proof.
  intros blocked. split; [reflexivity|].
  pose proof (first_check_of_a_day_starts_afresh 8 0 blocked
                ltac:(discriminate) ltac:(vm_compute; discriminate)) as [H1 [H2 _]].
  split; assumption.
Defined.

(** ** The backoff of the order breaker *)

(** While the order breaker is closed, one more failure never shortens
    the backoff, and the backoff never passes [max_backoff]. *)
Theorem backoff_grows_with_the_streak
        (now : Q) (failure_type : string) (s : OrderFailureTracker.t) :
  1 <= OrderFailureTracker.backoff_multiplier s ->
  0 <= OrderFailureTracker.cooldown_seconds s ->
  let s' := OrderFailureTracker.record_failure now failure_type s in
  OrderFailureTracker.backoff_time s <= OrderFailureTracker.backoff_time s' /\
  OrderFailureTracker.backoff_time s' <= OrderFailureTracker.max_backoff s.
Proof.
  intros Hm Hcd s'. subst s'.
  unfold OrderFailureTracker.backoff_time, OrderFailureTracker.record_failure.
  cbn [OrderFailureTracker.cooldown_seconds OrderFailureTracker.backoff_multiplier
       OrderFailureTracker.consecutive_failures OrderFailureTracker.max_backoff].
  split; [|apply Q.le_min_r].
  apply Q.min_le_compat_r.
  assert (Hp : OrderFailureTracker.backoff_multiplier s
               ^ (OrderFailureTracker.consecutive_failures s - 1)
               <= OrderFailureTracker.backoff_multiplier s
                  ^ (OrderFailureTracker.consecutive_failures s + 1 - 1)).
  { apply Qpower_le_compat_l; [lia | exact Hm]. }
  nra.
Qed.

Lemma backoff_grows_with_the_streak_witness :
  let s := OrderFailureTracker.record_failure 0 "unknown" OrderFailureTracker.default in
  let s' := OrderFailureTracker.record_failure 1 "unknown" s in
  OrderFailureTracker.backoff_time s <= OrderFailureTracker.backoff_time s' /\
  OrderFailureTracker.backoff_time s' <= 300.
Proof.
  intros s.
  apply (backoff_grows_with_the_streak 1 "unknown" s); vm_compute; discriminate.
Defined.

(** ** The cache of the client *)

Section CacheFacts.
Import SmartCache.

(** A value stored in the cache is read back unchanged as long as it is
    not older than the age asked for; the first read after that drops
    the entry and its time stamp, and leaves the other entries alone. *)
Theorem cache_round_trip {V : Type} (now now' age : Q) (key : string) (v : V) (c : t V) :
  let c1 := set now key v c in
  (now' - now <= age -> get now' key age c1 = (Some v, c1)) /\
  (age < now' - now ->
   fst (get now' key age c1) = None /\
   cache (snd (get now' key age c1)) !! key = None /\
   cache_times (snd (get now' key age c1)) !! key = None /\
   forall k, k <> key -> cache (snd (get now' key age c1)) !! k = cache c !! k).
Proof.
  intros c1. subst c1. unfold get, set.
  cbn [cache cache_times]. rewrite !lookup_insert_eq. cbn [default from_option id].
  split.
  - intros Hage. replace (Qltb age (now' - now)) with false; [reflexivity|].
    symmetry. now apply Qltb_ge.
  - intros Hage. replace (Qltb age (now' - now)) with true
      by (symmetry; now apply Qltb_lt).
    cbn [fst snd cache cache_times]. rewrite !lookup_delete_eq.
    repeat split. intros k Hk.
    rewrite lookup_delete_ne by congruence. now rewrite lookup_insert_ne by congruence.
Qed.
End CacheFacts.

(** ** Reading balances and fills *)

Section ClientFacts.
Import GateIOClient.
Context {X : Type}.
Variable spot_accounts : X -> option (list account).
Variable my_trades : string -> X -> option (list raw_trade).

Lemma clear_expired_no_new {V} now age (c : SmartCache.t V) k :
  SmartCache.cache c !! k = None ->
  SmartCache.cache (SmartCache.clear_expired now age c) !! k = None.
Proof.
  intros Hk. unfold SmartCache.clear_expired. cbn [SmartCache.cache].
  apply map_lookup_filter_None. left. exact Hk.
Qed.

Lemma cleanup_caches_no_new_balance now c k :
  SmartCache.cache (price_cache c) !! k = None ->
  SmartCache.cache (price_cache (cleanup_caches now c)) !! k = None.
Proof.
  intros Hk. unfold cleanup_caches. destruct (Qltb 60 _); [|exact Hk].
  cbn [price_cache]. now apply clear_expired_no_new.
Qed.

Lemma get_miss_leaves_no_entry {V} now key age (c : SmartCache.t V) :
  fst (SmartCache.get now key age c) = None ->
  SmartCache.cache (snd (SmartCache.get now key age c)) !! key = None.
Proof.
  unfold SmartCache.get. destruct (SmartCache.cache c !! key) eqn:E; [|intros _; exact E].
  destruct (Qltb _ _); [|discriminate].
  intros _. cbn. apply lookup_delete_eq.
Qed.

(** When no fresh balance is cached and the account list cannot be
    fetched, or does not list the currency, [get_wallet_balance] answers
    0 and caches nothing for the currency: the next read asks the
    exchange again. *)
Theorem failed_balance_read_is_zero_and_uncached
        (now : Q) (cur : string) (c : t) (x : X) :
  fst (SmartCache.get now (wallet_key cur) TradingConfig.CACHE_TIMEOUT_orderbook
                      (price_cache c)) = None ->
  match spot_accounts x with
  | None => True
  | Some accounts => find (fun a => String.eqb (currency a) cur) accounts = None
  end ->
  fst (get_wallet_balance spot_accounts now cur c x) = 0 /\
  SmartCache.cache (price_cache (snd (get_wallet_balance spot_accounts now cur c x)))
    !! wallet_key cur = None.
Proof.
  intros Hmiss Hfail. unfold get_wallet_balance.
  pose proof (get_miss_leaves_no_entry now (wallet_key cur)
                TradingConfig.CACHE_TIMEOUT_orderbook (price_cache c) Hmiss) as Hno.
  destruct (SmartCache.get now (wallet_key cur) TradingConfig.CACHE_TIMEOUT_orderbook
                           (price_cache c)) as [cached pc].
  cbn [fst snd] in *. subst cached.
  set (c1 := mk pc (indicator_cache c) (stats_cache c) (last_cache_cleanup c)).
  assert (Hc2 : SmartCache.cache (price_cache (cleanup_caches now c1)) !! wallet_key cur = None)
    by (apply cleanup_caches_no_new_balance; exact Hno).
  destruct (spot_accounts x) as [accounts|]; [|now split].
  rewrite Hfail. now split.
Qed.

Lemma insert_desc_perm x l : Permutation (insert_desc x l) (x :: l).
Proof.
  induction l as [|y l IH]; simpl; [reflexivity|].
  destruct (_ <=? _)%Z; [reflexivity|].
  rewrite IH. apply perm_swap.
Qed.

Lemma sort_desc_perm l : Permutation (sort_desc l) l.
Proof.
  induction l as [|x l IH]; simpl; [reflexivity|].
  rewrite insert_desc_perm. now constructor.
Qed.

Local Abbreviation newer_first :=
  (fun a b : buy_trade => (bt_timestamp b <= bt_timestamp a)%Z).

Lemma insert_desc_sorted x l :
  StronglySorted newer_first l -> StronglySorted newer_first (insert_desc x l).
Proof.
  induction 1 as [|y l Hs IH Hy]; simpl.
  - repeat constructor.
  - destruct (Z.leb_spec (bt_timestamp y) (bt_timestamp x)) as [Hle|Hgt].
    + constructor; [now constructor|].
      constructor; [exact Hle|].
      eapply List.Forall_impl; [|exact Hy]. simpl. intros. lia.
    + constructor; [exact IH|].
      eapply Permutation_Forall; [symmetry; apply insert_desc_perm|].
      constructor; [lia | exact Hy].
Qed.

Lemma sort_desc_sorted l : StronglySorted newer_first (sort_desc l).
Proof.
  induction l as [|x l IH]; simpl; [constructor | now apply insert_desc_sorted].
Qed.

(** When no fresh list is cached, the fills [get_all_buy_trades] answers
    are exactly the buy fills the exchange reports, each converted once,
    ordered newest first. *)
Theorem buy_trades_are_the_buys_newest_first
        (now : Q) (pair : string) (c : t) (x : X) (all_trades : list raw_trade) :
  fst (SmartCache.get now (buy_trades_key pair) TradingConfig.CACHE_TIMEOUT_stats
                      (stats_cache c)) = None ->
  my_trades pair x = Some all_trades ->
  let trades := fst (get_all_buy_trades my_trades now pair c x) in
  StronglySorted (fun a b => (bt_timestamp b <= bt_timestamp a)%Z) trades /\
  Permutation trades
    (map to_buy_trade (filter (fun tr => side_eqb (t_side tr) Buy) all_trades)).
Proof.
  intros Hmiss Hfetch trades. subst trades. unfold get_all_buy_trades.
  destruct (SmartCache.get now (buy_trades_key pair) TradingConfig.CACHE_TIMEOUT_stats
                           (stats_cache c)) as [cached sc].
  cbn [fst] in Hmiss. subst cached. rewrite Hfetch.
  destruct all_trades as [|tr trs].
  - cbn. split; constructor.
  - cbn [fst]. unfold buy_trades_of. split.
    + apply sort_desc_sorted.
    + apply sort_desc_perm.
Qed.
End ClientFacts.

Lemma failed_balance_read_is_zero_and_uncached_witness :
  let r := GateIOClient.get_wallet_balance GateIOClient.book_accounts 100 "ETH"
             (GateIOClient.init 100) CacheScenarios.exchange in
  fst r = 0 /\
  SmartCache.cache (GateIOClient.price_cache (snd r)) !! GateIOClient.wallet_key "ETH" = None.
Proof.
  exact (failed_balance_read_is_zero_and_uncached GateIOClient.book_accounts 100 "ETH"
           (GateIOClient.init 100) CacheScenarios.exchange eq_refl eq_refl).
Defined.

Lemma buy_trades_are_the_buys_newest_first_witness :
  let trades := fst (GateIOClient.get_all_buy_trades GateIOClient.book_trades 100 "BTC_USDT"
                       (GateIOClient.init 100) CacheScenarios.exchange_after_order) in
  StronglySorted
    (fun a b => (GateIOClient.bt_timestamp b <= GateIOClient.bt_timestamp a)%Z) trades /\
  Permutation trades
    (map GateIOClient.to_buy_trade
       (filter (fun tr => GateIOClient.side_eqb (GateIOClient.t_side tr) GateIOClient.Buy)
               [CacheScenarios.new_fill; CacheScenarios.old_fill])).
Proof.
  exact (buy_trades_are_the_buys_newest_first GateIOClient.book_trades 100 "BTC_USDT"
           (GateIOClient.init 100) CacheScenarios.exchange_after_order
           [CacheScenarios.new_fill; CacheScenarios.old_fill] eq_refl eq_refl).
Defined.

(** ** Blocked pairs *)

Section BotStateFacts.
Import BotStateManager.

Lemma run_app l1 l2 s : run (l1 ++ l2) s = run l2 (run l1 s).
Proof. unfold run. apply fold_left_app. Qed.

Lemma run_frame pair after : forall s,
  Forall (fun o => pair_of o <> pair) after ->
  (pair ∈ blocked_pairs (run after s) <-> pair ∈ blocked_pairs s) /\
  blocked_reasons (run after s) !! pair = blocked_reasons s !! pair.
Proof.
  induction after as [|o after IH]; intros s Hall; [now split|].
  inversion Hall as [|? ? Ho Hrest]; subst.
  change (run (o :: after) s) with (run after (apply o s)).
  destruct (IH (apply o s) Hrest) as [IH1 IH2]. rewrite IH1, IH2.
  destruct o as [p r|p]; simpl in *.
  - split; [set_solver | now rewrite lookup_insert_ne].
  - split; [set_solver | now rewrite lookup_delete_ne].
Qed.
End BotStateFacts.

(** A pair stays blocked, with the reason given when it was blocked,
    through any calls that name other pairs; after [unblock_pair] it is
    free and has no reason, whatever happened before. *)
Theorem block_state_follows_the_last_call
        (before after : list BotStateManager.op) (pair reason : string) :
  Forall (fun o => BotStateManager.pair_of o <> pair) after ->
  let blocked := BotStateManager.run
                   (before ++ [BotStateManager.Block pair reason] ++ after)
                   BotStateManager.init in
  let freed := BotStateManager.run
                 (before ++ [BotStateManager.Unblock pair] ++ after)
                 BotStateManager.init in
  BotStateManager.is_pair_blocked pair blocked = true /\
  BotStateManager.get_block_reason pair blocked = reason /\
  BotStateManager.is_pair_blocked pair freed = false /\
  BotStateManager.get_block_reason pair freed = EmptyString.
Proof.
  intros Hafter blocked freed. subst blocked freed.
  rewrite !run_app.
  set (s := BotStateManager.run before BotStateManager.init).
  unfold BotStateManager.is_pair_blocked, BotStateManager.get_block_reason.
  destruct (run_frame pair after
              (BotStateManager.run [BotStateManager.Block pair reason] s) Hafter)
    as [Hb1 Hb2].
  destruct (run_frame pair after
              (BotStateManager.run [BotStateManager.Unblock pair] s) Hafter)
    as [Hf1 Hf2].
  rewrite Hb2, Hf2. cbn.
  rewrite lookup_insert_eq, lookup_delete_eq. cbn.
  repeat split.
  - apply bool_decide_eq_true. apply Hb1. cbn. set_solver.
  - apply bool_decide_eq_false. rewrite Hf1. cbn. set_solver.
Qed.

Lemma block_state_follows_the_last_call_witness :
  let before := [BotStateManager.Block "ETH_USDT" "old"] in
  let after := [BotStateManager.Unblock "BTC_USDT"; BotStateManager.Block "BTC_USDT" "low"] in
  BotStateManager.is_pair_blocked "ETH_USDT"
    (BotStateManager.run (before ++ [BotStateManager.Block "ETH_USDT" "funds"] ++ after)
       BotStateManager.init) = true /\
  BotStateManager.get_block_reason "ETH_USDT"
    (BotStateManager.run (before ++ [BotStateManager.Block "ETH_USDT" "funds"] ++ after)
       BotStateManager.init) = "funds"%string.
Proof.
  intros before after.
  pose proof (block_state_follows_the_last_call before after "ETH_USDT" "funds") as Hw.
  cbv zeta in Hw.
  destruct Hw as [H1 [H2 _]]; [|split; assumption].
  repeat constructor; discriminate.
Defined.

(** ** The amount the wallet manager suggests *)

(** Whatever the operator answers, the amount suggested for an order is
    either 0 or the requested amount raised to the exchange minimum; in
    the second case it passes [validate_order_value], it is covered by
    the available balance and no pair is blocked by the call. *)
Theorem suggested_amount_is_zero_or_affordable
        {C : Type} `{WalletManager.IConfirmationService C}
        (service : C) (now : Q) (balance : option Q) (requested : Q)
        (pair reason : string) (m : WalletManager.t) :
  let r := WalletManager.suggest_affordable_amount service now balance requested
             pair reason m in
  let a := WalletManager.get_available_usdt now false balance m in
  fst r = 0 \/
  (fst r == OrderLimits.adjust_to_minimum requested /\
   fst (OrderLimits.validate_order_value (fst r)) = true /\
   fst r <= fst a /\
   snd r = snd a).
Proof.
  intros r a. subst r a. unfold WalletManager.suggest_affordable_amount.
  destruct (WalletManager.get_available_usdt now false balance m) as [available m1].
  cbn [fst snd].
  unfold OrderLimits.adjust_to_minimum, OrderLimits.validate_order_value.
  set (min_gate_io := GateIOLimits.get_min_order_value_with_margin).
  destruct (Qgeb requested min_gate_io) eqn:Ereq.
  - destruct (Qle_bool requested available) eqn:Eav.
    + right. cbn [fst snd]. apply Qgeb_ge in Ereq. apply Qle_bool_iff in Eav.
      split; [symmetry; apply Q.max_l; exact Ereq|].
      split; [now apply Qgeb_ge|]. split; [exact Eav | reflexivity].
    + left. now destruct (WalletManager.request_insufficient_funds_confirmation _ _ _ _).
  - destruct (Qgeb available min_gate_io) eqn:Eav.
    + destruct (WalletManager.request_order_adjustment_confirmation _ _ _ _);
        [right | now left].
      cbn [fst snd]. apply Qgeb_lt in Ereq. apply Qgeb_ge in Eav.
      split; [symmetry; apply Q.max_r; lra|].
      split; [apply Qgeb_ge; apply Qle_refl|]. split; [exact Eav | reflexivity].
    + left. now destruct (WalletManager.request_insufficient_funds_confirmation _ _ _ _).
Qed.

(** ** The allocation of the capital *)



(** ** Fees and breakeven *)



(** ** The slope of the prices *)

Section TrendFacts.














End TrendFacts.



(** ** Partial profit taking *)

(** For a position entered at a positive price, the share
    [partial_profit_targets] tells to take never decreases as the price
    rises, stays between 0 and 1, is 0 below a gain of 1 % and is 1 from
    a gain of 3 % on. *)
Theorem profit_taking_grows_with_the_price (entry c1 c2 : Q) :
  0 < entry ->
  c1 <= c2 ->
  ProfitLock.partial_profit_targets entry c1 <= ProfitLock.partial_profit_targets entry c2 /\
  0 <= ProfitLock.partial_profit_targets entry c1 /\
  ProfitLock.partial_profit_targets entry c2 <= 1 /\
  (c1 < entry * 1.01 -> ProfitLock.partial_profit_targets entry c1 == 0) /\
  (entry * 1.03 <= c2 -> ProfitLock.partial_profit_targets entry c2 == 1).
Proof.
  intros He Hc. unfold ProfitLock.partial_profit_targets.
  replace (Qltb 0 entry) with true by (symmetry; now apply Qltb_lt).
  set (p1 := (c1 - entry) / entry). set (p2 := (c2 - entry) / entry).
  assert (Hp : p1 <= p2).
  { unfold p1, p2, Qdiv. apply Qmult_le_compat_r; [lra|].
    apply Qlt_le_weak. now apply Qinv_lt_0_compat. }
  assert (Hlow : c1 < entry * 1.01 -> p1 < 0.01).
  { intros H. unfold p1. apply Qlt_shift_div_r; [exact He | lra]. }
  assert (Hhigh : entry * 1.03 <= c2 -> 0.03 <= p2).
  { intros H. unfold p2. apply Qle_shift_div_l; [exact He | lra]. }
  clearbody p1 p2. cbn [fold_left ProfitLock.profit_levels fst snd].
  destruct (Qgeb p1 0.01) eqn:A1; destruct (Qgeb p1 0.02) eqn:A2;
    destruct (Qgeb p1 0.03) eqn:A3;
    destruct (Qgeb p2 0.01) eqn:B1; destruct (Qgeb p2 0.02) eqn:B2;
    destruct (Qgeb p2 0.03) eqn:B3;
    repeat match goal with
           | H : Qgeb _ _ = true |- _ => apply Qgeb_ge in H
           | H : Qgeb _ _ = false |- _ => apply Qgeb_lt in H
           end;
    try (exfalso; lra);
    (split; [apply Q.min_le_compat_l; lra|]);
    (split; [apply Q.min_glb; lra|]);
    (split; [eapply Qle_trans; [apply Q.le_min_l | lra]|]);
    (split; [intros H; specialize (Hlow H);
             first [exfalso; lra | apply Q.min_r; lra]|]);
    (intros H; specialize (Hhigh H);
     first [exfalso; lra | rewrite Q.min_l; [reflexivity | lra]]).
Qed.

Lemma profit_taking_grows_with_the_price_witness :
  ProfitLock.partial_profit_targets 100 101.5 <= ProfitLock.partial_profit_targets 100 102.5.
Proof.
  exact (proj1 (profit_taking_grows_with_the_price 100 101.5 102.5 eq_refl
                  ltac:(vm_compute; discriminate))).
Defined.

(** ** The orders of the engine *)

(** Rounding to eight decimals leaves a multiple of 1e-8 as it is. *)
Lemma round_half_even_int (x : Q) (n : Z) :
  x == inject_Z n -> round_half_even x = n.
Proof.
  intros Hx. unfold round_half_even.
  assert (Hf : Qfloor x = n).
  { rewrite (Qfloor_comp _ _ Hx). apply Qfloor_Z. }
  rewrite Hf.
  replace (Qltb (x - inject_Z n) 0.5) with true; [reflexivity|].
  symmetry. apply Qltb_lt. lra.
Qed.

Lemma round8_of_multiple (n : Z) :
  round8 (inject_Z n / 100000000) = inject_Z n / 100000000.
Proof.
  unfold round8. f_equal. f_equal. apply round_half_even_int. field.
Qed.

Lemma round8_idempotent (x : Q) : round8 (round8 x) = round8 x.
Proof. unfold round8 at 2 3. apply round8_of_multiple. Qed.

Lemma round_amount_fixed (q : Q) : round8 (round_amount q) = round_amount q.
Proof. unfold round_amount. apply round8_of_multiple. Qed.

(** Truncation never rounds a positive quantity up, and gives nothing
    positive from a quantity that is not. *)
Lemma round_amount_le (q : Q) : 0 <= q -> round_amount q <= q.
Proof.
  intros Hq. unfold round_amount.
  set (s := q * 100000000).
  assert (Hs : 0 <= s) by (unfold s; lra).
  assert (Hn : (0 <= Qnum s)%Z).
  { destruct s as [a b]. unfold Qle in Hs. simpl in *. lia. }
  rewrite Z.quot_div_nonneg by (try exact Hn; reflexivity).
  change (Qnum s / Z.pos (Qden s))%Z with (Qfloor s).
  pose proof (Qfloor_le s) as Hfl.
  apply Qle_shift_div_r; [reflexivity|]. fold s. exact Hfl.
Qed.

Lemma round_amount_pos (q : Q) : 0 < round_amount q -> 0 < q.
Proof.
  intros Hr. destruct (Qlt_le_dec 0 q) as [|Hq]; [assumption|]. exfalso.
  unfold round_amount in Hr.
  set (s := q * 100000000) in *.
  assert (Hs : s <= 0) by (unfold s; lra).
  assert (Hn : (Qnum s <= 0)%Z).
  { destruct s as [a b]. unfold Qle in Hs. simpl in *. lia. }
  assert (Hq0 : (Z.quot (Qnum s) (Z.pos (Qden s)) <= 0)%Z).
  { pose proof (Z.quot_opp_l (Qnum s) (Z.pos (Qden s)) ltac:(lia)) as Ho.
    pose proof (Z.quot_pos (- Qnum s) (Z.pos (Qden s)) ltac:(lia) ltac:(lia)). lia. }
  assert (inject_Z (Z.quot (Qnum s) (Z.pos (Qden s))) <= 0).
  { change 0 with (inject_Z 0). rewrite <- Zle_Qle. exact Hq0. }
  assert (inject_Z (Z.quot (Qnum s) (Z.pos (Qden s))) / 100000000 <= 0).
  { apply Qle_shift_div_r; [reflexivity | lra]. }
  lra.
Qed.

(** The limit price of the entry is positive. *)
Lemma optimal_buy_price_positive (e : Engine.env) : 0 < Engine.optimal_buy_price e.
Proof.
  unfold Engine.optimal_buy_price.
  set (x := Qmax 0.00000001 _).
  assert (Hx : 0.00000001 <= x) by apply Q.le_max_l.
  unfold round8.
  assert (H1 : (1 <= round_half_even (x * 100000000))%Z).
  { unfold round_half_even.
    assert (Hf : (1 <= Qfloor (x * 100000000))%Z).
    { change 1%Z with (Qfloor 1). apply Qfloor_resp_le. lra. }
    destruct (Qltb _ _); [exact Hf|]. destruct (Qltb _ _); [lia|].
    destruct (Z.even _); lia. }
  assert (H2 : 1 <= inject_Z (round_half_even (x * 100000000))).
  { change 1 with (inject_Z 1). rewrite <- Zle_Qle. exact H1. }
  apply Qlt_shift_div_l; [reflexivity | lra].
Qed.

(** The size of the entry is capped by [usdt_per_trade]. *)
Lemma adaptive_position_size_capped p e :
  Engine.adaptive_position_size p e <= Engine.usdt_per_trade p.
Proof.
  unfold Engine.adaptive_position_size. cbv zeta.
  destruct (Qltb (Engine.usdt_per_trade p) _) eqn:E; [lra|].
  now apply Qltb_ge in E.
Qed.

Section EngineOrders.
Import GateIOClient Engine EngineInvariants.

(** Case analysis on an innermost test of the goal. *)
Ltac break_match :=
  match goal with
  | |- context [match ?x with _ => _ end] =>
      lazymatch x with
      | context [match _ with _ => _ end] => fail
      | _ => destruct x eqn:?
      end
  end.

Ltac project :=
  cbn [out_vars out_events out_raised fst snd accepted
       current_state trades_done position_entry_price position_quantity
       position_time level1 level2 level3 dca_total_invested
       dca_weighted_avg_price currency safety failure_tracker sleep_manager
       main_loop_iterations
       set_state set_trades_done set_position set_position_time set_levels
       set_dca set_currency set_safety set_failure_tracker set_sleep_manager
       set_iterations] in *.

Lemma orders_of_app ev1 ev2 : orders_of (ev1 ++ ev2) = orders_of ev1 ++ orders_of ev2.
Proof. unfold orders_of. apply flat_map_app. Qed.

Lemma orders_of_sleeps n d : orders_of (sleeps n d) = [].
Proof. induction n; simpl; auto. Qed.

(** What [place] leaves among the events: nothing, or the one order,
    and then the client's checks passed. *)
Lemma place_orders p sd amount price reply :
  orders_of (snd (place p sd amount price reply)) = [] \/
  (orders_of (snd (place p sd amount price reply))
   = [mkOrder (pair p) sd (round8 amount) (round8 price)] /\
   order_is_valid (pair p) amount price = true).
Proof.
  unfold place. destruct (order_is_valid _ _ _); [right | left]; auto.
Qed.

(** The orders of the buy path. *)
Lemma buy_path_orders p e v :
  orders_of (out_events (buy_path p e v))
  = orders_of (snd (place p Buy (buy_quantity p e) (optimal_buy_price e) (e_reply1 e)))
  \/ orders_of (out_events (buy_path p e v)) = [].
Proof.
  unfold buy_path, done, raised.
  destruct (_ <? _)%nat; [right; reflexivity|].
  destruct (negb (entry_conditions e)); [right; reflexivity|].
  destruct (Qle_bool _ _); [right; reflexivity|].
  destruct (place p Buy _ _ _) as [r ev]. cbn [snd].
  destruct (negb (accepted r)); project.
  { left. rewrite orders_of_app. cbn. now rewrite app_nil_r. }
  destruct (poll_loop _ _ _ _ _) as [executed polls].
  destruct (negb executed); project.
  { left. rewrite !orders_of_app, orders_of_sleeps. cbn. now rewrite app_nil_r. }
  destruct (negb _); project; left;
    rewrite !orders_of_app, ?orders_of_sleeps; cbn; now rewrite ?app_nil_r.
Qed.

Lemma round8_optimal_buy_price e : round8 (optimal_buy_price e) = optimal_buy_price e.
Proof. unfold optimal_buy_price. apply round8_idempotent. Qed.

Lemma round8_buy_quantity p e : round8 (buy_quantity p e) = buy_quantity p e.
Proof. unfold buy_quantity. apply round_amount_fixed. Qed.

(** The value of an entry order that passed the client's checks. *)
Lemma entry_value_bounds p e :
  order_is_valid (pair p) (buy_quantity p e) (optimal_buy_price e) = true ->
  GateIOLimits.get_min_order_value_with_margin
  <= round8 (buy_quantity p e) * round8 (optimal_buy_price e) /\
  round8 (buy_quantity p e) * round8 (optimal_buy_price e) <= usdt_per_trade p.
Proof.
  intros Hvalid. rewrite round8_optimal_buy_price, round8_buy_quantity.
  unfold order_is_valid in Hvalid.
  apply andb_prop in Hvalid. destruct Hvalid as [Hvalid Hmin].
  apply andb_prop in Hvalid. destruct Hvalid as [Hvalid _].
  apply andb_prop in Hvalid. destruct Hvalid as [_ Hqty].
  apply negb_true_iff, Qltb_ge in Hmin. apply Qltb_lt in Hqty.
  split; [exact Hmin|].
  pose proof (optimal_buy_price_positive e) as Hprice.
  pose proof (adaptive_position_size_capped p e) as Hcap.
  unfold buy_quantity in *.
  revert Hmin Hqty Hprice Hcap.
  generalize (optimal_buy_price e), (adaptive_position_size p e).
  intros price size Hmin Hqty Hprice Hcap.
  pose proof (round_amount_pos _ Hqty) as Hpos.
  assert (H0 : 0 <= size / price) by lra.
  pose proof (round_amount_le (size / price) H0) as Hle.
  assert (Hmul : round_amount (size / price) * price <= size / price * price).
  { apply Qmult_le_compat_r; lra. }
  assert (Hdiv : size / price * price == size) by (field; lra).
  eapply Qle_trans; [exact Hmul|]. rewrite Hdiv. exact Hcap.
Qed.

Lemma no_orders (l : list order) (P : order -> Prop) :
  l = [] -> (length l <= 1)%nat /\ forall ord, In ord l -> P ord.
Proof. intros ->. split; [simpl; lia | intros ord []]. Qed.

Lemma orders_of_no_order (ev : list event) :
  (forall o, ~ In (Order o) ev) -> orders_of ev = [].
Proof.
  induction ev as [|x ev IH]; intros H; [reflexivity|].
  destruct x as [o| |]; simpl.
  - exfalso. apply (H o). now left.
  - apply IH. intros o Ho. apply (H o). now right.
  - apply IH. intros o Ho. apply (H o). now right.
Qed.

(** Outside POSITION_OPEN a pass places at most one order, and it can
    only be the entry: a buy on the pair of the run whose value lies
    between the exchange minimum with its margin, 5.75 USDT, and
    [usdt_per_trade]. *)
Theorem entry_order_within_budget p e v :
  current_state v <> POSITION_OPEN ->
  let orders := orders_of (out_events (state_machine p e v)) in
  (length orders <= 1)%nat /\
  forall ord, In ord orders ->
    o_side ord = Buy /\ o_pair ord = pair p /\
    GateIOLimits.get_min_order_value_with_margin <= o_amount ord * o_price ord /\
    o_amount ord * o_price ord <= usdt_per_trade p.
Proof.
  intros Hst orders. subst orders. unfold state_machine.
  destruct (current_state v) eqn:Es; [|congruence|].
  - unfold step_waiting_to_buy.
    destruct (Qltb 0 (get_position_info e)).
    { apply no_orders. unfold virtual_entry, done.
      destruct (match e_ticker e with Some t => Some t | None => e_best_ask e end) as [m|];
        [destruct (truthy m && Qltb 0 m)|]; reflexivity. }
    destruct (buy_path_orders p e v) as [-> | ->]; [|now apply no_orders].
    destruct (place_orders p Buy (buy_quantity p e) (optimal_buy_price e) (e_reply1 e))
      as [-> | [-> Hvalid]]; [now apply no_orders|].
    split; [simpl; lia|]. intros ord [<- | []].
    split; [reflexivity|]. split; [reflexivity|].
    exact (entry_value_bounds p e Hvalid).
  - apply no_orders. unfold step_waiting_for_sell, done.
    destruct (Qeq_bool _ _); [reflexivity|].
    destruct (negb _); reflexivity.
Qed.

Lemma entry_order_within_budget_witness :
  let orders := orders_of (out_events (state_machine (EngineScenarios.btc 200)
                                         EngineScenarios.filled_buy EngineScenarios.fresh)) in
  (length orders <= 1)%nat /\
  forall ord, In ord orders ->
    o_side ord = Buy /\ o_pair ord = "BTC_USDT"%string /\
    GateIOLimits.get_min_order_value_with_margin <= o_amount ord * o_price ord /\
    o_amount ord * o_price ord <= 100.
Proof.
  apply (entry_order_within_budget (EngineScenarios.btc 200) EngineScenarios.filled_buy
           EngineScenarios.fresh).
  discriminate.
Defined.

Ltac open_machine :=
  unfold state_machine, step_waiting_for_sell, step_waiting_to_buy,
    step_position_open, virtual_entry, sell_at_target,
    below_target, dca_buy, stop_loss, timeout_sale, fail_order, place, done, raised.

Ltac split_cases := repeat (break_match; project).

(** The third rung is chosen only on a loss that reached its trigger,
    and only once. *)
Lemma ladder_stop_loss pnl v :
  ladder pnl v = StopLoss ->
  pnl <= trigger_percent (level3 v) /\ activated (level3 v) = false.
Proof.
  unfold ladder. destruct (Qltb pnl 0); [|discriminate].
  destruct (_ && negb (activated (level1 v))); [discriminate|].
  destruct (_ && activated (level1 v)); [discriminate|].
  destruct (Qle_bool pnl (trigger_percent (level3 v))) eqn:E; [|discriminate].
  destruct (activated (level3 v)); [discriminate|].
  intros _. split; [now apply Qle_bool_iff | reflexivity].
Qed.

Ltac settle_orders Hst :=
  split_cases; try discriminate;
  cbn [orders_of flat_map app In length]; rewrite ?Hst;
  (split; [lia|]);
  (split;
   [|try discriminate; intros _;
     repeat first [apply Exists_cons_hd; reflexivity | apply Exists_cons_tl]]);
  let ord := fresh "ord" in
  let Hin := fresh "Hin" in
  let Hside := fresh "Hside" in
  intros ord Hin Hside;
  repeat match goal with
         | H : _ \/ _ |- _ => destruct H
         | H : False |- _ => destruct H
         | H : _ = ord |- _ => subst ord
         end;
  try discriminate Hside;
  (split; [reflexivity|]);
  first [ left; assumption
        | right; left; assumption
        | right; right;
          match goal with
          | H : _ && Qltb _ _ = true |- _ =>
              apply andb_prop in H; destruct H as [_ H]; apply Qltb_lt in H; exact H
          end ].

(** In POSITION_OPEN a pass places at most two orders.  A sell order is
    for the whole recorded quantity, and is placed only when the price
    reached the target, or the loss reached the trigger of the third
    rung, not used before, or the position is older than the timeout.
    The state becomes WAITING_FOR_SELL only in a pass that placed a sell
    order. *)
Theorem sell_orders_have_a_reason p e v :
  current_state v = POSITION_OPEN ->
  let o := state_machine p e v in
  let pnl := calculate_strategy_pnl (current_price_of e v) (position_entry_price v) in
  (length (orders_of (out_events o)) <= 2)%nat /\
  (forall ord, In ord (orders_of (out_events o)) -> o_side ord = Sell ->
     o_amount ord = round8 (position_quantity (out_vars o)) /\
     (target_price p v <= current_price_of e v \/
      (pnl <= trigger_percent (level3 v) /\ activated (level3 v) = false) \/
      timeout_minutes p * 60 < e_now e - position_time v)) /\
  (current_state (out_vars o) = WAITING_FOR_SELL ->
   Exists (fun ord => o_side ord = Sell) (orders_of (out_events o))).
Proof.
  intros Hst o pnl. subst o pnl.
  open_machine. rewrite Hst.
  destruct (Qeq_bool (get_position_info e) 0); project.
  { cbn [orders_of flat_map app In length]. rewrite ?Hst.
    split; [lia|]. split; [intros ord []|discriminate]. }
  destruct (Qltb 0 (position_entry_price v)); project;
    [|cbn [orders_of flat_map app In length]; rewrite ?Hst;
      split; [lia|]; split; [intros ord []|discriminate]].
  destruct (Qgeb (current_price_of e v) (target_price p v)) eqn:Etarget.
  { apply Qgeb_ge in Etarget. settle_orders Hst. }
  clear Etarget.
  destruct (ladder _ v) eqn:Eladder;
    try (apply ladder_stop_loss in Eladder); settle_orders Hst.
Qed.

Lemma sell_orders_have_a_reason_witness :
  let o := state_machine (EngineScenarios.btc 200) EngineScenarios.crash
             (EngineScenarios.open_position true true) in
  (length (orders_of (out_events o)) <= 2)%nat.
Proof.
  exact (proj1 (sell_orders_have_a_reason (EngineScenarios.btc 200) EngineScenarios.crash
                  (EngineScenarios.open_position true true) eq_refl)).
Defined.

(** A pass counts at most one trade. *)
Lemma state_machine_trades p e v :
  trades_done (out_vars (state_machine p e v)) = trades_done v \/
  trades_done (out_vars (state_machine p e v)) = (trades_done v + 1)%Z.
Proof.
  unfold state_machine. destruct (current_state v).
  - left. unfold step_waiting_to_buy, virtual_entry, buy_path, place, done, raised.
    split_cases; reflexivity.
  - open_machine. split_cases; auto.
  - open_machine. split_cases; auto.
Qed.

Lemma pass_trades p e v :
  match pass p e v with
  | Continue v' _ | Break v' _ =>
      (trades_done v <= trades_done v' <= trades_done v + 1)%Z
  end.
Proof.
  unfold pass.
  destruct (OrderFailureTracker.can_place_order _ _) as [can f]. project.
  destruct (negb can).
  { match goal with |- context [breaker_wait e ?x] =>
      pose proof (breaker_wait_frame e x) as (_ & _ & Ht & _);
      destruct (breaker_wait e x) as [v2 ev] end.
    project. lia. }
  destruct (SafetySystem.check_trade _ _ _) as [ok s]. project.
  destruct (negb ok); project; [lia|].
  match goal with |- context [state_machine p e ?x] =>
    pose proof (state_machine_trades p e x) as Ht;
    destruct (out_raised (state_machine p e x)) end; project; lia.
Qed.

Lemma loop_trades p envs fuel : forall k v ev,
  (trades_done v <= trades_done (f_vars (loop p envs fuel k v ev))
   <= Z.max (trades_done v) (max_trades p))%Z.
Proof.
  induction fuel as [|fuel IH]; intros k v ev; cbn [loop];
    destruct (trades_done v <? max_trades p)%Z eqn:Elt; cbn [negb f_vars]; try lia;
    apply Z.ltb_lt in Elt;
    destruct (SafetySystem.check_trade _ _ _) as [ok s];
    destruct (negb ok); cbn [f_vars]; project; try lia;
    destruct (negb _); cbn [f_vars]; project; try lia.
  pose proof (pass_trades p (envs k) (set_safety s v)) as Hp.
  destruct (pass p (envs k) (set_safety s v)) as [v2 ev2 | v2 ev2]; project.
  - specialize (IH (S k) v2 (ev ++ ev2)). lia.
  - cbn [f_vars]. lia.
Qed.

(** A run never counts its trades down and never counts past
    [max_trades]: when [scalp_runner] returns, [trades_done] lies
    between its starting value and the larger of that value and
    [max_trades]. *)
Theorem trades_done_stays_within_max_trades p envs v :
  (trades_done v <= trades_done (f_vars (scalp_runner p envs v))
   <= Z.max (trades_done v) (max_trades p))%Z.
Proof. apply loop_trades. Qed.



(** A position adopted from the balance by a run that has not placed a
    buy leaves [currency] unbound, and it stays unbound while the balance
    is there.  The sale at the target then fails on its log line: the
    pass raises, places no order and leaves every variable as it was. *)
Theorem adopted_position_is_not_sold_at_target p e v :
  currency v = None ->
  0 < get_position_info e ->
  let o := state_machine p e v in
  currency (out_vars o) = None /\
  (current_state v = POSITION_OPEN ->
   0 < position_entry_price v ->
   target_price p v <= current_price_of e v ->
   o = raised v []).
Proof.
  intros Hcur Hpos o. subst o.
  assert (Hnz : Qeq_bool (get_position_info e) 0 = false).
  { destruct (Qeq_bool _ _) eqn:E; [|reflexivity]. apply Qeq_bool_iff in E. lra. }
  apply Qltb_lt in Hpos.
  split.
  - open_machine. rewrite Hpos, Hnz, Hcur.
    destruct (current_state v); split_cases; exact Hcur.
  - intros Hst Hentry Htarget.
    apply Qltb_lt in Hentry. apply Qgeb_ge in Htarget.
    unfold state_machine, step_position_open, sell_at_target.
    rewrite Hst, Hnz, Hentry, Htarget, Hcur. reflexivity.
Qed.

Lemma adopted_position_is_not_sold_at_target_witness :
  state_machine (EngineScenarios.btc 200) DcaScenarios.at_target DcaScenarios.adopted
  = raised DcaScenarios.adopted [].
Proof.
  refine (proj2 (adopted_position_is_not_sold_at_target (EngineScenarios.btc 200)
                   DcaScenarios.at_target DcaScenarios.adopted _ _) _ _ _).
  - reflexivity.
  - vm_compute. reflexivity.
  - reflexivity.
  - vm_compute. reflexivity.
  - vm_compute. discriminate.
Defined.

End EngineOrders.

(** ** The budget of the supervisor *)

Section BudgetFacts.
Import SessionManager.

(** The allocated total after a record is stored. *)
Lemma allocated_sum_insert (m : gmap string BotStatus) k r :
  allocated_sum (<[k:=r]> m)
  == (if is_active (bot_status r) then allocated_budget r else 0)
     + allocated_sum (delete k m).
Proof.
  unfold allocated_sum. rewrite <- insert_delete_eq.
  rewrite (allocation_of_perm _ _
             (map_to_list_insert (delete k m) k r (lookup_delete_eq m k))).
  unfold allocation_of. rewrite filter_cons.
  destruct (decide _) as [Hact|Hact]; cbn [snd] in Hact.
  - rewrite Hact. cbn. reflexivity.
  - destruct (is_active (bot_status r)); [congruence|]. cbn. lra.
Qed.

Lemma allocated_sum_without_inactive (m : gmap string BotStatus) k :
  (forall r, m !! k = Some r -> is_active (bot_status r) = false) ->
  allocated_sum (delete k m) == allocated_sum m.
Proof.
  intros Hk. destruct (m !! k) as [r|] eqn:E.
  - symmetry. apply (allocated_sum_skips_inactive m k r E). now apply Hk.
  - now rewrite delete_id.
Qed.

(** Starting a bot on a pair that holds no running or starting record
    never hands out more than the balance leaves: the grant is at most
    what was available, and the allocated total, which grows by the
    grant, stays within the balance. *)
Theorem start_bot_stays_within_the_balance
        (total now : Q) (new_pid : Z) (pair : string) (budget : Q) (s : t) :
  allocated_sum (bots s) <= total ->
  (forall r, bots s !! pair = Some r -> is_active (bot_status r) = false) ->
  let s' := snd (start_bot total now new_pid pair budget s) in
  allocated_sum (bots s') <= total /\
  (fst (start_bot total now new_pid pair budget s) = true ->
   exists r,
     bots s' !! pair = Some r /\
     bot_status r = RUNNING /\
     allocated_budget r <= total - allocated_sum (bots s) /\
     allocated_sum (bots s') == allocated_sum (bots s) + allocated_budget r /\
     workers s' !! pair = Some new_pid).
Proof.
  intros Hsum Hfree s'. subst s'.
  pose proof (allocated_sum_without_inactive (bots s) pair Hfree) as Hdel.
  unfold start_bot.
  destruct (workers s !! pair) eqn:Hw; cbn [fst snd]; [split; [exact Hsum | discriminate]|].
  unfold allocate_budget. cbn [update_budget_info available_usdt].
  set (A := allocated_sum (bots s)) in *.
  assert (Hmax : Qmax 0 (total - A) == total - A) by (apply Q.max_r; lra).
  destruct (Qle_bool budget (Qmax 0 (total - A))) eqn:Hfull; cbn [negb fst snd].
  - apply Qle_bool_iff in Hfull. rewrite Hmax in Hfull.
    cbn [set_bot_status with_bots with_workers with_budget bots workers
         bot_pair set_status set_pid].
    rewrite insert_insert_eq. unfold set_status, set_pid.
    cbn [bot_pair bot_status pid start_time allocated_budget trades_today
         pnl_percent last_action errors_count].
    pose proof (allocated_sum_insert (bots s) pair
                  (mkBot pair RUNNING (Some new_pid) (Some now) budget 0 0 None 0)) as Hins.
    cbn [is_active bot_status allocated_budget] in Hins. fold A in Hdel.
    split; [lra|]. intros _. eexists. split; [apply lookup_insert_eq|].
    cbn [bot_status allocated_budget].
    split; [reflexivity|]. split; [lra|]. split; [lra|]. apply lookup_insert_eq.
  - destruct (Qltb 10 (Qmax 0 (total - A))) eqn:Hpart; cbn [negb fst snd];
      [|cbn [bots with_budget]; split; [exact Hsum | discriminate]].
    apply Qltb_lt in Hpart. rewrite Hmax in Hpart.
    cbn [set_bot_status with_bots with_workers with_budget bots workers
         bot_pair set_status set_pid].
    rewrite insert_insert_eq. unfold set_status, set_pid.
    cbn [bot_pair bot_status pid start_time allocated_budget trades_today
         pnl_percent last_action errors_count].
    pose proof (allocated_sum_insert (bots s) pair
                  (mkBot pair RUNNING (Some new_pid) (Some now)
                         (Qmax 0 (total - A) * 0.9) 0 0 None 0)) as Hins.
    cbn [is_active bot_status allocated_budget] in Hins. fold A in Hdel.
    assert (Hg : Qmax 0 (total - A) * 0.9 == (total - A) * 0.9) by (rewrite Hmax; reflexivity).
    split; [lra|]. intros _. eexists. split; [apply lookup_insert_eq|].
    cbn [bot_status allocated_budget].
    split; [reflexivity|]. split; [lra|]. split; [lra|]. apply lookup_insert_eq.
Qed.

Lemma start_bot_stays_within_the_balance_witness :
  allocated_sum (bots (snd (start_bot 100 0 4343 "ETH_USDT" 80 SessionScenarios.started)))
  <= 100.
Proof.
  refine (proj1 (start_bot_stays_within_the_balance 100 0 4343 "ETH_USDT" 80
                   SessionScenarios.started _ _)).
  - vm_compute. discriminate.
  - intros r Hr. vm_compute in Hr. discriminate.
Defined.

(** Stopping a bot frees its budget at once: the allocated total of the
    records and the one published in the shared budget are those of the
    other bots, the worker is forgotten, and no other record or worker
    is touched. *)
Theorem stop_bot_releases_the_budget (total : Q) (pair : string) (wpid : Z) (s : t) :
  well_keyed (bots s) ->
  workers s !! pair = Some wpid ->
  let s' := snd (stop_bot total pair s) in
  allocated_sum (bots s') == allocated_sum (delete pair (bots s)) /\
  allocated_usdt (global_budget s') == allocated_sum (delete pair (bots s)) /\
  total_usdt (global_budget s') = total /\
  workers s' !! pair = None /\
  (forall k, k <> pair ->
     bots s' !! k = bots s !! k /\ workers s' !! k = workers s !! k).
Proof.
  intros Hkeys Hw s'. subst s'. unfold stop_bot. rewrite Hw. cbn [snd].
  unfold deallocate_budget.
  destruct (bots s !! pair) as [b|] eqn:Hb.
  - assert (Hp : bot_pair b = pair) by now apply Hkeys.
    cbn [update_budget_info snd with_budget bots set_bot_status with_bots
         set_allocated bot_pair global_budget workers cleanup_worker with_workers
         allocated_usdt total_usdt].
    rewrite Hp, lookup_insert_eq.
    cbn [update_budget_info snd with_budget bots set_bot_status with_bots
         set_allocated set_status set_pid bot_pair global_budget workers cleanup_worker
         with_workers allocated_usdt total_usdt].
    unfold set_pid, set_status, set_allocated.
    cbn [bot_pair bot_status pid start_time allocated_budget trades_today
         pnl_percent last_action errors_count].
    rewrite ?Hp, insert_insert_eq.
    split.
    { rewrite allocated_sum_insert. cbn [is_active bot_status]. lra. }
    split.
    { rewrite allocated_sum_insert. cbn [is_active bot_status allocated_budget].
      destruct (is_active _); lra. }
    split; [reflexivity|]. split; [apply lookup_delete_eq|].
    intros k Hk. split; [now apply lookup_insert_ne | now apply lookup_delete_ne].
  - cbn [update_budget_info snd with_budget bots]. rewrite Hb.
    cbn [update_budget_info snd with_budget bots set_bot_status with_bots
         global_budget workers cleanup_worker with_workers allocated_usdt total_usdt].
    assert (Hdel : delete pair (bots s) = bots s) by now apply delete_id.
    rewrite Hdel.
    split; [reflexivity|]. split; [reflexivity|]. split; [reflexivity|].
    split; [apply lookup_delete_eq|].
    intros k Hk. split; [reflexivity | now apply lookup_delete_ne].
Qed.

Lemma stop_bot_releases_the_budget_witness :
  allocated_sum (bots (snd (stop_bot 100 "BTC_USDT" SessionScenarios.started)))
  == allocated_sum (delete "BTC_USDT"%string (bots SessionScenarios.started)).
Proof.
  refine (proj1 (stop_bot_releases_the_budget 100 "BTC_USDT" 4242
                   SessionScenarios.started _ _)).
  - apply start_bot_well_keyed. intros k r Hk.
    cbn in Hk. rewrite lookup_empty in Hk. discriminate.
  - vm_compute. reflexivity.
Defined.

End BudgetFacts.

(** ** The portfolio figures *)

Section PortfolioFacts.
Import GateIOClient Portfolio.

Local Abbreviation total f l := (fold_right Qplus 0 (map f l)).









(** The fill [t] is sound and priced within [lo, hi]. *)
Local Abbreviation priced lo hi :=
  (fun t : buy_trade =>
     0 < bt_amount t /\ bt_value_usdt t == bt_price t * bt_amount t /\
     lo <= bt_price t /\ bt_price t <= hi).




End PortfolioFacts.

(** ** The best price of the book *)

Section BookFacts.
Import OrderBook.

(** The order [sorted] puts the levels in. *)
Local Abbreviation before descending :=
  (fun a b : level => if descending : bool then fst b <= fst a else fst a <= fst b).

Lemma insert_level_perm d x l : Permutation (insert_level d x l) (x :: l).
Proof.
  induction l as [|y l IH]; cbn [insert_level]; [reflexivity|].
  destruct (if d then _ else _); [reflexivity|].
  rewrite IH. apply perm_swap.
Qed.

Lemma sorted_levels_perm d l : Permutation (sorted_levels d l) l.
Proof.
  induction l as [|x l IH]; cbn [sorted_levels fold_right]; [reflexivity|].
  fold (sorted_levels d l). rewrite insert_level_perm. now constructor.
Qed.

Lemma insert_level_sorted d x l :
  StronglySorted (before d) l -> StronglySorted (before d) (insert_level d x l).
Proof.
  induction 1 as [|y l Hs IH Hy]; cbn [insert_level].
  - repeat constructor.
  - destruct d.
    + destruct (Qle_bool (fst y) (fst x)) eqn:E.
      * apply Qle_bool_iff in E.
        constructor; [now constructor|].
        constructor; [exact E|].
        eapply List.Forall_impl; [|exact Hy]. cbv beta. intros z Hz. lra.
      * apply Qle_bool_false in E. constructor; [exact IH|].
        eapply Permutation_Forall; [symmetry; apply insert_level_perm|].
        constructor; [lra | exact Hy].
    + destruct (Qle_bool (fst x) (fst y)) eqn:E.
      * apply Qle_bool_iff in E.
        constructor; [now constructor|].
        constructor; [exact E|].
        eapply List.Forall_impl; [|exact Hy]. cbv beta. intros z Hz. lra.
      * apply Qle_bool_false in E. constructor; [exact IH|].
        eapply Permutation_Forall; [symmetry; apply insert_level_perm|].
        constructor; [lra | exact Hy].
Qed.

Lemma sorted_levels_sorted d l : StronglySorted (before d) (sorted_levels d l).
Proof.
  induction l as [|x l IH]; cbn [sorted_levels fold_right]; [constructor|].
  now apply insert_level_sorted.
Qed.

Lemma filter_length_perm (f : level -> bool) l l' :
  Permutation l l' -> length (List.filter f l) = length (List.filter f l').
Proof.
  induction 1 as [|x l l' _ IH|x y l|l l' l'' _ IH1 _ IH2]; cbn [List.filter].
  - reflexivity.
  - destruct (f x); cbn [length]; now rewrite IH.
  - destruct (f x), (f y); reflexivity.
  - now rewrite IH1.
Qed.

Lemma filter_none (f : level -> bool) l :
  Forall (fun x => f x = false) l -> List.filter f l = [].
Proof.
  induction 1 as [|x l Hx _ IH]; cbn [List.filter]; [reflexivity|].
  now rewrite Hx.
Qed.

Lemma filter_length_cons (f : level -> bool) x l :
  (length (List.filter f (x :: l)) <= S (length (List.filter f l)))%nat.
Proof. cbn [List.filter]. destruct (f x); cbn [length]; lia. Qed.

(** The price chosen among sorted levels leaves at most one level
    before it. *)
Lemma choose_sorted d (s : list level) r :
  StronglySorted (before d) s ->
  choose (firstn 2 s) = Some r ->
  In r (map fst s) /\
  (length (List.filter (fun x => if d then Qltb r (fst x) else Qltb (fst x) r) s) <= 1)%nat.
Proof.
  intros Hs Hr.
  destruct s as [|l1 [|l2 rest]]; cbn [firstn choose] in Hr; [discriminate| |].
  - injection Hr as <-. split; [now left|].
    cbn [List.filter]. destruct (if d then _ else _); cbn [length]; lia.
  - injection Hr as <-.
    inversion Hs as [|? ? Hs' H1]; subst.
    inversion Hs' as [|? ? _ H2]; subst.
    inversion H1 as [|? ? H12 H1r]; subst.
    destruct (Qltb (snd l2) (snd l1)).
    + split; [right; now left|].
      etransitivity; [apply filter_length_cons|]. apply le_n_S.
      rewrite filter_none; [cbn; lia|].
      constructor.
      * destruct d; apply Qltb_ge; lra.
      * eapply List.Forall_impl; [|exact H2]. cbv beta. intros z Hz.
        destruct d; apply Qltb_ge; lra.
    + split; [now left|].
      rewrite filter_none; [cbn; lia|].
      constructor; [destruct d; apply Qltb_ge; lra|].
      constructor.
      * destruct d; apply Qltb_ge; lra.
      * eapply List.Forall_impl; [|exact H1r]. cbv beta. intros z Hz.
        destruct d; apply Qltb_ge; lra.
Qed.

(** The price [get_best_book_price] answers is the price of a level of
    the book, and at most one level is better: for a sale at most one
    bid is higher, for a purchase at most one ask is lower. *)
Theorem best_book_price_is_among_the_two_best (b : book) (sd : GateIOClient.side) (r : Q) :
  get_best_book_price (Some b) sd = Some r ->
  match sd with
  | GateIOClient.Sell =>
      In r (map fst (bids b)) /\ (count_above r (bids b) <= 1)%nat
  | GateIOClient.Buy =>
      In r (map fst (asks b)) /\ (count_below r (asks b) <= 1)%nat
  end.
Proof.
  intros Hr. cbn [get_best_book_price] in Hr. destruct sd.
  - destruct (choose_sorted false _ r (sorted_levels_sorted false (asks b)) Hr) as [Hin Hc].
    split.
    + eapply Permutation_in; [|exact Hin].
      apply Permutation_map, sorted_levels_perm.
    + unfold count_below.
      rewrite <- (filter_length_perm _ _ _ (sorted_levels_perm false (asks b))).
      exact Hc.
  - destruct (choose_sorted true _ r (sorted_levels_sorted true (bids b)) Hr) as [Hin Hc].
    split.
    + eapply Permutation_in; [|exact Hin].
      apply Permutation_map, sorted_levels_perm.
    + unfold count_above.
      rewrite <- (filter_length_perm _ _ _ (sorted_levels_perm true (bids b))).
      exact Hc.
Qed.

Lemma best_book_price_is_among_the_two_best_witness :
  (count_above 99.9 (bids BookScenarios.thin_second) <= 1)%nat.
Proof.
  exact (proj2 (best_book_price_is_among_the_two_best BookScenarios.thin_second
                  GateIOClient.Sell 99.9 eq_refl)).
Defined.

End BookFacts.

(** ** The classification of the endpoints *)

Section ClassifierFacts.
Import RateLimit EndpointClassifier.

Lemma before_query_append (endpoint query : string) :
  before_query (endpoint +:+ "?" +:+ query) = before_query endpoint.
Proof.
  induction endpoint as [|c rest IH]; [reflexivity|].
  change (String c rest +:+ "?" +:+ query) with (String c (rest +:+ "?" +:+ query)).
  cbn [before_query]. destruct (Ascii.eqb c _); [reflexivity|].
  f_equal. exact IH.
Qed.

Lemma mapping_get_in key m c :
  mapping_get key m = Some c -> In (key, c) m.
Proof.
  induction m as [|[k v] m IH]; cbn [mapping_get]; [discriminate|].
  destruct (String.eqb_spec key k) as [->|_].
  - intros [= ->]. now left.
  - intros H. right. now apply IH.
Qed.

(** A POST or PUT request under [/spot/] whose path names orders is
    limited as an order placement, the batch cancellation apart; a
    query string after the path changes nothing to that. *)
Theorem order_requests_are_limited_as_orders (endpoint method : string) :
  writes method = true ->
  String.prefix "/spot/" (before_query endpoint) = true ->
  contains "orders" (before_query endpoint) = true ->
  before_query endpoint <> "/spot/cancel_batch_orders"%string ->
  classify_endpoint endpoint method = SPOT_ORDER /\
  forall query,
    classify_endpoint (endpoint +:+ "?" +:+ query) method = SPOT_ORDER.
Proof.
  intros Hw Hp Hc Hne.
  assert (H : classify_endpoint endpoint method = SPOT_ORDER).
  { unfold classify_endpoint. cbv zeta.
    revert Hp Hc Hne. generalize (before_query endpoint). intros c Hp Hc Hne.
    destruct (mapping_get c ENDPOINT_MAPPINGS) as [category|] eqn:Em.
    - apply mapping_get_in in Em. unfold ENDPOINT_MAPPINGS in Em. cbn [In] in Em.
      repeat (destruct Em as [Em|Em];
              [injection Em as <- <-;
               first [ discriminate Hp | discriminate Hc | now contradiction Hne
                     | cbn [String.eqb Ascii.eqb Bool.eqb]; now rewrite ?Hw ]|]).
      destruct Em.
    - now rewrite Hp, Hw, Hc. }
  split; [exact H|]. intros query.
  unfold classify_endpoint in *. now rewrite before_query_append.
Qed.

Lemma order_requests_are_limited_as_orders_witness :
  classify_endpoint "/spot/orders/12345" "PUT" = SPOT_ORDER.
Proof.
  refine (proj1 (order_requests_are_limited_as_orders "/spot/orders/12345" "PUT"
                   eq_refl eq_refl eq_refl _)).
  discriminate.
Defined.

End ClassifierFacts.
